(** * Support-message triage: the analysis engines and their fallbacks

    A shallow embedding of the triage core of the application:
    - [src/utils/apiClient.js]    ([groqRequest], [parseJsonResponse]),
    - [src/utils/llmHelper.js]    ([categorizeMessage] and its fallback),
    - [src/utils/urgencyScorer.js] ([detectSignals], [calculateUrgency]),
    - [src/utils/templates.js]    ([getRecommendedAction] and its fallback),
    - [src/pages/AnalyzePage.jsx] ([handleAnalyze]).

    JavaScript values are an inductive type with the language's truthiness
    and [||]; strings are byte strings and the case conversions act on the
    ASCII letters (every keyword table of the program is ASCII).  Numbers
    are exact rationals: the program only tests them for zero, compares
    them with small integer constants and adds small integers.

    Asynchronous code is written in a small monad that records the
    observable events (remote calls, sleeps, console output) and carries
    either a returned value or a thrown one, so that [try]/[catch] and
    [await] read as in the source.  The remote service, the abort signal,
    the random source and the clock are an explicit environment.

    Left out: the construction of the SDK client, the wiring of the
    external signal to the per-attempt controller (its effect, an aborted
    attempt, is part of what the environment answers), the text of the
    prompts, the case mapping of letters and the white space outside
    ASCII, and the rounding of doubles.  A reply is a string, a rejection
    is an object; the statements that depend on a message being ASCII or
    on a rejection being neither [null] nor [undefined] say so. *)

From Stdlib Require Import String Ascii List ZArith QArith Bool Lia.
From Stdlib Require Import Permutation Sorted.
Import ListNotations.

Local Close Scope Q_scope.
Local Close Scope Z_scope.
Local Open Scope nat_scope.
Local Open Scope string_scope.
Local Open Scope list_scope.
Local Set Warnings "-register-all".

(** ** JavaScript values *)

Module JS.

Inductive value : Type :=
| VUndefined
| VNull
| VBool (b : bool)
| VNum (q : Q)
| VStr (s : string)
| VArr (items : list value)
| VObj (fields : list (string * value)).

(** ToBoolean. *)
Definition truthy (v : value) : bool :=
  match v with
  | VUndefined | VNull => false
  | VBool b => b
  | VNum q => negb (Qnum q =? 0)%Z
  | VStr s => negb (s =? EmptyString)
  | VArr _ | VObj _ => true
  end.

(** [a || b]. *)
Definition or_else (a b : value) : value := if truthy a then a else b.

(** Own property of an object literal; the first binding of a key is the
    live one (the decoder below keeps one binding per key). *)
Fixpoint lookup (k : string) (fields : list (string * value)) : value :=
  match fields with
  | [] => VUndefined
  | (k', v) :: rest => if k' =? k then v else lookup k rest
  end.

(** [v.k].  None of the property names read by the program exists on a
    prototype, so a primitive or an array answers [undefined].  The program
    reads properties of decoded replies it has found truthy and of caught
    errors, never of [null] or [undefined]. *)
Definition get (v : value) (k : string) : value :=
  match v with
  | VObj fields => lookup k fields
  | _ => VUndefined
  end.

(** [v === "s"] and [v === n] against literals. *)
Definition is_str (v : value) (s : string) : bool :=
  match v with VStr s' => s' =? s | _ => false end.

Definition is_num (v : value) (n : Z) : bool :=
  match v with VNum q => Qeq_bool q (inject_Z n) | _ => false end.

Definition num (n : Z) : value := VNum (inject_Z n).

(** *** Strings *)

Definition is_upper (c : ascii) : bool :=
  let n := nat_of_ascii c in (65 <=? n)%nat && (n <=? 90)%nat.

Definition is_lower (c : ascii) : bool :=
  let n := nat_of_ascii c in (97 <=? n)%nat && (n <=? 122)%nat.

Definition lower_char (c : ascii) : ascii :=
  if is_upper c then ascii_of_nat (nat_of_ascii c + 32) else c.

Definition upper_char (c : ascii) : ascii :=
  if is_lower c then ascii_of_nat (nat_of_ascii c - 32) else c.

Fixpoint map_string (f : ascii -> ascii) (s : string) : string :=
  match s with
  | EmptyString => EmptyString
  | String c rest => String (f c) (map_string f rest)
  end.

Definition toLowerCase : string -> string := map_string lower_char.
Definition toUpperCase : string -> string := map_string upper_char.

(** [s.startsWith(p)]. *)
Fixpoint startsWith (p s : string) : bool :=
  match p, s with
  | EmptyString, _ => true
  | String _ _, EmptyString => false
  | String a p', String b s' => Ascii.eqb a b && startsWith p' s'
  end.

(** [s.includes(sub)]. *)
Fixpoint includes (s sub : string) : bool :=
  startsWith sub s
  || match s with
     | EmptyString => false
     | String _ rest => includes rest sub
     end.

(** [arr.some(kw => s.includes(kw))]. *)
Definition some_included (s : string) (kws : list string) : bool :=
  existsb (includes s) kws.

(** [(s.match(/c/g) || []).length] for a one-character pattern. *)
Fixpoint count_char (c : ascii) (s : string) : nat :=
  match s with
  | EmptyString => 0
  | String a rest => (if Ascii.eqb a c then 1 else 0) + count_char c rest
  end.

(** [s.split(sep)] for a one-character separator: the pieces, in order. *)
Fixpoint split_go (sep : ascii) (cur : string) (s : string) : list string :=
  match s with
  | EmptyString => [cur]
  | String a rest =>
      if Ascii.eqb a sep then cur :: split_go sep EmptyString rest
      else split_go sep (cur ++ String a EmptyString) rest
  end.

Definition split (sep : ascii) (s : string) : list string :=
  split_go sep EmptyString s.

(** The white space of [\s] and of [trim] within ASCII. *)
Definition is_space (c : ascii) : bool :=
  let n := nat_of_ascii c in ((9 <=? n)%nat && (n <=? 13)%nat) || (n =? 32)%nat.

Fixpoint trimStart (s : string) : string :=
  match s with
  | String c rest => if is_space c then trimStart rest else s
  | EmptyString => EmptyString
  end.

(** End of the text once trailing white space is dropped: [trimEnd]. *)
Fixpoint trimEnd (s : string) : string :=
  match s with
  | EmptyString => EmptyString
  | String c rest =>
      match trimEnd rest with
      | EmptyString => if is_space c then EmptyString else String c EmptyString
      | t => String c t
      end
  end.

Definition trim (s : string) : string := trimEnd (trimStart s).

(** [s.split(/\s+/).length]: one more than the number of maximal runs of
    white space ([in_run] tells whether the previous character was white). *)
Fixpoint space_runs (in_run : bool) (s : string) : nat :=
  match s with
  | EmptyString => 0
  | String c rest =>
      if is_space c
      then (if in_run then 0 else 1) + space_runs true rest
      else space_runs false rest
  end.

Definition split_spaces_length (s : string) : nat := S (space_runs false s).

(** [arr.join(sep)]. *)
Definition join (sep : string) (parts : list string) : string :=
  String.concat sep parts.

End JS.

Import JS.

(** ** Data exchanged between the engines *)

(** The record built by [detectSignals]. *)
Record Signals : Type := {
  hasCriticalKeyword : bool;
  hasSystemImpact : bool;
  hasBusinessImpact : bool;
  exclamationCount : nat;
  questionCount : nat;
  isAllCaps : bool;
  hasPositiveSentiment : bool;
  hasNegativeSentiment : bool;
  messageLength : nat;
  wordCount : nat
}.

(** [{category, reasoning, confidence}].  The category is always one of the
    program's own string literals; the other two fields may come from the
    remote reply and are arbitrary values. *)
Record CategoryResult : Type := {
  category : string;
  reasoning : value;
  confidence : value
}.

(** [{level, score, reasoning, signals}]. *)
Record UrgencyResult : Type := {
  level : value;
  score : value;
  urgencyReasoning : value;
  signals : Signals
}.

(** [{action, escalate, escalateReason}]. *)
Record ActionResult : Type := {
  action : value;
  escalate : value;
  escalateReason : value
}.

(** The options object given to [groqRequest].  Model, temperature and
    token budget are constants of each call site and the prompt text is
    fixed by the data interpolated into it, so a request is identified by
    its call site and these data. *)
Inductive request : Type :=
| CategorizeRequest (message : string)
| UrgencyRequest (message : string) (category : option string) (sg : Signals)
| ActionRequest (message : string) (category : string) (urgency : value).

(** What [client.chat.completions.create] does on one attempt: it resolves
    with the text of the first choice or rejects with some value. *)
Inductive outcome : Type :=
| Resolved (content : string)
| Rejected (error : value).

(** [externalSignal.aborted] as read in the [catch] block of a given
    attempt of a given request. *)
Definition AbortSignal : Type := request -> nat -> bool.

(** Everything the code reads from outside itself. *)
Record env : Type := {
  JSON_parse : string -> option value;   (* [None]: JSON.parse throws *)
  create : request -> nat -> outcome;    (* the remote service, per attempt *)
  signal : AbortSignal;                  (* the signal of the controller made by handleAnalyze *)
  random : nat;                          (* Math.floor(Math.random() * templates.length) *)
  now : string                           (* new Date().toISOString() *)
}.

(** ** Effects: events, and computations that may throw *)

Inductive event : Type :=
| Create (options : request) (attempt : nat)
| Sleep (ms : Z)
| WarnRetry (attemptNumber : nat) (delay : Z) (detail : value)
| ConsoleWarn (text : string) (detail : value)
| ConsoleLog (text : string)
| ConsoleError (text : string) (detail : value)
| Alert (text : string).

Inductive completion (A : Type) : Type :=
| Returns (a : A)
| Throws (e : value).

Arguments Returns {A} a.
Arguments Throws {A} e.

Definition M (A : Type) : Type := list event * completion A.

Definition ret {A} (a : A) : M A := ([], Returns a).
Definition throw {A} (e : value) : M A := ([], Throws e).
Definition emit (ev : event) : M unit := ([ev], Returns tt).

Definition bind {A B} (m : M A) (k : A -> M B) : M B :=
  match m with
  | (t, Returns a) => let (t', r) := k a in (t ++ t', r)
  | (t, Throws e) => (t, Throws e)
  end.

(** [try { m } catch (error) { h error }]. *)
Definition try_catch {A} (m : M A) (h : value -> M A) : M A :=
  match m with
  | (t, Returns a) => (t, Returns a)
  | (t, Throws e) => let (t', r) := h e in (t ++ t', r)
  end.

Declare Scope js_scope.
Delimit Scope js_scope with js.
Notation "x <- m ;; k" := (bind m (fun x => k))
  (at level 61, m at next level, right associativity) : js_scope.
Notation "m ;; k" := (bind m (fun _ => k))
  (at level 61, right associativity) : js_scope.
Local Open Scope js_scope.

Definition trace {A} (m : M A) : list event := fst m.
Definition result {A} (m : M A) : completion A := snd m.

(** [new Error(msg)]. *)
Definition Error (msg : string) : value :=
  VObj [("name", VStr "Error"); ("message", VStr msg)].

(** ** src/utils/apiClient.js *)

Module apiClient.

Record config : Type := {
  timeout : Z;
  maxRetries : nat;
  retryDelay : Z;
  retryBackoff : Z
}.

Definition CONFIG : config :=
  {| timeout := 15000; maxRetries := 2; retryDelay := 1000; retryBackoff := 2 |}.

(** [externalSignal?.aborted]. *)
Definition signal_aborted (externalSignal : option AbortSignal)
  (options : request) (attempt : nat) : bool :=
  match externalSignal with
  | Some sg => sg options attempt
  | None => false
  end.

(** The body of the [for] loop of [groqRequest] from iteration [attempt]
    on, with [remaining] iterations left; at the exit the loop's last
    error is thrown. *)
Fixpoint attempts (E : env) (options : request)
  (externalSignal : option AbortSignal)
  (remaining attempt : nat) (lastError : value) : M string :=
  match remaining with
  | O => throw lastError
  | S remaining' =>
      emit (Create options attempt) ;;
      match create E options attempt with
      | Resolved content => ret content
      | Rejected error =>
          if is_str (get error "name") "AbortError"
             && signal_aborted externalSignal options attempt
          then throw (Error "Request cancelled")
          else if is_num (get error "status") 401
                  || is_num (get error "status") 403
          then throw error
          else
            (if (attempt <? maxRetries CONFIG)%nat
             then
               let delay :=
                 (retryDelay CONFIG * retryBackoff CONFIG ^ Z.of_nat attempt)%Z in
               emit (WarnRetry (attempt + 1) delay (get error "message")) ;;
               emit (Sleep delay)
             else ret tt) ;;
            attempts E options externalSignal remaining' (S attempt) error
      end
  end.

Definition groqRequest (E : env) (options : request)
  (externalSignal : option AbortSignal) : M string :=
  attempts E options externalSignal (S (maxRetries CONFIG)) 0 VUndefined.

(** Suffix of [s] that starts at the first occurrence of [c]. *)
Fixpoint from_first (c : ascii) (s : string) : option string :=
  match s with
  | EmptyString => None
  | String a rest => if Ascii.eqb a c then Some s else from_first c rest
  end.

(** Longest prefix of [s] that ends with [c]. *)
Fixpoint upto_last (c : ascii) (s : string) : option string :=
  match s with
  | EmptyString => None
  | String a rest =>
      match upto_last c rest with
      | Some p => Some (String a p)
      | None => if Ascii.eqb a c then Some (String a EmptyString) else None
      end
  end.

(** [content.match(/\{[\s\S]*\}/)]: the leftmost match starts at the first
    opening brace and, the star being greedy, ends at the last closing
    brace after it. *)
Definition match_braces (content : string) : option string :=
  match from_first "{" content with
  | Some (String open rest) =>
      match upto_last "}" rest with
      | Some p => Some (String open p)
      | None => None
      end
  | _ => None
  end.

Definition parseJsonResponse (E : env) (content : string) : value :=
  match match_braces content with
  | Some jsonMatch =>
      match JSON_parse E jsonMatch with
      | Some parsed => parsed
      | None => VNull
      end
  | None => VNull
  end.

End apiClient.

(** ** src/utils/llmHelper.js *)

Module llmHelper.

Import apiClient.

Record definition : Type := {
  description : string;
  keywords : list string
}.

(** The object literal, as its entries in insertion order. *)
Definition CATEGORY_DEFINITIONS : list (string * definition) :=
  [ ("Billing Issue",
     {| description := "Payment problems, charges, refunds, invoices, subscription management, pricing disputes";
        keywords := ["bill"; "payment"; "charge"; "invoice"; "refund";
                     "subscription"; "price"; "cost"; "fee"; "credit card";
                     "cancel subscription"; "renewal"; "discount"; "promo";
                     "coupon"] |});
    ("Technical Problem",
     {| description := "Bugs, errors, crashes, outages, performance issues, functionality not working as expected";
        keywords := ["bug"; "error"; "broken"; "not working"; "crash"; "down";
                     "slow"; "loading"; "freeze"; "stuck"; "fail"; "issue";
                     "problem"; "glitch"; "unresponsive"; "timeout";
                     "connection"] |});
    ("Feature Request",
     {| description := "Suggestions for new features, improvements, enhancements, or changes to existing functionality";
        keywords := ["feature"; "add"; "improve"; "enhancement"; "suggestion";
                     "wish"; "would be great"; "would like"; "could you add";
                     "missing"; "need ability"; "roadmap"] |});
    ("General Inquiry",
     {| description := "Questions about how things work, pricing information, account questions, general help, positive feedback";
        keywords := ["how do"; "how to"; "what is"; "where is"; "can i";
                     "is there"; "help"; "question"; "wondering"; "curious";
                     "thank"; "thanks"; "great job"; "love"] |}) ].

Definition reasoningTemplates : list (string * list string) :=
  [ ("Billing Issue",
     [ "This message relates to billing, payments, or subscription management. The customer appears to have a financial or account-related concern that needs to be addressed.";
       "The message contains billing-related terminology indicating the customer needs assistance with payments, charges, or their subscription status.";
       "Based on the financial context of this message, this is categorized as a billing issue requiring review of the customer's account." ]);
    ("Technical Problem",
     [ "The customer is reporting a technical issue or malfunction. This requires investigation to identify the root cause and provide a resolution.";
       "This message describes functionality problems or errors the customer is experiencing. Technical troubleshooting will be needed.";
       "Based on the error or malfunction described, this is a technical support issue that may require engineering review." ]);
    ("Feature Request",
     [ "The customer is suggesting an improvement or new capability. This feedback should be logged for product team review.";
       "This message contains a feature suggestion or enhancement request. The customer is providing valuable product feedback.";
       "The customer is requesting functionality that doesn't currently exist. This should be tracked as product feedback." ]);
    ("General Inquiry",
     [ "This appears to be a general question or informational request. The customer is seeking clarification or assistance.";
       "The message is a general inquiry that can likely be addressed with documentation or standard support responses.";
       "This is a general support request or positive feedback that doesn't fall into a specific issue category." ]) ].

(** [table[key]] on an object literal with string keys. *)
Fixpoint entry {A} (key : string) (table : list (string * A)) : option A :=
  match table with
  | [] => None
  | (k, a) :: rest => if k =? key then Some a else entry key rest
  end.

(** [templates[Math.floor(Math.random() * templates.length)]]. *)
Definition generateFallbackReasoning (E : env) (category : string) : value :=
  let templates :=
    match entry category reasoningTemplates with
    | Some t => t
    | None =>
        match entry "General Inquiry" reasoningTemplates with
        | Some t => t
        | None => []
        end
    end in
  match nth_error templates (random E) with
  | Some text => VStr text
  | None => VUndefined
  end.

(** The inner loop: [scores[category] += keyword.split(' ').length] for
    every keyword that occurs in the message. *)
Definition keyword_score (lowerMessage : string) (kws : list string) : nat :=
  fold_left
    (fun acc keyword =>
       if includes lowerMessage keyword
       then acc + List.length (split " " keyword)
       else acc)
    kws 0.

(** [scores[category]] and [scores[category] += n]. *)
Fixpoint score_of (c : string) (scores : list (string * nat)) : nat :=
  match scores with
  | [] => 0
  | (k, n) :: rest => if k =? c then n else score_of c rest
  end.

Fixpoint add_score (c : string) (n : nat) (scores : list (string * nat))
  : list (string * nat) :=
  match scores with
  | [] => []
  | (k, m) :: rest =>
      if k =? c then (k, m + n) :: rest else (k, m) :: add_score c n rest
  end.

(** The scanning loop for the highest score. *)
Definition pick_best (scores : list (string * nat)) : string * nat :=
  fold_left
    (fun best entry =>
       let '(bestCategory, bestScore) := best in
       let '(category, score) := entry in
       if (bestScore <? score)%nat then (category, score)
       else (bestCategory, bestScore))
    scores ("General Inquiry", 0).

Definition category_scores (lowerMessage : string) : list (string * nat) :=
  let scores :=
    map (fun e => (fst e, keyword_score lowerMessage (keywords (snd e))))
        CATEGORY_DEFINITIONS in
  if (0 <? score_of "Technical Problem" scores)%nat
     && (0 <? score_of "Billing Issue" scores)%nat
  then
    if includes lowerMessage "payment"
       && (includes lowerMessage "fail" || includes lowerMessage "error")
    then add_score "Billing Issue" 2 scores
    else scores
  else scores.

Definition getFallbackCategorization (E : env) (message : string)
  : CategoryResult :=
  let lowerMessage := toLowerCase message in
  let scores := category_scores lowerMessage in
  let '(bestCategory, bestScore) := pick_best scores in
  let reasoning := generateFallbackReasoning E bestCategory in
  {| category := bestCategory;
     reasoning := reasoning;
     confidence :=
       if (2 <? bestScore)%nat then VNum 0.8%Q
       else if (0 <? bestScore)%nat then VNum 0.6%Q
       else VNum 0.4%Q |}.

(** The loop of [extractCategoryFromProse]: first category, in the order of
    the definitions, whose lower-cased name occurs in the reply. *)
Fixpoint first_named (lowerContent : string) (categories : list string)
  : option string :=
  match categories with
  | [] => None
  | c :: rest =>
      if includes lowerContent (toLowerCase c) then Some c
      else first_named lowerContent rest
  end.

Definition extractCategoryFromProse (E : env) (content originalMessage : string)
  : CategoryResult :=
  let lowerContent := toLowerCase content in
  match first_named lowerContent (map fst CATEGORY_DEFINITIONS) with
  | Some c =>
      {| category := c; reasoning := VStr content; confidence := VNum 0.7%Q |}
  | None => getFallbackCategorization E originalMessage
  end.

(** [validCategories.includes(parsed.category) ? parsed.category : "Unknown"]. *)
Definition validated_category (parsed : value) : string :=
  let validCategories := map fst CATEGORY_DEFINITIONS in
  match get parsed "category" with
  | VStr c => if existsb (String.eqb c) validCategories then c else "Unknown"
  | _ => "Unknown"
  end.

Definition categorizeMessage (E : env) (message : string)
  (sig : option AbortSignal) : M CategoryResult :=
  try_catch
    (content <- groqRequest E (CategorizeRequest message) sig ;;
     let parsed := parseJsonResponse E content in
     if truthy parsed
     then
       ret {| category := validated_category parsed;
              reasoning := or_else (get parsed "reasoning") (VStr content);
              confidence := or_else (get parsed "confidence") (VNum 0.8%Q) |}
     else ret (extractCategoryFromProse E content message))
    (fun error =>
       emit (ConsoleWarn "Groq API failed, using fallback categorization:"
                         (get error "message")) ;;
       ret (getFallbackCategorization E message)).

End llmHelper.

(** ** src/utils/urgencyScorer.js *)

Module urgencyScorer.

Import apiClient.

Definition CRITICAL_KEYWORDS : list string :=
  [ "down"; "outage"; "emergency"; "urgent"; "critical"; "asap"; "immediately";
    "production"; "security"; "breach"; "hack"; "compromised"; "data loss";
    "cannot access"; "can't access"; "locked out"; "blocked"; "deadline";
    "legal"; "lawsuit"; "compliance"; "audit"; "executive"; "ceo"; "cto" ].

Definition SYSTEM_IMPACT_KEYWORDS : list string :=
  [ "all users"; "everyone"; "entire"; "company-wide"; "organization";
    "multiple"; "team"; "department"; "customers affected"; "widespread" ].

Definition BUSINESS_IMPACT_KEYWORDS : list string :=
  [ "revenue"; "money"; "losing"; "cost"; "contract"; "client";
    "demo"; "presentation"; "meeting"; "launch"; "release" ].

Definition POSITIVE_WORDS : list string :=
  [ "thank"; "thanks"; "appreciate"; "happy"; "love"; "great"; "excellent";
    "wonderful"; "amazing" ].

Definition NEGATIVE_WORDS : list string :=
  [ "angry"; "frustrated"; "furious"; "terrible"; "awful"; "worst";
    "unacceptable"; "ridiculous" ].

Definition detectSignals (message : string) : Signals :=
  let lowerMessage := toLowerCase message in
  {| hasCriticalKeyword := some_included lowerMessage CRITICAL_KEYWORDS;
     hasSystemImpact := some_included lowerMessage SYSTEM_IMPACT_KEYWORDS;
     hasBusinessImpact := some_included lowerMessage BUSINESS_IMPACT_KEYWORDS;
     exclamationCount := count_char "!" message;
     questionCount := count_char "?" message;
     isAllCaps :=
       (message =? toUpperCase message) && (10 <? String.length message)%nat;
     hasPositiveSentiment := some_included lowerMessage POSITIVE_WORDS;
     hasNegativeSentiment := some_included lowerMessage NEGATIVE_WORDS;
     messageLength := String.length message;
     wordCount := split_spaces_length (trim message) |}.

(** [category === "..."] for a category that may be [null]. *)
Definition category_is (category : option string) (name : string) : bool :=
  match category with
  | Some c => c =? name
  | None => false
  end.

(** One guarded adjustment: [if (cond) { score += delta; reasons.push(r) }]. *)
Definition adjust (cond : bool) (delta : Z) (reason : string)
  (st : Z * list string) : Z * list string :=
  if cond then ((fst st + delta)%Z, snd st ++ [reason]) else st.

(** The [if / else if / else if] on the category. *)
Definition adjust_category (category : option string)
  (st : Z * list string) : Z * list string :=
  if category_is category "Technical Problem"
  then adjust true 10 "Technical issues often require timely resolution" st
  else if category_is category "Billing Issue"
  then adjust true 5 "Billing concerns can impact customer retention" st
  else if category_is category "Feature Request"
  then adjust true (-15) "Feature requests are typically non-urgent" st
  else st.

(** The level thresholds at the end of [getFallbackUrgency]. *)
Definition level_of (score : Z) : string :=
  if (70 <=? score)%Z then "High"
  else if (30 <=? score)%Z then "Medium"
  else "Low".

Definition getFallbackUrgency (message : string) (category : option string)
  (sg : Signals) : UrgencyResult :=
  let st := (50%Z, @nil string) in
  let st := adjust (hasCriticalKeyword sg) 35
              "Critical keywords detected indicating urgent issue" st in
  let st := adjust (hasSystemImpact sg) 20
              "Message suggests widespread system impact" st in
  let st := adjust (hasBusinessImpact sg) 15
              "Potential business or revenue impact mentioned" st in
  let st := adjust (hasNegativeSentiment sg) 15
              "Customer expressing frustration or dissatisfaction" st in
  let st := adjust_category category st in
  let st := adjust (hasPositiveSentiment sg
                    && negb (hasCriticalKeyword sg)
                    && negb (hasNegativeSentiment sg)) (-20)
              "Positive sentiment suggests non-urgent matter" st in
  let st := adjust ((2 <=? exclamationCount sg)%nat
                    && (hasNegativeSentiment sg || hasCriticalKeyword sg)) 10
              "Emphasis suggests heightened concern" st in
  let st := adjust ((0 <? questionCount sg)%nat
                    && negb (hasCriticalKeyword sg)
                    && negb (hasNegativeSentiment sg)) (-10)
              "Question format suggests inquiry rather than urgent issue" st in
  let reasons := snd st in
  let score := Z.max 0 (Z.min 100 (fst st)) in
  {| level := VStr (level_of score);
     score := num score;
     urgencyReasoning :=
       VStr (match reasons with
             | [] => "Standard priority based on message analysis."
             | _ => join ". " reasons ++ "."
             end);
     signals := sg |}.

Definition calculateUrgency (E : env) (message : string)
  (category : option string) (sig : option AbortSignal) : M UrgencyResult :=
  let sg := detectSignals message in
  try_catch
    (content <- groqRequest E (UrgencyRequest message category sg) sig ;;
     let parsed := parseJsonResponse E content in
     if truthy parsed
     then
       ret {| level := or_else (get parsed "level") (VStr "Medium");
              score := or_else (get parsed "score") (num 50);
              urgencyReasoning :=
                or_else (get parsed "reasoning")
                        (VStr "Unable to determine detailed reasoning.");
              signals := sg |}
     else ret (getFallbackUrgency message category sg))
    (fun error =>
       emit (ConsoleWarn "Groq API failed for urgency scoring, using fallback:"
                         (get error "message")) ;;
       ret (getFallbackUrgency message category sg)).

Definition calculateUrgencySync (message : string) : value :=
  let sg := detectSignals message in
  level (getFallbackUrgency message None sg).

End urgencyScorer.

(** ** src/utils/templates.js *)

Module templates.

Import apiClient.

Record trigger : Type := {
  trigger_keywords : list string;
  reason : string
}.

Definition escalationTriggers : list trigger :=
  [ {| trigger_keywords := ["security"; "breach"; "hack"; "compromised"];
       reason := "Security concern requires immediate escalation to security team" |};
    {| trigger_keywords := ["legal"; "lawyer"; "lawsuit"; "sue"];
       reason := "Legal mention requires escalation to legal/compliance team" |};
    {| trigger_keywords := ["cancel"; "leaving"; "competitor"];
       reason := "Churn risk - escalate to retention team" |};
    {| trigger_keywords := ["ceo"; "cto"; "executive"; "vip"];
       reason := "Executive/VIP customer requires priority handling" |};
    {| trigger_keywords := ["all users"; "everyone"; "company-wide"; "outage"];
       reason := "System-wide issue affecting multiple users" |} ].

(** The [for ... break] loop over the triggers: the state after it is
    [(escalate, escalateReason)]. *)
Fixpoint scan_triggers (lowerMessage : string) (triggers : list trigger)
  : bool * value :=
  match triggers with
  | [] => (false, VNull)
  | t :: rest =>
      if some_included lowerMessage (trigger_keywords t)
      then (true, VStr (reason t))
      else scan_triggers lowerMessage rest
  end.

(** The [switch (category)]. *)
Definition action_text (lowerMessage category : string) : string :=
  let has := includes lowerMessage in
  if category =? "Billing Issue" then
    if has "refund" then
      "Review the customer's billing history and recent transactions. If refund is warranted per company policy, process it and confirm with the customer. Document the reason for the refund."
    else if has "charge" || has "charged" then
      "Pull up the customer's account to review recent charges. Explain each charge clearly, and if there's an error, initiate a correction. Provide an itemized breakdown if requested."
    else if has "cancel" then
      "Understand the reason for cancellation. Offer retention options if available (discount, plan change, pause). If proceeding with cancellation, explain the process and any final billing."
    else
      "Access the customer's billing portal to review their account status, recent invoices, and payment history. Address the specific concern and offer to walk them through any unclear charges."
  else if category =? "Technical Problem" then
    if has "login" || has "password" || has "access" then
      "Verify the customer's identity, then check their account status for locks or flags. If locked out, initiate password reset or account recovery. Check for any system-wide authentication issues."
    else if has "slow" || has "performance" then
      "Check system status page for known performance issues. Gather specifics: browser, device, network. If isolated issue, guide through cache clearing and basic troubleshooting. If widespread, escalate to engineering."
    else if has "error" || has "bug" then
      "Request error details (screenshot, error code, steps to reproduce). Check known issues database. If new issue, document thoroughly and create a bug report for engineering team."
    else if has "down" || has "not working" then
      "Immediately check system status and recent incident reports. If confirmed outage, provide status update and ETA if available. If user-specific, gather diagnostic information and troubleshoot."
    else
      "Gather specific details about the issue: what they were trying to do, what happened, any error messages. Check for known issues, then provide targeted troubleshooting steps."
  else if category =? "Feature Request" then
    "Thank the customer for their feedback. Log the feature request in the product feedback system with full context. If similar features exist, explain current capabilities. Share the product roadmap link if public."
    ++ (if has "urgent" || has "need" then
          " Since this seems important for their workflow, check if there's a workaround or integration that could help in the meantime."
        else EmptyString)
  else if category =? "General Inquiry" then
    if has "pricing" || has "cost" || has "plan" then
      "Direct the customer to the pricing page and highlight plans that match their described needs. Offer to schedule a call with sales for custom requirements or volume discounts."
    else if has "how" || has "tutorial" then
      "Provide a direct link to the relevant help article or documentation. Offer to walk them through the process if documentation isn't sufficient. Consider if this gap indicates need for better docs."
    else
      "Review available documentation and FAQ to provide a comprehensive answer. If the question reveals a gap in self-service resources, flag it for documentation improvement."
  else
    "Review the message carefully to understand the customer's core need. Categorize appropriately if miscategorized, or gather more information if the request is unclear.".

Definition getFallbackRecommendation (message category : string)
  (urgency : value) : ActionResult :=
  let lowerMessage := toLowerCase message in
  let '(escalate0, escalateReason0) :=
    scan_triggers lowerMessage escalationTriggers in
  let '(escalate1, escalateReason1) :=
    if is_str urgency "High" && negb escalate0
    then (true,
          VStr "High urgency issue requires immediate supervisor attention")
    else (escalate0, escalateReason0) in
  {| action := VStr (action_text lowerMessage category);
     escalate := VBool escalate1;
     escalateReason := escalateReason1 |}.

Definition getRecommendedAction (E : env) (message category : string)
  (urgency : value) (sig : option AbortSignal) : M ActionResult :=
  try_catch
    (content <- groqRequest E (ActionRequest message category urgency) sig ;;
     let parsed := parseJsonResponse E content in
     if truthy parsed
     then
       ret {| action :=
                or_else (get parsed "action")
                        (VStr "Review the message and respond appropriately.");
              escalate := or_else (get parsed "escalate") (VBool false);
              escalateReason := or_else (get parsed "escalateReason") VNull |}
     else ret (getFallbackRecommendation message category urgency))
    (fun error =>
       emit (ConsoleWarn "Groq API failed for recommendations, using fallback:"
                         (get error "message")) ;;
       ret (getFallbackRecommendation message category urgency)).

Definition getAvailableCategories : list string :=
  [ "Billing Issue"; "Technical Problem"; "Feature Request";
    "General Inquiry"; "Unknown" ].

Definition shouldEscalate (category : string) (urgency : value)
  (message : string) : value :=
  escalate (getFallbackRecommendation message category urgency).

End templates.

(** ** src/pages/AnalyzePage.jsx *)

Module AnalyzePage.

Import llmHelper urgencyScorer templates.

(** The [analysisResult] object literal. *)
Record TriageRecord : Type := {
  r_message : string;
  r_category : string;
  r_urgency : value;
  r_urgencyScore : value;
  r_urgencyReasoning : value;
  r_recommendedAction : value;
  r_escalate : value;
  r_escalateReason : value;
  r_reasoning : value;
  r_timestamp : string
}.

(** The component's state, and the stored history ([localStorage]'s
    [triageHistory], held decoded: what is stored is taken to be a list of
    records). *)
Record state : Type := {
  message : string;
  results : option TriageRecord;
  isLoading : bool;
  loadingStage : string;
  hasController : bool;
  triageHistory : list TriageRecord
}.

(** [await Promise.all([a, b])]: both computations run; the await throws
    when one of them rejects. *)
Definition Promise_all {A B} (a : M A) (b : M B) : M (A * B) :=
  match a, b with
  | (ta, Returns x), (tb, Returns y) => (ta ++ tb, Returns (x, y))
  | (ta, Throws e), (tb, _) => (ta ++ tb, Throws e)
  | (ta, Returns _), (tb, Throws e) => (ta ++ tb, Throws e)
  end.

(** The body of the [try] block up to the construction of
    [analysisResult]. *)
Definition analyse (E : env) (msg : string) (sig : AbortSignal)
  : M TriageRecord :=
  both <- Promise_all (categorizeMessage E msg (Some sig))
                      (calculateUrgency E msg None (Some sig)) ;;
  let '(categoryResult, urgencyResult) := both in
  let category := category categoryResult in
  let reasoning := reasoning categoryResult in
  actionResult <-
    getRecommendedAction E msg category (level urgencyResult) (Some sig) ;;
  ret {| r_message := msg;
         r_category := category;
         r_urgency := level urgencyResult;
         r_urgencyScore := score urgencyResult;
         r_urgencyReasoning := urgencyReasoning urgencyResult;
         r_recommendedAction := action actionResult;
         r_escalate := escalate actionResult;
         r_escalateReason := escalateReason actionResult;
         r_reasoning := reasoning;
         r_timestamp := now E |}.

(** [handleAnalyze]: the events it causes and the state it leaves once its
    promise settles. *)
Definition handleAnalyze (E : env) (st : state) : list event * state :=
  if negb (truthy (VStr (trim (message st))))
  then ([Alert "Please enter a message to analyze"], st)
  else
    match analyse E (message st) (signal E) with
    | (t, Returns analysisResult) =>
        (t,
         {| message := message st;
            results := Some analysisResult;
            isLoading := false;
            loadingStage := EmptyString;
            hasController := false;
            triageHistory := triageHistory st ++ [analysisResult] |})
    | (t, Throws error) =>
        (t ++ (if is_str (get error "message") "Request cancelled"
               then [ConsoleLog "Analysis cancelled by user"]
               else [ConsoleError "Error analyzing message:" error;
                     Alert "Error analyzing message. Please try again."]),
         {| message := message st;
            results := None;
            isLoading := false;
            loadingStage := EmptyString;
            hasController := false;
            triageHistory := triageHistory st |})
    end.

End AnalyzePage.

(** ** JSON.parse

    The platform's parser, for the replies used as examples below: the JSON
    grammar over byte strings, numbers read exactly.  An object keeps one
    binding per key, the last one written. *)

Module JSON.

Definition dquote : ascii := ascii_of_nat 34.
Definition backslash : ascii := ascii_of_nat 92.

Definition is_ws (c : ascii) : bool :=
  let n := nat_of_ascii c in
  (n =? 32)%nat || (n =? 9)%nat || (n =? 10)%nat || (n =? 13)%nat.

Fixpoint skip_ws (s : string) : string :=
  match s with
  | String c rest => if is_ws c then skip_ws rest else s
  | EmptyString => EmptyString
  end.

Definition is_digit (c : ascii) : bool :=
  let n := nat_of_ascii c in (48 <=? n)%nat && (n <=? 57)%nat.

Definition digit (c : ascii) : Z := Z.of_nat (nat_of_ascii c - 48).

(** A run of digits: its value on top of [acc], how many there were, and
    the rest of the text. *)
Fixpoint digits (s : string) (acc : Z) (count : nat) : Z * nat * string :=
  match s with
  | String c rest =>
      if is_digit c then digits rest (10 * acc + digit c)%Z (S count)
      else (acc, count, s)
  | EmptyString => (acc, count, s)
  end.

Definition strip (c : ascii) (s : string) : option string :=
  match s with
  | String a rest => if Ascii.eqb a c then Some rest else None
  | EmptyString => None
  end.

(** An optional minus sign, an integer part without a leading zero, an
    optional fraction and an optional exponent. *)
Definition parse_number (s : string) : option (Q * string) :=
  let '(negative, s1) :=
    match strip "-" s with Some r => (true, r) | None => (false, s) end in
  let '(int_part, n_int, s2) := digits s1 0%Z 0 in
  if (n_int =? 0)%nat || ((1 <? n_int)%nat && startsWith "0" s1) then None
  else
    let frac :=
      match strip "." s2 with
      | Some r =>
          let '(m, k, s3) := digits r int_part 0 in
          if (k =? 0)%nat then None else Some (m, k, s3)
      | None => Some (int_part, 0, s2)
      end in
    match frac with
    | None => None
    | Some (mant, k, s3) =>
        let mant := if negative then (- mant)%Z else mant in
        let expo :=
          match s3 with
          | String c r =>
              if Ascii.eqb c "e" || Ascii.eqb c "E" then
                let '(neg_e, r1) :=
                  match strip "-" r with
                  | Some r' => (true, r')
                  | None =>
                      match strip "+" r with
                      | Some r' => (false, r')
                      | None => (false, r)
                      end
                  end in
                let '(e, n_e, r2) := digits r1 0%Z 0 in
                if (n_e =? 0)%nat then None
                else Some (if neg_e then (- e)%Z else e, r2)
              else Some (0%Z, s3)
          | EmptyString => Some (0%Z, s3)
          end in
        match expo with
        | None => None
        | Some (e, s4) =>
            let shift := (e - Z.of_nat k)%Z in
            let q :=
              if (0 <=? shift)%Z
              then Qmake (mant * 10 ^ shift) 1
              else Qmake mant (Z.to_pos (10 ^ (- shift))) in
            Some (q, s4)
        end
    end.

Definition hex (c : ascii) : option nat :=
  let n := nat_of_ascii c in
  if (48 <=? n)%nat && (n <=? 57)%nat then Some (n - 48)
  else if (65 <=? n)%nat && (n <=? 70)%nat then Some (n - 55)
  else if (97 <=? n)%nat && (n <=? 102)%nat then Some (n - 87)
  else None.

(** UTF-8 bytes of a code unit below 0x10000. *)
Definition utf8 (n : nat) : string :=
  if (n <? 128)%nat then String (ascii_of_nat n) EmptyString
  else if (n <? 2048)%nat then
    String (ascii_of_nat (192 + n / 64))
      (String (ascii_of_nat (128 + n mod 64)) EmptyString)
  else
    String (ascii_of_nat (224 + n / 4096))
      (String (ascii_of_nat (128 + (n / 64) mod 64))
         (String (ascii_of_nat (128 + n mod 64)) EmptyString)).

Definition escape (c : ascii) : option ascii :=
  if Ascii.eqb c dquote then Some dquote
  else if Ascii.eqb c backslash then Some backslash
  else if Ascii.eqb c "/" then Some "/"%char
  else if Ascii.eqb c "b" then Some (ascii_of_nat 8)
  else if Ascii.eqb c "f" then Some (ascii_of_nat 12)
  else if Ascii.eqb c "n" then Some (ascii_of_nat 10)
  else if Ascii.eqb c "r" then Some (ascii_of_nat 13)
  else if Ascii.eqb c "t" then Some (ascii_of_nat 9)
  else None.

(** The characters of a string literal after its opening quote. *)
Fixpoint parse_string (s : string) (acc : string) : option (string * string) :=
  match s with
  | EmptyString => None
  | String c rest =>
      if Ascii.eqb c dquote then Some (acc, rest)
      else if (nat_of_ascii c <? 32)%nat then None
      else if Ascii.eqb c backslash then
        match rest with
        | String e rest1 =>
            if Ascii.eqb e "u" then
              match rest1 with
              | String h1 (String h2 (String h3 (String h4 rest2))) =>
                  match hex h1, hex h2, hex h3, hex h4 with
                  | Some a, Some b, Some c', Some d =>
                      parse_string rest2
                        (acc ++ utf8 (((a * 16 + b) * 16 + c') * 16 + d))
                  | _, _, _, _ => None
                  end
              | _ => None
              end
            else
              match escape e with
              | Some x => parse_string rest1 (acc ++ String x EmptyString)
              | None => None
              end
        | EmptyString => None
        end
      else parse_string rest (acc ++ String c EmptyString)
  end.

(** [obj[key] = v] while the object is being built. *)
Fixpoint set_field (key : string) (v : value) (fields : list (string * value))
  : list (string * value) :=
  match fields with
  | [] => [(key, v)]
  | (k, old) :: rest =>
      if k =? key then (k, v) :: rest else (k, old) :: set_field key v rest
  end.

Definition literal (word : string) (v : value) (s : string)
  : option (value * string) :=
  if startsWith word s
  then Some (v, substring (String.length word)
                          (String.length s - String.length word) s)
  else None.

Fixpoint parse_value (fuel : nat) (s : string) {struct fuel}
  : option (value * string) :=
  match fuel with
  | O => None
  | S fuel' =>
      match skip_ws s with
      | EmptyString => None
      | String c rest =>
          if Ascii.eqb c "{" then
            match skip_ws rest with
            | String c' rest' =>
                if Ascii.eqb c' "}" then Some (VObj [], rest')
                else parse_members fuel' rest []
            | EmptyString => None
            end
          else if Ascii.eqb c "[" then
            match skip_ws rest with
            | String c' rest' =>
                if Ascii.eqb c' "]" then Some (VArr [], rest')
                else parse_elements fuel' rest []
            | EmptyString => None
            end
          else if Ascii.eqb c dquote then
            match parse_string rest EmptyString with
            | Some (text, rest') => Some (VStr text, rest')
            | None => None
            end
          else if Ascii.eqb c "t" then literal "true" (VBool true) (String c rest)
          else if Ascii.eqb c "f" then literal "false" (VBool false) (String c rest)
          else if Ascii.eqb c "n" then literal "null" VNull (String c rest)
          else
            match parse_number (String c rest) with
            | Some (q, rest') => Some (VNum q, rest')
            | None => None
            end
      end
  end

with parse_members (fuel : nat) (s : string) (acc : list (string * value))
  {struct fuel} : option (value * string) :=
  match fuel with
  | O => None
  | S fuel' =>
      match strip dquote (skip_ws s) with
      | None => None
      | Some s1 =>
          match parse_string s1 EmptyString with
          | None => None
          | Some (key, s2) =>
              match strip ":" (skip_ws s2) with
              | None => None
              | Some s3 =>
                  match parse_value fuel' s3 with
                  | None => None
                  | Some (v, s4) =>
                      match skip_ws s4 with
                      | String c s5 =>
                          if Ascii.eqb c "," then
                            parse_members fuel' s5 (set_field key v acc)
                          else if Ascii.eqb c "}" then
                            Some (VObj (set_field key v acc), s5)
                          else None
                      | EmptyString => None
                      end
                  end
              end
          end
      end
  end

with parse_elements (fuel : nat) (s : string) (acc : list value)
  {struct fuel} : option (value * string) :=
  match fuel with
  | O => None
  | S fuel' =>
      match parse_value fuel' s with
      | None => None
      | Some (v, s1) =>
          match skip_ws s1 with
          | String c s2 =>
              if Ascii.eqb c "," then parse_elements fuel' s2 (acc ++ [v])
              else if Ascii.eqb c "]" then Some (VArr (acc ++ [v]), s2)
              else None
          | EmptyString => None
          end
      end
  end.

Definition parse (text : string) : option value :=
  match parse_value (2 * String.length text + 2) text with
  | Some (v, rest) =>
      match skip_ws rest with
      | EmptyString => Some v
      | String _ _ => None
      end
  | None => None
  end.

(** Example texts are written with an apostrophe where the reply has a
    double quote. *)
Definition quoted (s : string) : string :=
  map_string (fun c => if Ascii.eqb c "'" then dquote else c) s.

End JSON.

(** * Observations on traces, and the error taxonomy of the call client *)

Definition is_create (ev : event) : bool :=
  match ev with Create _ _ => true | _ => false end.

(** Number of remote calls issued. *)
Definition attempts_made (t : list event) : nat :=
  List.length (filter is_create t).

(** The sleeps, in order. *)
Definition delays (t : list event) : list Z :=
  flat_map (fun ev => match ev with Sleep ms => [ms] | _ => [] end) t.

(** How [groqRequest] treats a rejection, in the order of its tests. *)
Inductive InferenceError : Type :=
| Cancelled
| AuthFailure
| Retryable.

Definition classify (sig : option AbortSignal) (options : request)
  (attempt : nat) (error : value) : InferenceError :=
  if is_str (get error "name") "AbortError"
     && apiClient.signal_aborted sig options attempt
  then Cancelled
  else if is_num (get error "status") 401 || is_num (get error "status") 403
  then AuthFailure
  else Retryable.

(** An environment for examples: the platform parser, a given service and
    signal, the first template, a fixed date. *)
Definition example_env (service : request -> nat -> outcome)
  (sig : AbortSignal) : env :=
  {| JSON_parse := JSON.parse;
     create := service;
     signal := sig;
     random := 0;
     now := "2024-05-01T09:30:00.000Z" |}.

Definition never_aborted : AbortSignal := fun _ _ => false.
Definition aborted_from_start : AbortSignal := fun _ _ => true.

(** Rejections of the SDK used in examples. *)
Definition timeout_error : value :=
  VObj [("name", VStr "AbortError"); ("message", VStr "Request was aborted.")].

Definition network_error : value :=
  VObj [("name", VStr "TypeError"); ("message", VStr "Failed to fetch")].

Definition unauthorized_error : value :=
  VObj [("name", VStr "AuthenticationError"); ("status", num 401);
        ("message", VStr "Invalid API Key")].

Definition replies (text : string) : request -> nat -> outcome :=
  fun _ _ => Resolved text.

Definition rejects (error : value) : request -> nat -> outcome :=
  fun _ _ => Rejected error.

(** * Definitions used in the statements

    Results built on the AI path, the assembled record, the tables of the
    specification that the fallbacks are compared with, and the replies
    and environments of the examples. *)

Import apiClient llmHelper urgencyScorer templates AnalyzePage.

(** What one retryable failure adds in front of the rest of the loop. *)
Definition retry_events (options : request) (attempt : nat) (error : value)
  : list event :=
  Create options attempt ::
  (if (attempt <? maxRetries CONFIG)%nat
   then
     let delay :=
       (retryDelay CONFIG * retryBackoff CONFIG ^ Z.of_nat attempt)%Z in
     [WarnRetry (attempt + 1) delay (get error "message"); Sleep delay]
   else []).

(** The result built on the AI path of each engine from a decoded reply. *)
Definition category_of_reply (content : string) (parsed : value)
  : CategoryResult :=
  {| category := validated_category parsed;
     reasoning := or_else (get parsed "reasoning") (VStr content);
     confidence := or_else (get parsed "confidence") (VNum 0.8%Q) |}.

Definition urgency_of_reply (sg : Signals) (parsed : value) : UrgencyResult :=
  {| level := or_else (get parsed "level") (VStr "Medium");
     score := or_else (get parsed "score") (num 50);
     urgencyReasoning :=
       or_else (get parsed "reasoning")
               (VStr "Unable to determine detailed reasoning.");
     signals := sg |}.

Definition action_of_reply (parsed : value) : ActionResult :=
  {| action :=
       or_else (get parsed "action")
               (VStr "Review the message and respond appropriately.");
     escalate := or_else (get parsed "escalate") (VBool false);
     escalateReason := or_else (get parsed "escalateReason") VNull |}.

(** The record assembled from the three results. *)
Definition assemble (E : env) (msg : string) (c : CategoryResult)
  (u : UrgencyResult)
  (a : ActionResult) : TriageRecord :=
  {| r_message := msg;
     r_category := category c;
     r_urgency := level u;
     r_urgencyScore := score u;
     r_urgencyReasoning := urgencyReasoning u;
     r_recommendedAction := action a;
     r_escalate := escalate a;
     r_escalateReason := escalateReason a;
     r_reasoning := reasoning c;
     r_timestamp := now E |}.

(** The page with a message typed in and an empty history. *)
Definition initial_state (msg : string) : AnalyzePage.state :=
  {| AnalyzePage.message := msg;
     AnalyzePage.results := None;
     AnalyzePage.isLoading := false;
     AnalyzePage.loadingStage := EmptyString;
     AnalyzePage.hasController := false;
     AnalyzePage.triageHistory := [] |}.

(** The user cancels while the first calls are in flight: every attempt is
    aborted and the signal reads as aborted. *)
Definition cancelled_env : env :=
  example_env (rejects timeout_error) aborted_from_start.

(** The thresholds of C1, for a result whose score is the integer [s]. *)
Definition thresholds_hold (r : UrgencyResult) : Prop :=
  forall s : Z,
    score r = num s ->
    (level r = VStr "High" <-> (70 <= s)%Z)
    /\ (level r = VStr "Medium" <-> (30 <= s < 70)%Z)
    /\ (level r = VStr "Low" <-> (s < 30)%Z).

(** The reply gives a level and a score that the thresholds contradict. *)
Definition mismatched_reply : string :=
  JSON.quoted "{'level':'Low','score':95,'reasoning':'Minor issue.'}".

(** A reply that assigns the score 0 and an empty level. *)
Definition zero_score_reply : string :=
  JSON.quoted "{'level':'','score':0,'reasoning':'Thanks only.'}".

(** [Object.keys(CATEGORY_DEFINITIONS)]. *)
Definition category_names : list string := map fst CATEGORY_DEFINITIONS.

(** A reply that decodes, with a category outside the set, whose raw text
    nevertheless contains the name of a category in another case. *)
Definition miscased_reply : string :=
  JSON.quoted "{'category':'billing issue','reasoning':'Charged twice.'}".

(** A reply in prose that names two categories. *)
Definition prose_reply : string :=
  "This looks like a Technical Problem, possibly also a billing issue.".

(** All the pieces (contiguous substrings) of a text. *)
Fixpoint prefixes (s : string) : list string :=
  EmptyString ::
  match s with
  | String a rest => map (String a) (prefixes rest)
  | EmptyString => []
  end.

Fixpoint pieces (s : string) : list string :=
  (prefixes s ++
   match s with
   | String _ rest => pieces rest
   | EmptyString => []
   end)%list.

(** The serialization of an object, and the object. *)
Definition billing_object : string :=
  JSON.quoted "{'category':'Billing Issue','confidence':0.9}".

Definition billing_value : value :=
  VObj [("category", VStr "Billing Issue"); ("confidence", VNum 0.9%Q)].

(** The table of the specification: each adjustment is a term of a sum and
    contributes one sentence. *)
Definition spec_delta (applies : bool) (d : Z) : Z := if applies then d else 0%Z.

Definition spec_sentence (applies : bool) (text : string) : list string :=
  if applies then [text] else [].

Definition spec_clamp (x : Z) : Z :=
  if (x <? 0)%Z then 0%Z else if (100 <? x)%Z then 100%Z else x.

Definition spec_positive (sg : Signals) : bool :=
  hasPositiveSentiment sg && negb (hasCriticalKeyword sg)
  && negb (hasNegativeSentiment sg).

Definition spec_emphasis (sg : Signals) : bool :=
  (2 <=? exclamationCount sg)%nat
  && (hasNegativeSentiment sg || hasCriticalKeyword sg).

Definition spec_question (sg : Signals) : bool :=
  (0 <? questionCount sg)%nat && negb (hasCriticalKeyword sg)
  && negb (hasNegativeSentiment sg).

Definition spec_raw_score (category : option string) (sg : Signals) : Z :=
  (50
   + spec_delta (hasCriticalKeyword sg) 35
   + spec_delta (hasSystemImpact sg) 20
   + spec_delta (hasBusinessImpact sg) 15
   + spec_delta (hasNegativeSentiment sg) 15
   + spec_delta (category_is category "Technical Problem") 10
   + spec_delta (category_is category "Billing Issue") 5
   + spec_delta (category_is category "Feature Request") (-15)
   + spec_delta (spec_positive sg) (-20)
   + spec_delta (spec_emphasis sg) 10
   + spec_delta (spec_question sg) (-10))%Z.

Definition spec_reasons (category : option string) (sg : Signals) : list string :=
  spec_sentence (hasCriticalKeyword sg)
    "Critical keywords detected indicating urgent issue"
  ++ spec_sentence (hasSystemImpact sg)
       "Message suggests widespread system impact"
  ++ spec_sentence (hasBusinessImpact sg)
       "Potential business or revenue impact mentioned"
  ++ spec_sentence (hasNegativeSentiment sg)
       "Customer expressing frustration or dissatisfaction"
  ++ spec_sentence (category_is category "Technical Problem")
       "Technical issues often require timely resolution"
  ++ spec_sentence (category_is category "Billing Issue")
       "Billing concerns can impact customer retention"
  ++ spec_sentence (category_is category "Feature Request")
       "Feature requests are typically non-urgent"
  ++ spec_sentence (spec_positive sg)
       "Positive sentiment suggests non-urgent matter"
  ++ spec_sentence (spec_emphasis sg)
       "Emphasis suggests heightened concern"
  ++ spec_sentence (spec_question sg)
       "Question format suggests inquiry rather than urgent issue".

(** The thresholds of the specification. *)
Definition spec_level (s : Z) : string :=
  if (70 <=? s)%Z then "High" else if (30 <=? s)%Z then "Medium" else "Low".

(** The keywords of the first and of the fourth trigger. *)
Definition security_keywords : list string :=
  ["security"; "breach"; "hack"; "compromised"].

Definition vip_keywords : list string := ["ceo"; "cto"; "executive"; "vip"].

(** The scoring rule of the specification: a keyword counts for its number
    of words, a category for the sum over its keywords found in the
    message, Billing Issue for 2 more when payment meets fail or error. *)
Definition spec_word_count (keyword : string) : nat :=
  S (count_char " " keyword).

Definition spec_keyword_sum (lowerMessage : string) (kws : list string) : nat :=
  list_sum (map (fun kw => if includes lowerMessage kw
                           then spec_word_count kw else 0) kws).

Definition keywords_of (c : string) : list string :=
  match entry c CATEGORY_DEFINITIONS with
  | Some d => keywords d
  | None => []
  end.

Definition spec_bonus (lowerMessage c : string) : nat :=
  if (c =? "Billing Issue")
     && includes lowerMessage "payment"
     && (includes lowerMessage "fail" || includes lowerMessage "error")
  then 2 else 0.

Definition spec_score (lowerMessage c : string) : nat :=
  spec_keyword_sum lowerMessage (keywords_of c) + spec_bonus lowerMessage c.

Definition spec_confidence (winning : nat) : value :=
  if (2 <? winning)%nat then VNum 0.8%Q
  else if (0 <? winning)%nat then VNum 0.6%Q
  else VNum 0.4%Q.

(** The message of the end-to-end scenario. *)
Definition dark_mode : string := "Can you add a dark mode feature?".

(** The service is unreachable: every attempt fails in transport. *)
Definition offline_env : env :=
  example_env (rejects network_error) never_aborted.

(** * The pages that read the stored history *)

(** ** src/pages/HomePage.jsx *)

Module HomePage.

Record HomeData : Type := {
  total : nat;
  today : nat;
  recentActivity : list TriageRecord
}.

(** [arr.slice(-n)]: the last [n] items, all of them when there are fewer. *)
Definition slice_last {A} (n : nat) (l : list A) : list A :=
  skipn (List.length l - n) l.

(** [loadHomeData], given the stored history, the platform's
    [new Date(t).toDateString()] and the date string of the present day. *)
Definition loadHomeData (toDateString : string -> string) (todayString : string)
  (history : list TriageRecord) : HomeData :=
  let todayCount :=
    List.length
      (filter (fun item => toDateString (r_timestamp item) =? todayString)
              history) in
  {| total := List.length history;
     today := todayCount;
     recentActivity := rev (slice_last 3 history) |}.

End HomePage.

(** ** src/pages/HistoryPage.jsx *)

Module HistoryPage.

Definition URGENCY_ORDER : list (string * Z) :=
  [("High", 0%Z); ("Medium", 1%Z); ("Low", 2%Z)].

(** [URGENCY_ORDER[u] ?? 2] for an urgency that is a string and not the
    name of a member inherited from [Object.prototype]. *)
Definition urgency_order (u : value) : Z :=
  match u with
  | VStr s =>
      match entry s URGENCY_ORDER with
      | Some n => n
      | None => 2%Z
      end
  | _ => 2%Z
  end.

(** The comparator given to [sort]; [epoch] is the platform's reading of a
    timestamp, [new Date(t)] as a number. *)
Definition comparator (epoch : string -> Z) (sortBy : string)
  (a b : TriageRecord) : Z :=
  if sortBy =? "newest" then (epoch (r_timestamp b) - epoch (r_timestamp a))%Z
  else if sortBy =? "oldest" then (epoch (r_timestamp a) - epoch (r_timestamp b))%Z
  else if sortBy =? "urgency-high"
  then (urgency_order (r_urgency a) - urgency_order (r_urgency b))%Z
  else if sortBy =? "urgency-low"
  then (urgency_order (r_urgency b) - urgency_order (r_urgency a))%Z
  else (epoch (r_timestamp b) - epoch (r_timestamp a))%Z.

(** [Array.prototype.sort] is stable: items that compare equal keep their
    order.  For a comparator that orders by a key this fixes the result,
    computed here by insertions from the right. *)
Fixpoint insert {A} (cmp : A -> A -> Z) (x : A) (l : list A) : list A :=
  match l with
  | [] => [x]
  | y :: rest =>
      if (cmp x y <=? 0)%Z then x :: y :: rest
      else y :: insert cmp x rest
  end.

Fixpoint sort {A} (cmp : A -> A -> Z) (l : list A) : list A :=
  match l with
  | [] => []
  | x :: rest => insert cmp x (sort cmp rest)
  end.

Definition sortedHistory (epoch : string -> Z) (sortBy : string)
  (history : list TriageRecord) : list TriageRecord :=
  sort (comparator epoch sortBy) history.

(** The predicate of the filter. *)
Definition matches (categoryFilter urgencyFilter : string)
  (item : TriageRecord) : bool :=
  let matchesCategory :=
    (categoryFilter =? "all") || (r_category item =? categoryFilter) in
  let matchesUrgency :=
    (urgencyFilter =? "all") || is_str (r_urgency item) urgencyFilter in
  matchesCategory && matchesUrgency.

Definition filteredHistory (epoch : string -> Z)
  (sortBy categoryFilter urgencyFilter : string)
  (history : list TriageRecord) : list TriageRecord :=
  filter (matches categoryFilter urgencyFilter)
         (sortedHistory epoch sortBy history).

(** [[...new Set(xs)]]: the distinct items in the order of their first
    occurrence. *)
Fixpoint distinct (seen : list string) (xs : list string) : list string :=
  match xs with
  | [] => []
  | x :: rest =>
      if existsb (String.eqb x) seen then distinct seen rest
      else x :: distinct (x :: seen) rest
  end.

Definition categories (history : list TriageRecord) : list string :=
  distinct [] (map r_category history).

(** [clearHistory], given the answer to the confirmation. *)
Definition clearHistory (confirmed : bool) (history : list TriageRecord)
  : list TriageRecord :=
  if confirmed then [] else history.

End HistoryPage.

(** * Further observations *)



(** The delays the configuration provides for. *)
Definition backoff_schedule : list Z := [1000%Z; 2000%Z].

(** Some keyword of some category occurs in the lower-cased message. *)
Definition any_keyword (lowerMessage : string) : bool :=
  existsb (fun e => some_included lowerMessage (keywords (snd e)))
          CATEGORY_DEFINITIONS.

(** Some escalation trigger has a keyword in the lower-cased message. *)
Definition any_trigger (lowerMessage : string) : bool :=
  existsb (fun t => some_included lowerMessage (trigger_keywords t))
          escalationTriggers.

(** No lower-case ASCII letter occurs. *)
Fixpoint no_lower (s : string) : bool :=
  match s with
  | EmptyString => true
  | String c rest => negb (is_lower c) && no_lower rest
  end.

(** The attempts before [k] all fail with a retryable error. *)
Definition retried_before (E : env) (options : request)
  (sig : option AbortSignal) (k : nat) : Prop :=
  forall a, a < k ->
    exists error,
      create E options a = Rejected error
      /\ classify sig options a error = Retryable.

(** A service that fails in transport once and then answers. *)
Definition flaky_service : request -> nat -> outcome :=
  fun _ attempt =>
    match attempt with
    | O => Rejected network_error
    | S _ => Resolved "Billing Issue"
    end.

(** A service whose first attempt fails in transport and whose later
    attempts are aborted, with a signal that fires after the first
    attempt. *)
Definition aborted_on_retry_service : request -> nat -> outcome :=
  fun _ attempt =>
    match attempt with
    | O => Rejected network_error
    | S _ => Rejected timeout_error
    end.

Definition aborted_after_first : AbortSignal :=
  fun _ attempt => (1 <=? attempt)%nat.



(** The key by which each sort option orders: the comparator is the
    difference of the keys of its arguments. *)
Definition sort_key (epoch : string -> Z) (sortBy : string)
  (item : TriageRecord) : Z :=
  if sortBy =? "newest" then (- epoch (r_timestamp item))%Z
  else if sortBy =? "oldest" then epoch (r_timestamp item)
  else if sortBy =? "urgency-high" then HistoryPage.urgency_order (r_urgency item)
  else if sortBy =? "urgency-low"
  then (- HistoryPage.urgency_order (r_urgency item))%Z
  else (- epoch (r_timestamp item))%Z.

(** The names of the members that an object literal inherits. *)
Definition inherited_names : list string :=
  [ "constructor"; "hasOwnProperty"; "isPrototypeOf"; "propertyIsEnumerable";
    "toLocaleString"; "toString"; "valueOf"; "__proto__";
    "__defineGetter__"; "__defineSetter__"; "__lookupGetter__";
    "__lookupSetter__" ].

(** An urgency for which [URGENCY_ORDER[u]] is an own entry of the table
    or [undefined]: a primitive that does not name an inherited member. *)
Definition plain_urgency (item : TriageRecord) : bool :=
  match r_urgency item with
  | VStr s => negb (existsb (String.eqb s) inherited_names)
  | VArr _ | VObj _ => false
  | _ => true
  end.

(** A record for examples. *)
Definition sample_record (msg cat lvl stamp : string) : TriageRecord :=
  {| r_message := msg;
     r_category := cat;
     r_urgency := VStr lvl;
     r_urgencyScore := num 50;
     r_urgencyReasoning := VStr "Standard priority based on message analysis.";
     r_recommendedAction := VStr "Review the message and respond appropriately.";
     r_escalate := VBool false;
     r_escalateReason := VNull;
     r_reasoning := VStr "Example.";
     r_timestamp := stamp |}.

Definition sample_history : list TriageRecord :=
  [ sample_record "first" "Billing Issue" "Low" "1";
    sample_record "second" "Technical Problem" "High" "2";
    sample_record "third" "Billing Issue" "Critical" "3";
    sample_record "fourth" "General Inquiry" "High" "4" ].

(** A clock for examples: the timestamp is a single digit. *)
Definition sample_epoch (stamp : string) : Z :=
  match stamp with
  | String c _ => Z.of_nat (nat_of_ascii c)
  | EmptyString => 0%Z
  end.

(** The remote calls and the sleeps of a trace, in the order in which they
    happen; the console output is left out. *)
Definition timeline (t : list event) : list event :=
  filter (fun ev => match ev with
                    | Create _ _ | Sleep _ => true
                    | _ => false
                    end) t.

(** The calls and the sleeps of a request whose attempts all fail with a
    retryable error: 1000 ms between the first and the second call, 2000 ms
    between the second and the third, nothing after the third. *)
Definition full_timeline (options : request) : list event :=
  [ Create options 0; Sleep 1000%Z; Create options 1; Sleep 2000%Z;
    Create options 2 ].



(** Every character is an ASCII character (code below 128).  On such a
    string the length in bytes is the length in UTF-16 units, the case
    conversions of the model are those of JavaScript, and the white space
    of [trim] and of the class [\s] is the ASCII white space. *)
Fixpoint ascii_only (s : string) : bool :=
  match s with
  | EmptyString => true
  | String c rest => (nat_of_ascii c <? 128)%nat && ascii_only rest
  end.

(** * The call client *)

Section CallClient.

Import apiClient.

Variable E : env.
Variable options : request.
Variable sig : option AbortSignal.

Lemma attempts_resolved remaining attempt lastError content :
  create E options attempt = Resolved content ->
  attempts E options sig (S remaining) attempt lastError
  = ([Create options attempt], Returns content).
Proof.
  intros H. simpl. rewrite H. reflexivity.
Qed.

Lemma attempts_cancelled remaining attempt lastError error :
  create E options attempt = Rejected error ->
  classify sig options attempt error = Cancelled ->
  attempts E options sig (S remaining) attempt lastError
  = ([Create options attempt], Throws (Error "Request cancelled")).
Proof.
  intros H C. unfold classify in C. simpl. rewrite H.
  destruct (is_str (get error "name") "AbortError"
            && signal_aborted sig options attempt).
  - reflexivity.
  - destruct (is_num (get error "status") 401 || is_num (get error "status") 403);
      discriminate.
Qed.

Lemma attempts_auth remaining attempt lastError error :
  create E options attempt = Rejected error ->
  classify sig options attempt error = AuthFailure ->
  attempts E options sig (S remaining) attempt lastError
  = ([Create options attempt], Throws error).
Proof.
  intros H C. unfold classify in C. simpl. rewrite H.
  destruct (is_str (get error "name") "AbortError"
            && signal_aborted sig options attempt); [discriminate|].
  destruct (is_num (get error "status") 401 || is_num (get error "status") 403);
    [reflexivity | discriminate].
Qed.

Lemma attempts_retry remaining attempt lastError error :
  create E options attempt = Rejected error ->
  classify sig options attempt error = Retryable ->
  attempts E options sig (S remaining) attempt lastError
  = (retry_events options attempt error
       ++ trace (attempts E options sig remaining (S attempt) error),
     result (attempts E options sig remaining (S attempt) error)).
Proof.
  intros H C. unfold classify in C.
  cbn [attempts]. rewrite H.
  destruct (is_str (get error "name") "AbortError"
            && signal_aborted sig options attempt); [discriminate|].
  destruct (is_num (get error "status") 401 || is_num (get error "status") 403);
    [discriminate|].
  unfold retry_events.
  destruct (attempts E options sig remaining (S attempt) error) as [t r].
  destruct (attempt <? maxRetries CONFIG)%nat; destruct r; reflexivity.
Qed.

(** A call whose every attempt is rejected throws, whatever the errors. *)
Lemma attempts_all_rejected remaining attempt lastError :
  (forall a, exists error, create E options a = Rejected error) ->
  exists thrown,
    result (attempts E options sig remaining attempt lastError) = Throws thrown.
Proof.
  intros H. revert attempt lastError.
  induction remaining as [|n IH]; intros attempt lastError.
  - exists lastError. reflexivity.
  - destruct (H attempt) as [error He].
    destruct (classify sig options attempt error) eqn:C.
    + rewrite (attempts_cancelled _ _ _ _ He C). eexists. reflexivity.
    + rewrite (attempts_auth _ _ _ _ He C). eexists. reflexivity.
    + rewrite (attempts_retry _ _ _ _ He C). apply IH.
Qed.

Lemma groqRequest_all_rejected :
  (forall a, exists error, create E options a = Rejected error) ->
  exists thrown, result (groqRequest E options sig) = Throws thrown.
Proof.
  intros H. apply attempts_all_rejected. exact H.
Qed.

(** C3.  When the three attempts all fail with a retryable error, the
    whole course of the request is: the first call, the warning of retry 1
    and a sleep of 1000 ms, the second call, the warning of retry 2 and a
    sleep of 2000 ms, the third call, and nothing after it; so three calls
    are issued, the sleep of 1000 ms lies between the first and the second,
    the sleep of 2000 ms between the second and the third, and the error of
    the last attempt is thrown as it is.  When the first attempt fails with
    status 401 or 403, that single call is all that happens and its error
    is thrown at once. *)
Theorem groqRequest_retry_discipline :
  (forall e0 e1 e2,
     create E options 0 = Rejected e0 ->
     create E options 1 = Rejected e1 ->
     create E options 2 = Rejected e2 ->
     classify sig options 0 e0 = Retryable ->
     classify sig options 1 e1 = Retryable ->
     classify sig options 2 e2 = Retryable ->
     trace (groqRequest E options sig)
     = [ Create options 0;
         WarnRetry 1 1000%Z (get e0 "message"); Sleep 1000%Z;
         Create options 1;
         WarnRetry 2 2000%Z (get e1 "message"); Sleep 2000%Z;
         Create options 2 ]
     /\ attempts_made (trace (groqRequest E options sig)) = 3
     /\ delays (trace (groqRequest E options sig)) = [1000; 2000]%Z
     /\ result (groqRequest E options sig) = Throws e2)
  /\
  (forall e0,
     create E options 0 = Rejected e0 ->
     classify sig options 0 e0 = AuthFailure ->
     trace (groqRequest E options sig) = [Create options 0]
     /\ attempts_made (trace (groqRequest E options sig)) = 1
     /\ delays (trace (groqRequest E options sig)) = []
     /\ result (groqRequest E options sig) = Throws e0).
Proof.
  split.
  - intros e0 e1 e2 H0 H1 H2 C0 C1 C2.
    unfold groqRequest. cbn [maxRetries CONFIG].
    rewrite (attempts_retry _ _ _ _ H0 C0).
    rewrite (attempts_retry _ _ _ _ H1 C1).
    rewrite (attempts_retry _ _ _ _ H2 C2).
    repeat split.
  - intros e0 H0 C0.
    unfold groqRequest. cbn [maxRetries CONFIG].
    rewrite (attempts_auth _ _ _ _ H0 C0).
    repeat split.
Qed.

End CallClient.

Lemma groqRequest_retry_discipline_witness :
  (let E := example_env (rejects timeout_error) never_aborted in
   let m := apiClient.groqRequest E (CategorizeRequest "hello") (Some (signal E)) in
   trace m
   = [ Create (CategorizeRequest "hello") 0;
       WarnRetry 1 1000%Z (get timeout_error "message"); Sleep 1000%Z;
       Create (CategorizeRequest "hello") 1;
       WarnRetry 2 2000%Z (get timeout_error "message"); Sleep 2000%Z;
       Create (CategorizeRequest "hello") 2 ]
   /\ attempts_made (trace m) = 3
   /\ delays (trace m) = [1000; 2000]%Z
   /\ result m = Throws timeout_error)
  /\
  (let E := example_env (rejects unauthorized_error) never_aborted in
   let m := apiClient.groqRequest E (CategorizeRequest "hello") (Some (signal E)) in
   trace m = [Create (CategorizeRequest "hello") 0]
   /\ attempts_made (trace m) = 1
   /\ delays (trace m) = []
   /\ result m = Throws unauthorized_error).
Proof.
  split.
  - exact (proj1 (groqRequest_retry_discipline
                    (example_env (rejects timeout_error) never_aborted)
                    (CategorizeRequest "hello") (Some never_aborted))
                 timeout_error timeout_error timeout_error
                 eq_refl eq_refl eq_refl eq_refl eq_refl eq_refl).
  - exact (proj2 (groqRequest_retry_discipline
                    (example_env (rejects unauthorized_error) never_aborted)
                    (CategorizeRequest "hello") (Some never_aborted))
                 unauthorized_error eq_refl eq_refl).
Defined.

(** * The engines absorb every failure of the call client *)

Section Monad.

Context {A B : Type}.

Lemma result_bind_returns (m : M A) (k : A -> M B) a :
  result m = Returns a -> result (bind m k) = result (k a).
Proof.
  destruct m as [t r]. simpl. intros ->. simpl.
  destruct (k a). reflexivity.
Qed.

Lemma result_bind_throws (m : M A) (k : A -> M B) e :
  result m = Throws e -> result (bind m k) = Throws e.
Proof.
  destruct m as [t r]. simpl. intros ->. reflexivity.
Qed.

Lemma result_try_returns (m : M A) (h : value -> M A) a :
  result m = Returns a -> result (try_catch m h) = Returns a.
Proof.
  destruct m as [t r]. simpl. intros ->. reflexivity.
Qed.

Lemma result_try_throws (m : M A) (h : value -> M A) e :
  result m = Throws e -> result (try_catch m h) = result (h e).
Proof.
  destruct m as [t r]. simpl. intros ->. simpl.
  destruct (h e). reflexivity.
Qed.

Lemma trace_bind (m : M A) (k : A -> M B) :
  trace (bind m k)
  = trace m ++ match result m with
               | Returns a => trace (k a)
               | Throws _ => []
               end.
Proof.
  destruct m as [t [a|e]]; simpl.
  - destruct (k a). reflexivity.
  - symmetry. apply app_nil_r.
Qed.

Lemma trace_try (m : M A) (h : value -> M A) :
  trace (try_catch m h)
  = trace m ++ match result m with
               | Returns _ => []
               | Throws e => trace (h e)
               end.
Proof.
  destruct m as [t [a|e]]; simpl.
  - symmetry. apply app_nil_r.
  - destruct (h e). reflexivity.
Qed.

End Monad.

Section Engines.

Import apiClient llmHelper urgencyScorer templates.

Variable E : env.

Lemma categorizeMessage_replied message sig content :
  result (groqRequest E (CategorizeRequest message) sig) = Returns content ->
  result (categorizeMessage E message sig)
  = Returns (let parsed := parseJsonResponse E content in
             if truthy parsed then category_of_reply content parsed
             else extractCategoryFromProse E content message).
Proof.
  intros H. unfold categorizeMessage.
  erewrite result_try_returns; [reflexivity|].
  erewrite result_bind_returns by exact H.
  cbv zeta. destruct (truthy (parseJsonResponse E content)); reflexivity.
Qed.

Lemma categorizeMessage_failed message sig thrown :
  result (groqRequest E (CategorizeRequest message) sig) = Throws thrown ->
  result (categorizeMessage E message sig)
  = Returns (getFallbackCategorization E message).
Proof.
  intros H. unfold categorizeMessage.
  erewrite result_try_throws by (erewrite result_bind_throws by exact H; reflexivity).
  reflexivity.
Qed.

Lemma calculateUrgency_replied message category sig content :
  result (groqRequest E (UrgencyRequest message category (detectSignals message)) sig)
  = Returns content ->
  result (calculateUrgency E message category sig)
  = Returns (let parsed := parseJsonResponse E content in
             if truthy parsed
             then urgency_of_reply (detectSignals message) parsed
             else getFallbackUrgency message category (detectSignals message)).
Proof.
  intros H. unfold calculateUrgency. cbv zeta.
  erewrite result_try_returns; [reflexivity|].
  erewrite result_bind_returns by exact H.
  destruct (truthy (parseJsonResponse E content)); reflexivity.
Qed.

Lemma calculateUrgency_failed message category sig thrown :
  result (groqRequest E (UrgencyRequest message category (detectSignals message)) sig)
  = Throws thrown ->
  result (calculateUrgency E message category sig)
  = Returns (getFallbackUrgency message category (detectSignals message)).
Proof.
  intros H. unfold calculateUrgency. cbv zeta.
  erewrite result_try_throws by (erewrite result_bind_throws by exact H; reflexivity).
  reflexivity.
Qed.

Lemma getRecommendedAction_failed message category urgency sig thrown :
  result (groqRequest E (ActionRequest message category urgency) sig)
  = Throws thrown ->
  result (getRecommendedAction E message category urgency sig)
  = Returns (getFallbackRecommendation message category urgency).
Proof.
  intros H. unfold getRecommendedAction.
  erewrite result_try_throws by (erewrite result_bind_throws by exact H; reflexivity).
  reflexivity.
Qed.

Lemma categorizeMessage_returns message sig :
  exists r, result (categorizeMessage E message sig) = Returns r.
Proof.
  destruct (result (groqRequest E (CategorizeRequest message) sig)) eqn:H.
  - rewrite (categorizeMessage_replied _ _ _ H). eexists. reflexivity.
  - rewrite (categorizeMessage_failed _ _ _ H). eexists. reflexivity.
Qed.

Lemma calculateUrgency_returns message category sig :
  exists r, result (calculateUrgency E message category sig) = Returns r.
Proof.
  destruct (result (groqRequest E
                      (UrgencyRequest message category (detectSignals message))
                      sig)) eqn:H.
  - rewrite (calculateUrgency_replied _ _ _ _ H). eexists. reflexivity.
  - rewrite (calculateUrgency_failed _ _ _ _ H). eexists. reflexivity.
Qed.

Lemma getRecommendedAction_replied message category urgency sig content :
  result (groqRequest E (ActionRequest message category urgency) sig)
  = Returns content ->
  result (getRecommendedAction E message category urgency sig)
  = Returns (let parsed := parseJsonResponse E content in
             if truthy parsed then action_of_reply parsed
             else getFallbackRecommendation message category urgency).
Proof.
  intros H. unfold getRecommendedAction.
  erewrite result_try_returns; [reflexivity|].
  erewrite result_bind_returns by exact H.
  cbv zeta. destruct (truthy (parseJsonResponse E content)); reflexivity.
Qed.

Lemma getRecommendedAction_returns message category urgency sig :
  exists r, result (getRecommendedAction E message category urgency sig) = Returns r.
Proof.
  destruct (result (groqRequest E (ActionRequest message category urgency) sig))
    eqn:H.
  - rewrite (getRecommendedAction_replied _ _ _ _ _ H). eexists. reflexivity.
  - rewrite (getRecommendedAction_failed _ _ _ _ _ H). eexists. reflexivity.
Qed.

End Engines.

(** * The orchestrator *)

Section Orchestrator.

Import apiClient llmHelper urgencyScorer templates AnalyzePage.

Variable E : env.

Lemma groqRequest_first_call options sig :
  exists t, trace (groqRequest E options sig) = Create options 0 :: t.
Proof.
  unfold groqRequest. cbn [attempts maxRetries CONFIG].
  rewrite trace_bind. simpl. eexists. reflexivity.
Qed.

Lemma getRecommendedAction_first_call message category urgency sig :
  exists t,
    trace (getRecommendedAction E message category urgency sig)
    = Create (ActionRequest message category urgency) 0 :: t.
Proof.
  unfold getRecommendedAction.
  rewrite trace_try, trace_bind.
  destruct (groqRequest_first_call (ActionRequest message category urgency) sig)
    as [t Ht].
  rewrite Ht. simpl. eexists. reflexivity.
Qed.

Lemma analyse_result msg sig c u a :
  result (categorizeMessage E msg (Some sig)) = Returns c ->
  result (calculateUrgency E msg None (Some sig)) = Returns u ->
  result (getRecommendedAction E msg (category c) (level u) (Some sig))
  = Returns a ->
  result (analyse E msg sig) = Returns (assemble E msg c u a)
  /\ exists t1 t2,
       trace (analyse E msg sig)
       = t1 ++ Create (ActionRequest msg (category c) (level u)) 0 :: t2.
Proof.
  intros Hc Hu Ha. unfold analyse.
  destruct (categorizeMessage E msg (Some sig)) as [tc rc].
  destruct (calculateUrgency E msg None (Some sig)) as [tu ru].
  simpl in Hc, Hu. subst rc ru. cbn [Promise_all bind].
  destruct (getRecommendedAction_first_call msg (category c) (level u) (Some sig))
    as [t Ht].
  destruct (getRecommendedAction E msg (category c) (level u) (Some sig))
    as [ta ra].
  simpl in Ha, Ht. subst ra ta. simpl. split.
  - reflexivity.
  - exists (tc ++ tu), (t ++ []). rewrite app_nil_r. reflexivity.
Qed.

(** Whatever the environment does, an analysis of a non-blank message ends
    with a record shown and appended to the stored history. *)
Lemma handleAnalyze_persists st :
  truthy (VStr (trim (message st))) = true ->
  exists c u a,
    result (categorizeMessage E (message st) (Some (signal E))) = Returns c
    /\ result (calculateUrgency E (message st) None (Some (signal E))) = Returns u
    /\ result (getRecommendedAction E (message st) (category c) (level u)
                 (Some (signal E))) = Returns a
    /\ results (snd (handleAnalyze E st)) = Some (assemble E (message st) c u a)
    /\ triageHistory (snd (handleAnalyze E st))
       = triageHistory st ++ [assemble E (message st) c u a]
    /\ In (Create (ActionRequest (message st) (category c) (level u)) 0)
          (fst (handleAnalyze E st)).
Proof.
  intros Hmsg.
  destruct (categorizeMessage_returns E (message st) (Some (signal E)))
    as [c Hc].
  destruct (calculateUrgency_returns E (message st) None (Some (signal E)))
    as [u Hu].
  destruct (getRecommendedAction_returns E (message st) (category c) (level u)
              (Some (signal E))) as [a Ha].
  exists c, u, a. repeat (split; [assumption|]).
  destruct (analyse_result _ _ _ _ _ Hc Hu Ha) as [Hr [t1 [t2 Ht]]].
  unfold handleAnalyze. rewrite Hmsg. cbn [negb].
  destruct (analyse E (message st) (signal E)) as [t r].
  simpl in Hr, Ht. subst r t. cbn [fst snd results triageHistory].
  repeat split. apply in_or_app. right. left. reflexivity.
Qed.

(** C2.  When the signal fires during the first call of the categorization
    stage, the call client throws the cancellation error, but
    [categorizeMessage] answers with its fallback result; [handleAnalyze]
    then goes on, issues the call of the action stage, shows a record and
    appends it to the stored history. *)
Theorem cancellation_is_absorbed st error :
  truthy (VStr (trim (message st))) = true ->
  create E (CategorizeRequest (message st)) 0 = Rejected error ->
  classify (Some (signal E)) (CategorizeRequest (message st)) 0 error
  = Cancelled ->
  result (groqRequest E (CategorizeRequest (message st)) (Some (signal E)))
  = Throws (Error "Request cancelled")
  /\ result (categorizeMessage E (message st) (Some (signal E)))
     = Returns (getFallbackCategorization E (message st))
  /\ exists record,
       r_category record = category (getFallbackCategorization E (message st))
       /\ results (snd (handleAnalyze E st)) = Some record
       /\ triageHistory (snd (handleAnalyze E st))
          = triageHistory st ++ [record]
       /\ In (Create (ActionRequest (message st) (r_category record)
                        (r_urgency record)) 0)
             (fst (handleAnalyze E st)).
Proof.
  intros Hmsg Hrej Hcls.
  assert (Hthrow :
    result (groqRequest E (CategorizeRequest (message st)) (Some (signal E)))
    = Throws (Error "Request cancelled")).
  { unfold groqRequest.
    rewrite (attempts_cancelled _ _ _ _ _ _ _ Hrej Hcls). reflexivity. }
  pose proof (categorizeMessage_failed E _ _ _ Hthrow) as Hcat.
  split; [exact Hthrow|]. split; [exact Hcat|].
  destruct (handleAnalyze_persists st Hmsg)
    as [c [u [a [Hc [Hu [Ha [Hres [Hhist Hin]]]]]]]].
  rewrite Hcat in Hc. injection Hc as <-.
  exists (assemble E (message st) (getFallbackCategorization E (message st)) u a).
  repeat split; assumption.
Qed.

End Orchestrator.

Lemma cancellation_is_absorbed_witness :
  let E := cancelled_env in
  let st := initial_state "Our payment failed and we can't access our account" in
  result (apiClient.groqRequest E (CategorizeRequest (AnalyzePage.message st))
            (Some (signal E)))
  = Throws (Error "Request cancelled")
  /\ result (llmHelper.categorizeMessage E (AnalyzePage.message st) (Some (signal E)))
     = Returns (llmHelper.getFallbackCategorization E (AnalyzePage.message st))
  /\ exists record,
       AnalyzePage.r_category record
       = category (llmHelper.getFallbackCategorization E (AnalyzePage.message st))
       /\ AnalyzePage.results (snd (AnalyzePage.handleAnalyze E st)) = Some record
       /\ AnalyzePage.triageHistory (snd (AnalyzePage.handleAnalyze E st))
          = AnalyzePage.triageHistory st ++ [record]
       /\ In (Create (ActionRequest (AnalyzePage.message st)
                        (AnalyzePage.r_category record)
                        (AnalyzePage.r_urgency record)) 0)
             (fst (AnalyzePage.handleAnalyze E st)).
Proof.
  exact (cancellation_is_absorbed cancelled_env
           (initial_state "Our payment failed and we can't access our account")
           timeout_error eq_refl eq_refl eq_refl).
Defined.

(** The same analysis, evaluated: a record is stored although every call was
    cancelled. *)
Example cancelled_analysis_is_stored :
  let st' :=
    snd (AnalyzePage.handleAnalyze cancelled_env
           (initial_state "Our payment failed and we can't access our account")) in
  map AnalyzePage.r_category (AnalyzePage.triageHistory st') = ["Billing Issue"]
  /\ map AnalyzePage.r_urgency (AnalyzePage.triageHistory st') = [VStr "High"]
  /\ map AnalyzePage.r_escalate (AnalyzePage.triageHistory st') = [VBool true]
  /\ option_map AnalyzePage.r_category (AnalyzePage.results st')
     = Some "Billing Issue".
Proof.
  vm_compute. repeat split.
Qed.

(** * Urgency: level and score *)

Section Urgency.

Import apiClient urgencyScorer.

Lemma num_inj a b : num a = num b -> a = b.
Proof.
  unfold num, inject_Z. intros H. injection H as H. exact H.
Qed.

Lemma level_of_thresholds s :
  (VStr (level_of s) = VStr "High" <-> (70 <= s)%Z)
  /\ (VStr (level_of s) = VStr "Medium" <-> (30 <= s < 70)%Z)
  /\ (VStr (level_of s) = VStr "Low" <-> (s < 30)%Z).
Proof.
  unfold level_of.
  destruct (70 <=? s)%Z eqn:H70; [|destruct (30 <=? s)%Z eqn:H30].
  - apply Z.leb_le in H70.
    repeat split; intros; try reflexivity; try discriminate; try lia.
  - apply Z.leb_gt in H70. apply Z.leb_le in H30.
    repeat split; intros; try reflexivity; try discriminate; try lia.
  - apply Z.leb_gt in H70. apply Z.leb_gt in H30.
    repeat split; intros; try reflexivity; try discriminate; try lia.
Qed.

Lemma getFallbackUrgency_score_level message category sg :
  exists s,
    (0 <= s <= 100)%Z
    /\ score (getFallbackUrgency message category sg) = num s
    /\ level (getFallbackUrgency message category sg) = VStr (level_of s).
Proof.
  unfold getFallbackUrgency. cbv zeta. cbn [score level].
  eexists. split; [|split; reflexivity]. lia.
Qed.

Lemma getFallbackUrgency_thresholds message category sg :
  thresholds_hold (getFallbackUrgency message category sg).
Proof.
  destruct (getFallbackUrgency_score_level message category sg)
    as [s [_ [Hs Hl]]].
  intros s' Hs'. rewrite Hs in Hs'. apply num_inj in Hs'. subst s'.
  rewrite Hl. apply level_of_thresholds.
Qed.

(** C1, as the code has it.  Every result of the urgency engine comes from
    one of two paths.  On the fallback path the score is an integer of
    [0,100] and the level follows from it by the thresholds 70 and 30.  On
    the AI path, level and score are each read from the decoded reply, with
    the defaults Medium and 50, and nothing relates them. *)
Theorem urgency_level_and_score E message category sig :
  exists r,
    result (calculateUrgency E message category sig) = Returns r
    /\ ((r = getFallbackUrgency message category (detectSignals message)
         /\ (exists s, (0 <= s <= 100)%Z /\ score r = num s)
         /\ thresholds_hold r)
        \/ (exists content,
              result (groqRequest E
                        (UrgencyRequest message category (detectSignals message))
                        sig) = Returns content
              /\ truthy (parseJsonResponse E content) = true
              /\ level r = or_else (get (parseJsonResponse E content) "level")
                                   (VStr "Medium")
              /\ score r = or_else (get (parseJsonResponse E content) "score")
                                   (num 50))).
Proof.
  assert (Hfb : forall r,
    r = getFallbackUrgency message category (detectSignals message) ->
    r = getFallbackUrgency message category (detectSignals message)
    /\ (exists s, (0 <= s <= 100)%Z /\ score r = num s)
    /\ thresholds_hold r).
  { intros r ->. split; [reflexivity|]. split.
    - destruct (getFallbackUrgency_score_level message category
                  (detectSignals message)) as [s [Hb [Hs _]]].
      exists s. split; assumption.
    - apply getFallbackUrgency_thresholds. }
  destruct (result (groqRequest E
                      (UrgencyRequest message category (detectSignals message))
                      sig)) as [content|thrown] eqn:H.
  - rewrite (calculateUrgency_replied _ _ _ _ _ H). cbv zeta.
    destruct (truthy (parseJsonResponse E content)) eqn:Ht.
    + eexists. split; [reflexivity|]. right.
      exists content. repeat split. exact Ht.
    + eexists. split; [reflexivity|]. left. apply Hfb. reflexivity.
  - rewrite (calculateUrgency_failed _ _ _ _ _ H).
    eexists. split; [reflexivity|]. left. apply Hfb. reflexivity.
Qed.

(** C1 fails on the AI path: the reply's level Low is returned together
    with the reply's score 95. *)
Lemma ai_level_not_derived_from_score :
  exists r,
    result (calculateUrgency (example_env (replies mismatched_reply) never_aborted)
              "The site is slow" None None) = Returns r
    /\ score r = num 95
    /\ level r = VStr "Low"
    /\ ~ thresholds_hold r.
Proof.
  eexists. split; [vm_compute; reflexivity|].
  split; [reflexivity|]. split; [reflexivity|].
  intros H. destruct (H 95%Z eq_refl) as [_ [_ [Hlow _]]].
  cbn [level] in Hlow. specialize (Hlow eq_refl). lia.
Qed.

(** C10.  On the AI path a reply whose score is the number zero yields the
    score 50, and an empty level yields Medium; no result of the AI path
    has a score that is the number zero. *)
Theorem ai_score_zero_becomes_50 E message category sig content :
  result (groqRequest E (UrgencyRequest message category (detectSignals message))
            sig) = Returns content ->
  truthy (parseJsonResponse E content) = true ->
  exists r,
    result (calculateUrgency E message category sig) = Returns r
    /\ (forall q, get (parseJsonResponse E content) "score" = VNum q ->
                  Qeq q 0 -> score r = num 50)
    /\ (get (parseJsonResponse E content) "level" = VStr EmptyString ->
        level r = VStr "Medium")
    /\ (forall q, score r = VNum q -> ~ Qeq q 0).
Proof.
  intros H Ht.
  rewrite (calculateUrgency_replied _ _ _ _ _ H). cbv zeta. rewrite Ht.
  eexists. split; [reflexivity|].
  unfold urgency_of_reply. cbn [score level].
  split; [|split].
  - intros q Hq Hz. rewrite Hq. unfold or_else. cbn [truthy].
    unfold Qeq in Hz. simpl in Hz.
    replace (Qnum q =? 0)%Z with true by (symmetry; apply Z.eqb_eq; lia).
    reflexivity.
  - intros Hl. rewrite Hl. reflexivity.
  - intros q Hs Hz. unfold or_else in Hs.
    destruct (truthy (get (parseJsonResponse E content) "score")) eqn:Hs'.
    + rewrite Hs in Hs'. cbn [truthy] in Hs'.
      unfold Qeq in Hz. simpl in Hz.
      apply negb_true_iff, Z.eqb_neq in Hs'. lia.
    + unfold num, inject_Z in Hs. injection Hs as <-.
      unfold Qeq in Hz. simpl in Hz. lia.
Qed.

Lemma ai_score_zero_becomes_50_witness :
  let E := example_env (replies zero_score_reply) never_aborted in
  get (parseJsonResponse E zero_score_reply) "score" = VNum 0%Q
  /\ get (parseJsonResponse E zero_score_reply) "level" = VStr EmptyString
  /\ exists r,
       result (calculateUrgency E "Thank you!" None None) = Returns r
       /\ score r = num 50
       /\ level r = VStr "Medium".
Proof.
  intros E.
  split; [reflexivity|]. split; [reflexivity|].
  destruct (ai_score_zero_becomes_50 E "Thank you!" None None zero_score_reply
              eq_refl eq_refl) as [r [Hr [Hscore [Hlevel _]]]].
  exists r. split; [exact Hr|]. split.
  - apply (Hscore 0%Q); reflexivity.
  - apply Hlevel. reflexivity.
Defined.

End Urgency.

(** * Categorization: replies that name no known category *)

Section Categorization.

Import apiClient llmHelper.

Lemma first_named_found lowerContent pre c post :
  (forall c', In c' pre -> includes lowerContent (toLowerCase c') = false) ->
  includes lowerContent (toLowerCase c) = true ->
  first_named lowerContent (pre ++ c :: post) = Some c.
Proof.
  induction pre as [|p pre IH]; intros Hpre Hc; simpl.
  - rewrite Hc. reflexivity.
  - rewrite (Hpre p (or_introl eq_refl)).
    apply IH; [|exact Hc]. intros c' Hin. apply Hpre. right. exact Hin.
Qed.

Lemma first_named_none lowerContent categories :
  (forall c, In c categories -> includes lowerContent (toLowerCase c) = false) ->
  first_named lowerContent categories = None.
Proof.
  induction categories as [|c rest IH]; intros H; simpl.
  - reflexivity.
  - rewrite (H c (or_introl eq_refl)). apply IH.
    intros c' Hin. apply H. right. exact Hin.
Qed.

Lemma validated_category_unknown parsed :
  (forall c, In c category_names -> get parsed "category" <> VStr c) ->
  validated_category parsed = "Unknown".
Proof.
  intros H. unfold validated_category.
  destruct (get parsed "category") as [| | | |c| |]; try reflexivity.
  destruct (existsb (String.eqb c) (map fst CATEGORY_DEFINITIONS)) eqn:Hex;
    [|reflexivity].
  apply existsb_exists in Hex. destruct Hex as [c' [Hin Heq]].
  apply String.eqb_eq in Heq. subst c'.
  exfalso. exact (H c Hin eq_refl).
Qed.

(** C4, as the code has it.  A reply that decodes to an object whose
    category is none of the four names is answered with the category
    Unknown, the reply's reasoning (or the raw text) and the reply's
    confidence (or 0.8): the raw text is not searched.  The search of the
    raw text for a category name, lower-cased on both sides and tried in
    the order of the definitions, with confidence 0.7 and the keyword
    scoring when no name occurs, is what happens when the reply does not
    decode. *)
Theorem categorizeMessage_unrecognized_reply E message sig content :
  result (groqRequest E (CategorizeRequest message) sig) = Returns content ->
  (truthy (parseJsonResponse E content) = true ->
   (forall c, In c category_names ->
              get (parseJsonResponse E content) "category" <> VStr c) ->
   result (categorizeMessage E message sig)
   = Returns {| category := "Unknown";
                reasoning := or_else (get (parseJsonResponse E content) "reasoning")
                                     (VStr content);
                confidence := or_else (get (parseJsonResponse E content) "confidence")
                                      (VNum 0.8%Q) |})
  /\
  (truthy (parseJsonResponse E content) = false ->
   (forall pre c post,
      category_names = pre ++ c :: post ->
      (forall c', In c' pre ->
                  includes (toLowerCase content) (toLowerCase c') = false) ->
      includes (toLowerCase content) (toLowerCase c) = true ->
      result (categorizeMessage E message sig)
      = Returns {| category := c;
                   reasoning := VStr content;
                   confidence := VNum 0.7%Q |})
   /\
   ((forall c, In c category_names ->
               includes (toLowerCase content) (toLowerCase c) = false) ->
    result (categorizeMessage E message sig)
    = Returns (getFallbackCategorization E message))).
Proof.
  intros H. rewrite (categorizeMessage_replied _ _ _ _ H). cbv zeta.
  split.
  - intros Ht Hcat. rewrite Ht. unfold category_of_reply.
    rewrite (validated_category_unknown _ Hcat). reflexivity.
  - intros Ht. rewrite Ht. unfold extractCategoryFromProse. cbv zeta.
    fold category_names. split.
    + intros pre c post Hnames Hpre Hc. rewrite Hnames.
      rewrite (first_named_found _ _ _ _ Hpre Hc). reflexivity.
    + intros Hnone. rewrite (first_named_none _ _ Hnone). reflexivity.
Qed.

(** C4 fails: the raw text of the decoded reply contains a category name,
    yet the answer is Unknown with confidence 0.8. *)
Lemma decoded_reply_is_not_searched :
  let E := example_env (replies miscased_reply) never_aborted in
  parseJsonResponse E miscased_reply
  = VObj [("category", VStr "billing issue"); ("reasoning", VStr "Charged twice.")]
  /\ first_named (toLowerCase miscased_reply) category_names = Some "Billing Issue"
  /\ exists r,
       result (categorizeMessage E "I was charged twice" None) = Returns r
       /\ category r = "Unknown"
       /\ confidence r = VNum 0.8%Q
       /\ category r <> "Billing Issue"
       /\ confidence r <> VNum 0.7%Q.
Proof.
  split; [reflexivity|]. split; [reflexivity|].
  eexists. split; [vm_compute; reflexivity|].
  cbn [category confidence]. repeat split; discriminate.
Qed.

Lemma categorizeMessage_unrecognized_reply_witness :
  (let E := example_env (replies miscased_reply) never_aborted in
   result (categorizeMessage E "I was charged twice" None)
   = Returns {| category := "Unknown";
                reasoning := VStr "Charged twice.";
                confidence := VNum 0.8%Q |})
  /\
  (let E := example_env (replies prose_reply) never_aborted in
   truthy (parseJsonResponse E prose_reply) = false
   /\ result (categorizeMessage E "The app crashed after I paid" None)
      = Returns {| category := "Billing Issue";
                   reasoning := VStr prose_reply;
                   confidence := VNum 0.7%Q |}).
Proof.
  split.
  - intros E.
    refine (proj1 (categorizeMessage_unrecognized_reply E "I was charged twice"
                     None miscased_reply eq_refl) eq_refl _).
    intros c Hin.
    repeat (destruct Hin as [<-|Hin]; [discriminate|]). destruct Hin.
  - intros E. split; [reflexivity|].
    refine (proj1 (proj2 (categorizeMessage_unrecognized_reply E
                            "The app crashed after I paid" None prose_reply
                            eq_refl) eq_refl)
              [] "Billing Issue"
              ["Technical Problem"; "Feature Request"; "General Inquiry"]
              eq_refl _ eq_refl).
    intros c' [].
Defined.

End Categorization.

(** * Decoding a reply *)

Section Decoder.

Import apiClient.
Local Open Scope string_scope.

Lemma startsWith_prefixes p s : startsWith p s = true -> In p (prefixes s).
Proof.
  revert s. induction p as [|a p IH]; intros s H.
  - destruct s; left; reflexivity.
  - destruct s as [|b s]; [discriminate|].
    simpl in H. apply andb_true_iff in H. destruct H as [Hab Hp].
    apply Ascii.eqb_eq in Hab. subst b.
    simpl. right. apply in_map. apply IH. exact Hp.
Qed.

Lemma includes_pieces s p : includes s p = true -> In p (pieces s).
Proof.
  induction s as [|a s IH]; intros H.
  - simpl in H. rewrite orb_false_r in H.
    apply startsWith_prefixes in H. simpl in *. tauto.
  - cbn [includes] in H. apply orb_true_iff in H. cbn [pieces].
    apply in_or_app. destruct H as [H|H].
    + left. apply startsWith_prefixes. exact H.
    + right. apply IH. exact H.
Qed.

Lemma from_first_skip c pre s :
  count_char c pre = 0 -> from_first c (pre ++ s) = from_first c s.
Proof.
  induction pre as [|a pre IH]; simpl; intros H.
  - reflexivity.
  - destruct (Ascii.eqb a c); [discriminate|]. apply IH. exact H.
Qed.

Lemma upto_last_absent c post :
  count_char c post = 0 -> upto_last c post = None.
Proof.
  induction post as [|a post IH]; simpl; intros H.
  - reflexivity.
  - destruct (Ascii.eqb a c); [discriminate|]. rewrite (IH H). reflexivity.
Qed.

Lemma upto_last_found c body post :
  count_char c post = 0 ->
  upto_last c (body ++ String c post) = Some (body ++ String c EmptyString).
Proof.
  intros H. induction body as [|a body IH]; simpl.
  - rewrite (upto_last_absent _ _ H), Ascii.eqb_refl. reflexivity.
  - rewrite IH. reflexivity.
Qed.

Lemma append_assoc (a b c : string) : ((a ++ b) ++ c = a ++ (b ++ c))%string.
Proof.
  induction a as [|x a IH]; simpl; [reflexivity | rewrite IH; reflexivity].
Qed.

Lemma match_braces_wrapped body pre post :
  count_char "{" pre = 0 ->
  count_char "}" post = 0 ->
  match_braces (pre ++ String "{" (body ++ "}") ++ post)
  = Some (String "{" (body ++ "}")).
Proof.
  intros Hpre Hpost. unfold match_braces.
  rewrite (from_first_skip _ _ _ Hpre). simpl.
  rewrite append_assoc. simpl.
  rewrite (upto_last_found _ _ _ Hpost). reflexivity.
Qed.

(** What is matched is a piece of the text. *)
Lemma from_first_suffix c s s' :
  from_first c s = Some s' -> exists pre, s = (pre ++ s')%string.
Proof.
  revert s'. induction s as [|a s IH]; simpl; intros s' H.
  - discriminate.
  - destruct (Ascii.eqb a c).
    + injection H as <-. exists EmptyString. reflexivity.
    + destruct (IH _ H) as [pre Hpre]. exists (String a pre).
      simpl. rewrite <- Hpre. reflexivity.
Qed.

Lemma upto_last_prefix c s p :
  upto_last c s = Some p -> exists post, s = (p ++ post)%string.
Proof.
  revert p. induction s as [|a s IH]; simpl; intros p H.
  - discriminate.
  - destruct (upto_last c s) as [q|].
    + injection H as <-. destruct (IH q eq_refl) as [post Hpost].
      exists post. simpl. rewrite <- Hpost. reflexivity.
    + destruct (Ascii.eqb a c); [|discriminate].
      injection H as <-. exists s. reflexivity.
Qed.

Lemma startsWith_append m post : startsWith m (m ++ post) = true.
Proof.
  induction m as [|a m IH]; simpl.
  - reflexivity.
  - rewrite Ascii.eqb_refl. exact IH.
Qed.

Lemma includes_append pre m post : includes (pre ++ m ++ post) m = true.
Proof.
  induction pre as [|a pre IH].
  - simpl. destruct (m ++ post)%string eqn:Hm.
    + simpl. rewrite <- Hm. rewrite startsWith_append. reflexivity.
    + simpl. rewrite <- Hm. rewrite startsWith_append. reflexivity.
  - cbn [append includes]. rewrite IH. apply orb_true_r.
Qed.

Lemma match_braces_included content m :
  match_braces content = Some m -> includes content m = true.
Proof.
  unfold match_braces. intros H.
  destruct (from_first "{" content) as [[|open rest]|] eqn:Hf; try discriminate.
  destruct (upto_last "}" rest) as [p|] eqn:Hl; [|discriminate].
  injection H as <-.
  destruct (from_first_suffix _ _ _ Hf) as [pre ->].
  destruct (upto_last_prefix _ _ _ Hl) as [post ->].
  apply (includes_append pre (String open p) post).
Qed.

(** C8, as the code has it.  Let [text] be a text in braces that the
    platform parses to [o] (a serialization of [o]).  Decoding [text] with
    anything before it that has no opening brace, and anything after it
    that has no closing brace, yields [o]: alone, inside a code fence, or
    inside such prose.  And a text none of whose pieces parses decodes to
    [null]; [parseJsonResponse] is a total function, no input makes it
    throw. *)
Theorem parseJsonResponse_round_trip E :
  (forall o body pre post,
     JSON_parse E (String "{" (body ++ "}")) = Some o ->
     count_char "{" pre = 0 ->
     count_char "}" post = 0 ->
     parseJsonResponse E (String "{" (body ++ "}")) = o
     /\ parseJsonResponse E
          ("```json" ++ String (ascii_of_nat 10) (String "{" (body ++ "}"))
           ++ String (ascii_of_nat 10) "```") = o
     /\ parseJsonResponse E (pre ++ String "{" (body ++ "}") ++ post) = o)
  /\
  (forall content,
     (forall piece, includes content piece = true -> JSON_parse E piece = None) ->
     parseJsonResponse E content = VNull).
Proof.
  split.
  - intros o body pre post Hparse Hpre Hpost.
    assert (Hgen : forall pre' post',
      count_char "{" pre' = 0 -> count_char "}" post' = 0 ->
      parseJsonResponse E (pre' ++ String "{" (body ++ "}") ++ post') = o).
    { intros pre' post' H1 H2. unfold parseJsonResponse.
      rewrite (match_braces_wrapped body pre' post' H1 H2), Hparse.
      reflexivity. }
    split; [|split].
    + pose proof (Hgen EmptyString EmptyString eq_refl eq_refl) as H.
      cbn [append] in H.
      replace ((body ++ "}") ++ EmptyString)%string with (body ++ "}")%string in H.
      * exact H.
      * clear. induction (body ++ "}")%string as [|a s IH];
          simpl; [reflexivity | rewrite <- IH; reflexivity].
    + pose proof (Hgen ("```json" ++ String (ascii_of_nat 10) EmptyString)%string
                       (String (ascii_of_nat 10) "```") eq_refl eq_refl) as H.
      exact H.
    + apply Hgen; assumption.
  - intros content Hnone. unfold parseJsonResponse.
    destruct (match_braces content) as [m|] eqn:Hm; [|reflexivity].
    rewrite (Hnone m (match_braces_included _ _ Hm)). reflexivity.
Qed.

Lemma parseJsonResponse_round_trip_witness :
  let E := example_env (replies billing_object) never_aborted in
  (parseJsonResponse E billing_object = billing_value
   /\ parseJsonResponse E
        ("```json" ++ String (ascii_of_nat 10) billing_object
         ++ String (ascii_of_nat 10) "```") = billing_value
   /\ parseJsonResponse E
        ("Here is my answer: " ++ billing_object ++ " Let me know if it helps.")
      = billing_value)
  /\ parseJsonResponse E "I cannot classify this message." = VNull.
Proof.
  intros E. split.
  - exact (proj1 (parseJsonResponse_round_trip E) billing_value
             (JSON.quoted "'category':'Billing Issue','confidence':0.9")
             "Here is my answer: " " Let me know if it helps."
             eq_refl eq_refl eq_refl).
  - apply (proj2 (parseJsonResponse_round_trip E)).
    intros piece Hin. apply includes_pieces in Hin.
    assert (Hall : forallb (fun p => match JSON.parse p with
                                     | None => true
                                     | Some _ => false
                                     end)
                           (pieces "I cannot classify this message.") = true)
      by (vm_compute; reflexivity).
    rewrite forallb_forall in Hall. specialize (Hall piece Hin).
    cbn [JSON_parse E example_env].
    destruct (JSON.parse piece); [discriminate | reflexivity].
Defined.

(** C8 fails for prose that has braces of its own: what is matched runs
    from the first opening brace of the prose to the last closing brace,
    does not parse, and the reply decodes to [null]. *)
Lemma prose_with_braces_decodes_to_null :
  let E := example_env (replies billing_object) never_aborted in
  JSON_parse E billing_object = Some billing_value
  /\ match_braces ("Filling the {category} field: " ++ billing_object ++ " Done.")
     = Some ("{category} field: " ++ billing_object)
  /\ parseJsonResponse E
       ("Filling the {category} field: " ++ billing_object ++ " Done.")
     = VNull
  /\ parseJsonResponse E
       ("Filling the {category} field: " ++ billing_object ++ " Done.")
     <> billing_value.
Proof.
  split; [reflexivity|]. split; [reflexivity|].
  split; [reflexivity|]. vm_compute. discriminate.
Qed.

End Decoder.

(** * Fallback urgency against its table of adjustments *)

Section FallbackUrgency.

Import urgencyScorer.

(** The three category tests exclude one another. *)
Lemma category_is_cases category :
  (category_is category "Technical Problem" = true
   /\ category_is category "Billing Issue" = false
   /\ category_is category "Feature Request" = false)
  \/ (category_is category "Technical Problem" = false
      /\ category_is category "Billing Issue" = true
      /\ category_is category "Feature Request" = false)
  \/ (category_is category "Technical Problem" = false
      /\ category_is category "Billing Issue" = false
      /\ category_is category "Feature Request" = true)
  \/ (category_is category "Technical Problem" = false
      /\ category_is category "Billing Issue" = false
      /\ category_is category "Feature Request" = false).
Proof.
  destruct category as [c|]; [|right; right; right; repeat split].
  unfold category_is.
  destruct (c =? "Technical Problem") eqn:Ht.
  - apply String.eqb_eq in Ht. subst c. left. repeat split.
  - destruct (c =? "Billing Issue") eqn:Hb.
    + apply String.eqb_eq in Hb. subst c. right. left. repeat split.
    + destruct (c =? "Feature Request") eqn:Hf.
      * right. right. left. repeat split.
      * right. right. right. repeat split.
Qed.

Lemma adjust_spec applies d text st :
  adjust applies d text st
  = ((fst st + spec_delta applies d)%Z, snd st ++ spec_sentence applies text).
Proof.
  destruct st as [z rs]. destruct applies; simpl.
  - reflexivity.
  - rewrite Z.add_0_r, app_nil_r. reflexivity.
Qed.

Lemma adjust_category_spec category st :
  adjust_category category st
  = ((fst st
      + spec_delta (category_is category "Technical Problem") 10
      + spec_delta (category_is category "Billing Issue") 5
      + spec_delta (category_is category "Feature Request") (-15))%Z,
     snd st
     ++ spec_sentence (category_is category "Technical Problem")
          "Technical issues often require timely resolution"
     ++ spec_sentence (category_is category "Billing Issue")
          "Billing concerns can impact customer retention"
     ++ spec_sentence (category_is category "Feature Request")
          "Feature requests are typically non-urgent").
Proof.
  unfold adjust_category. destruct st as [z rs].
  destruct (category_is_cases category)
    as [[Ht [Hb Hf]]|[[Ht [Hb Hf]]|[[Ht [Hb Hf]]|[Ht [Hb Hf]]]]];
    rewrite Ht, Hb, Hf; cbn [adjust fst snd spec_delta spec_sentence app];
    f_equal; try lia; try (rewrite app_nil_r; reflexivity).
Qed.

Lemma clamp_spec x : Z.max 0 (Z.min 100 x) = spec_clamp x.
Proof.
  unfold spec_clamp.
  destruct (x <? 0)%Z eqn:H0; [apply Z.ltb_lt in H0; lia|].
  apply Z.ltb_ge in H0.
  destruct (100 <? x)%Z eqn:H1; [apply Z.ltb_lt in H1|apply Z.ltb_ge in H1]; lia.
Qed.

Lemma spec_clamp_bounds x : (0 <= spec_clamp x <= 100)%Z.
Proof.
  rewrite <- clamp_spec. lia.
Qed.

(** C7.  The fallback score is 50 plus the listed adjustments, clamped to
    [0,100]; the level follows the thresholds 70 and 30; the reasoning is
    the sentences of the adjustments that applied, in the order of the
    list, joined by a period and a space and closed by a period, or the
    default sentence when none applied. *)
Theorem getFallbackUrgency_table message category sg :
  let r := getFallbackUrgency message category sg in
  let s := spec_clamp (spec_raw_score category sg) in
  (0 <= s <= 100)%Z
  /\ score r = num s
  /\ level r = VStr (spec_level s)
  /\ urgencyReasoning r
     = VStr (match spec_reasons category sg with
             | [] => "Standard priority based on message analysis."
             | reasons => join ". " reasons ++ "."
             end)
  /\ signals r = sg.
Proof.
  cbv zeta. split; [apply spec_clamp_bounds|].
  unfold getFallbackUrgency. cbv zeta.
  rewrite !adjust_spec, adjust_category_spec.
  cbn [fst snd score level urgencyReasoning signals].
  fold (spec_positive sg) (spec_emphasis sg) (spec_question sg).
  rewrite clamp_spec.
  change (50 + spec_delta (hasCriticalKeyword sg) 35
          + spec_delta (hasSystemImpact sg) 20
          + spec_delta (hasBusinessImpact sg) 15
          + spec_delta (hasNegativeSentiment sg) 15
          + spec_delta (category_is category "Technical Problem") 10
          + spec_delta (category_is category "Billing Issue") 5
          + spec_delta (category_is category "Feature Request") (-15)
          + spec_delta (spec_positive sg) (-20)
          + spec_delta (spec_emphasis sg) 10
          + spec_delta (spec_question sg) (-10))%Z
    with (spec_raw_score category sg).
  split; [reflexivity|]. split; [reflexivity|]. split; [|reflexivity].
  f_equal.
  match goal with
  | |- match ?l with _ => _ end = _ =>
      replace l with (spec_reasons category sg)
  end.
  - destruct (spec_reasons category sg); reflexivity.
  - unfold spec_reasons. cbn [app]. rewrite <- !app_assoc. reflexivity.
Qed.

End FallbackUrgency.

(** * Fallback recommendation: the escalation triggers *)

Section Escalation.

Import templates.

Lemma scan_triggers_first lowerMessage pre t post :
  (forall t', In t' pre ->
              some_included lowerMessage (trigger_keywords t') = false) ->
  some_included lowerMessage (trigger_keywords t) = true ->
  scan_triggers lowerMessage (pre ++ t :: post) = (true, VStr (reason t)).
Proof.
  induction pre as [|p pre IH]; intros Hpre Ht; simpl.
  - rewrite Ht. reflexivity.
  - rewrite (Hpre p (or_introl eq_refl)).
    apply IH; [|exact Ht]. intros t' Hin. apply Hpre. right. exact Hin.
Qed.

Lemma scan_triggers_none lowerMessage triggers :
  (forall t, In t triggers ->
             some_included lowerMessage (trigger_keywords t) = false) ->
  scan_triggers lowerMessage triggers = (false, VNull).
Proof.
  induction triggers as [|t rest IH]; intros H; simpl.
  - reflexivity.
  - rewrite (H t (or_introl eq_refl)). apply IH.
    intros t' Hin. apply H. right. exact Hin.
Qed.

(** C9.  The groups are security, legal, churn risk, VIP and system-wide,
    in this order.  The first group one of whose keywords occurs in the
    lower-cased message sets the escalation and its reason, whatever the
    later groups contain: a message with a security keyword and a VIP
    keyword escalates with the security reason.  When no group matches and
    the urgency is High, the escalation is set with the supervisor reason. *)
Theorem getFallbackRecommendation_escalation message category urgency :
  let lowerMessage := toLowerCase message in
  let r := getFallbackRecommendation message category urgency in
  map reason escalationTriggers
  = [ "Security concern requires immediate escalation to security team";
      "Legal mention requires escalation to legal/compliance team";
      "Churn risk - escalate to retention team";
      "Executive/VIP customer requires priority handling";
      "System-wide issue affecting multiple users" ]
  /\ (forall pre t post,
        escalationTriggers = pre ++ t :: post ->
        (forall t', In t' pre ->
                    some_included lowerMessage (trigger_keywords t') = false) ->
        some_included lowerMessage (trigger_keywords t) = true ->
        escalate r = VBool true /\ escalateReason r = VStr (reason t))
  /\ (some_included lowerMessage security_keywords = true ->
      some_included lowerMessage vip_keywords = true ->
      escalate r = VBool true
      /\ escalateReason r
         = VStr "Security concern requires immediate escalation to security team")
  /\ ((forall t, In t escalationTriggers ->
                 some_included lowerMessage (trigger_keywords t) = false) ->
      urgency = VStr "High" ->
      escalate r = VBool true
      /\ escalateReason r
         = VStr "High urgency issue requires immediate supervisor attention").
Proof.
  cbv zeta.
  assert (Hfirst : forall pre t post,
    escalationTriggers = pre ++ t :: post ->
    (forall t', In t' pre ->
       some_included (toLowerCase message) (trigger_keywords t') = false) ->
    some_included (toLowerCase message) (trigger_keywords t) = true ->
    escalate (getFallbackRecommendation message category urgency) = VBool true
    /\ escalateReason (getFallbackRecommendation message category urgency)
       = VStr (reason t)).
  { intros pre t post Heq Hpre Ht.
    unfold getFallbackRecommendation. cbv zeta. rewrite Heq.
    rewrite (scan_triggers_first _ _ _ _ Hpre Ht).
    cbn [negb]. rewrite andb_false_r. split; reflexivity. }
  split; [reflexivity|]. split; [exact Hfirst|]. split.
  - intros Hsec _.
    apply (Hfirst [] {| trigger_keywords := security_keywords;
                        reason := "Security concern requires immediate escalation to security team" |}
             (tl escalationTriggers) eq_refl).
    + intros t' [].
    + exact Hsec.
  - intros Hnone ->.
    unfold getFallbackRecommendation. cbv zeta.
    rewrite (scan_triggers_none _ _ Hnone). split; reflexivity.
Qed.

Lemma getFallbackRecommendation_escalation_witness :
  (let r := getFallbackRecommendation
              "Security breach on the account of our CEO" "Technical Problem"
              (VStr "Medium") in
   escalate r = VBool true
   /\ escalateReason r
      = VStr "Security concern requires immediate escalation to security team")
  /\
  (let r := getFallbackRecommendation
              "The export never finishes" "Technical Problem" (VStr "High") in
   escalate r = VBool true
   /\ escalateReason r
      = VStr "High urgency issue requires immediate supervisor attention").
Proof.
  split.
  - exact (proj1 (proj2 (proj2 (getFallbackRecommendation_escalation
                                  "Security breach on the account of our CEO"
                                  "Technical Problem" (VStr "Medium"))))
             eq_refl eq_refl).
  - refine (proj2 (proj2 (proj2 (getFallbackRecommendation_escalation
                                   "The export never finishes"
                                   "Technical Problem" (VStr "High"))))
              _ eq_refl).
    intros t Hin.
    repeat (destruct Hin as [<-|Hin]; [reflexivity|]). destruct Hin.
Defined.

End Escalation.

(** * Fallback categorization against its scoring rule *)

Section FallbackCategorization.

Import llmHelper.

Lemma split_go_length sep cur s :
  List.length (split_go sep cur s) = S (count_char sep s).
Proof.
  revert cur. induction s as [|a s IH]; intros cur; simpl.
  - reflexivity.
  - destruct (Ascii.eqb a sep); simpl; rewrite IH; reflexivity.
Qed.

Lemma keyword_score_from acc lowerMessage kws :
  fold_left
    (fun acc keyword =>
       if includes lowerMessage keyword
       then acc + List.length (split " " keyword)
       else acc)
    kws acc
  = acc + spec_keyword_sum lowerMessage kws.
Proof.
  revert acc. induction kws as [|kw kws IH]; intros acc.
  - simpl. unfold spec_keyword_sum. simpl. lia.
  - cbn [fold_left]. rewrite IH. unfold spec_keyword_sum. cbn [map list_sum].
    unfold split. rewrite split_go_length. unfold spec_word_count.
    destruct (includes lowerMessage kw); simpl; lia.
Qed.

Lemma keyword_score_spec lowerMessage kws :
  keyword_score lowerMessage kws = spec_keyword_sum lowerMessage kws.
Proof.
  unfold keyword_score. rewrite keyword_score_from. reflexivity.
Qed.

Lemma spec_keyword_sum_positive lowerMessage kws kw :
  In kw kws -> includes lowerMessage kw = true ->
  0 < spec_keyword_sum lowerMessage kws.
Proof.
  intros Hin Hinc. induction kws as [|k kws IH]; [destruct Hin|].
  unfold spec_keyword_sum in *. simpl.
  destruct Hin as [->|Hin].
  - rewrite Hinc. unfold spec_word_count. lia.
  - specialize (IH Hin). lia.
Qed.

Ltac finish_scores :=
  cbn [andb orb add_score String.eqb Ascii.eqb Bool.eqb];
  rewrite ?Nat.add_0_r; reflexivity.

Lemma category_scores_spec lowerMessage :
  category_scores lowerMessage
  = [ ("Billing Issue", spec_score lowerMessage "Billing Issue");
      ("Technical Problem", spec_score lowerMessage "Technical Problem");
      ("Feature Request", spec_score lowerMessage "Feature Request");
      ("General Inquiry", spec_score lowerMessage "General Inquiry") ].
Proof.
  unfold category_scores, CATEGORY_DEFINITIONS.
  cbn [map fst snd keywords].
  rewrite !keyword_score_spec.
  unfold spec_score, spec_bonus.
  change (keywords_of "Billing Issue") with
    ["bill"; "payment"; "charge"; "invoice"; "refund";
     "subscription"; "price"; "cost"; "fee"; "credit card";
     "cancel subscription"; "renewal"; "discount"; "promo"; "coupon"].
  change (keywords_of "Technical Problem") with
    ["bug"; "error"; "broken"; "not working"; "crash"; "down";
     "slow"; "loading"; "freeze"; "stuck"; "fail"; "issue";
     "problem"; "glitch"; "unresponsive"; "timeout"; "connection"].
  change (keywords_of "Feature Request") with
    ["feature"; "add"; "improve"; "enhancement"; "suggestion";
     "wish"; "would be great"; "would like"; "could you add";
     "missing"; "need ability"; "roadmap"].
  change (keywords_of "General Inquiry") with
    ["how do"; "how to"; "what is"; "where is"; "can i";
     "is there"; "help"; "question"; "wondering"; "curious";
     "thank"; "thanks"; "great job"; "love"].
  match goal with
  | |- context [spec_keyword_sum lowerMessage ?l + (if ("Billing Issue" =? _) && _ && _ then _ else _)] =>
      set (billing := l)
  end.
  match goal with
  | |- context [("Technical Problem", spec_keyword_sum lowerMessage ?l)] =>
      set (technical := l)
  end.
  set (b := spec_keyword_sum lowerMessage billing).
  set (t := spec_keyword_sum lowerMessage technical).
  set (f := spec_keyword_sum lowerMessage _).
  set (g := spec_keyword_sum lowerMessage _).
  cbn [score_of String.eqb Ascii.eqb Bool.eqb andb].
  rewrite !Nat.add_0_r.
  destruct (includes lowerMessage "payment") eqn:Hpay;
    [|destruct (0 <? t)%nat; destruct (0 <? b)%nat; finish_scores].
  assert (Hb : 0 < b).
  { apply (spec_keyword_sum_positive _ _ "payment"); [|exact Hpay].
    subst billing. simpl. tauto. }
  destruct (includes lowerMessage "fail") eqn:Hfail.
  - assert (Ht : 0 < t).
    { apply (spec_keyword_sum_positive _ _ "fail"); [|exact Hfail].
      subst technical. simpl. tauto. }
    apply Nat.ltb_lt in Hb, Ht. rewrite Hb, Ht. finish_scores.
  - destruct (includes lowerMessage "error") eqn:Herr.
    + assert (Ht : 0 < t).
      { apply (spec_keyword_sum_positive _ _ "error"); [|exact Herr].
        subst technical. simpl. tauto. }
      apply Nat.ltb_lt in Hb, Ht. rewrite Hb, Ht. finish_scores.
    + destruct (0 <? t)%nat; destruct (0 <? b)%nat; finish_scores.
Qed.

(** The scan returns the first entry, in the order of the definitions,
    whose score is the highest, and General Inquiry with score 0 when every
    score is 0. *)
Lemma pick_best_four b t f g :
  exists c s,
    pick_best [ ("Billing Issue", b); ("Technical Problem", t);
                ("Feature Request", f); ("General Inquiry", g) ] = (c, s)
    /\ ((c = "Billing Issue" /\ s = b /\ 0 < b /\ t <= b /\ f <= b /\ g <= b)
        \/ (c = "Technical Problem" /\ s = t /\ b < t /\ f <= t /\ g <= t)
        \/ (c = "Feature Request" /\ s = f /\ b < f /\ t < f /\ g <= f)
        \/ (c = "General Inquiry" /\ s = g /\ b <= g /\ t <= g /\ f <= g
            /\ (0 < g -> b < g /\ t < g /\ f < g))).
Proof.
  unfold pick_best. cbn [fold_left].
  destruct (0 <? b)%nat eqn:Hb;
    [apply Nat.ltb_lt in Hb | apply Nat.ltb_ge in Hb].
  - destruct (b <? t)%nat eqn:Ht;
      [apply Nat.ltb_lt in Ht | apply Nat.ltb_ge in Ht].
    + destruct (t <? f)%nat eqn:Hf;
        [apply Nat.ltb_lt in Hf | apply Nat.ltb_ge in Hf].
      * destruct (f <? g)%nat eqn:Hg;
          [apply Nat.ltb_lt in Hg | apply Nat.ltb_ge in Hg];
          do 2 eexists; (split; [reflexivity|]).
        -- right. right. right. repeat split; lia.
        -- right. right. left. repeat split; lia.
      * destruct (t <? g)%nat eqn:Hg;
          [apply Nat.ltb_lt in Hg | apply Nat.ltb_ge in Hg];
          do 2 eexists; (split; [reflexivity|]).
        -- right. right. right. repeat split; lia.
        -- right. left. repeat split; lia.
    + destruct (b <? f)%nat eqn:Hf;
        [apply Nat.ltb_lt in Hf | apply Nat.ltb_ge in Hf].
      * destruct (f <? g)%nat eqn:Hg;
          [apply Nat.ltb_lt in Hg | apply Nat.ltb_ge in Hg];
          do 2 eexists; (split; [reflexivity|]).
        -- right. right. right. repeat split; lia.
        -- right. right. left. repeat split; lia.
      * destruct (b <? g)%nat eqn:Hg;
          [apply Nat.ltb_lt in Hg | apply Nat.ltb_ge in Hg];
          do 2 eexists; (split; [reflexivity|]).
        -- right. right. right. repeat split; lia.
        -- left. repeat split; lia.
  - destruct (0 <? t)%nat eqn:Ht;
      [apply Nat.ltb_lt in Ht | apply Nat.ltb_ge in Ht].
    + destruct (t <? f)%nat eqn:Hf;
        [apply Nat.ltb_lt in Hf | apply Nat.ltb_ge in Hf].
      * destruct (f <? g)%nat eqn:Hg;
          [apply Nat.ltb_lt in Hg | apply Nat.ltb_ge in Hg];
          do 2 eexists; (split; [reflexivity|]).
        -- right. right. right. repeat split; lia.
        -- right. right. left. repeat split; lia.
      * destruct (t <? g)%nat eqn:Hg;
          [apply Nat.ltb_lt in Hg | apply Nat.ltb_ge in Hg];
          do 2 eexists; (split; [reflexivity|]).
        -- right. right. right. repeat split; lia.
        -- right. left. repeat split; lia.
    + destruct (0 <? f)%nat eqn:Hf;
        [apply Nat.ltb_lt in Hf | apply Nat.ltb_ge in Hf].
      * destruct (f <? g)%nat eqn:Hg;
          [apply Nat.ltb_lt in Hg | apply Nat.ltb_ge in Hg];
          do 2 eexists; (split; [reflexivity|]).
        -- right. right. right. repeat split; lia.
        -- right. right. left. repeat split; lia.
      * destruct (0 <? g)%nat eqn:Hg;
          [apply Nat.ltb_lt in Hg | apply Nat.ltb_ge in Hg];
          do 2 eexists; (split; [reflexivity|]).
        -- right. right. right. repeat split; lia.
        -- right. right. right. repeat split; lia.
Qed.

(** C6.  The score of a category is the sum, over its keywords that occur
    in the lower-cased message, of their numbers of words, plus 2 for
    Billing Issue when the message has payment together with fail or error.
    The category returned has the highest score; it is the one whose score
    is strictly above all the others when there is one, and General Inquiry
    when every score is 0.  The confidence is 0.8 above 2, 0.6 above 0,
    else 0.4. *)
Theorem getFallbackCategorization_scoring E message :
  let lowerMessage := toLowerCase message in
  let r := getFallbackCategorization E message in
  category_scores lowerMessage
  = map (fun c => (c, spec_score lowerMessage c)) category_names
  /\ (forall c, In c category_names ->
                (forall c', In c' category_names -> c' <> c ->
                            spec_score lowerMessage c' < spec_score lowerMessage c) ->
                category r = c)
  /\ ((forall c, In c category_names -> spec_score lowerMessage c = 0) ->
      category r = "General Inquiry")
  /\ In (category r) category_names
  /\ (forall c, In c category_names ->
                spec_score lowerMessage c <= spec_score lowerMessage (category r))
  /\ confidence r = spec_confidence (spec_score lowerMessage (category r)).
Proof.
  cbv zeta.
  split; [apply category_scores_spec|].
  unfold getFallbackCategorization. cbv zeta.
  rewrite category_scores_spec.
  set (b := spec_score (toLowerCase message) "Billing Issue").
  set (t := spec_score (toLowerCase message) "Technical Problem").
  set (f := spec_score (toLowerCase message) "Feature Request").
  set (g := spec_score (toLowerCase message) "General Inquiry").
  assert (Hall : forall P : string -> Prop,
    P "Billing Issue" -> P "Technical Problem" -> P "Feature Request" ->
    P "General Inquiry" -> forall c, In c category_names -> P c).
  { intros P H1 H2 H3 H4 c Hin.
    destruct Hin as [<-|[<-|[<-|[<-|[]]]]]; assumption. }
  assert (Hin : forall c, c = "Billing Issue" \/ c = "Technical Problem"
                          \/ c = "Feature Request" \/ c = "General Inquiry" ->
                          In c category_names).
  { intros c [->|[->|[->| ->]]]; simpl; tauto. }
  destruct (pick_best_four b t f g) as [c [s [Hpick Hcases]]].
  rewrite Hpick. cbn [category confidence].
  assert (Hs : s = spec_score (toLowerCase message) c).
  { destruct Hcases as [[-> [-> _]]|[[-> [-> _]]|[[-> [-> _]]|[-> [-> _]]]]];
      reflexivity. }
  split; [|split; [|split; [|split]]].
  - intros c0 Hc0 Hstrict.
    assert (Hb : "Billing Issue" <> c0 -> b < spec_score (toLowerCase message) c0)
      by (apply Hstrict, Hin; tauto).
    assert (Ht : "Technical Problem" <> c0 -> t < spec_score (toLowerCase message) c0)
      by (apply Hstrict, Hin; tauto).
    assert (Hf : "Feature Request" <> c0 -> f < spec_score (toLowerCase message) c0)
      by (apply Hstrict, Hin; tauto).
    assert (Hg : "General Inquiry" <> c0 -> g < spec_score (toLowerCase message) c0)
      by (apply Hstrict, Hin; tauto).
    clear Hstrict. revert Hb Ht Hf Hg.
    unfold category_names in Hc0. simpl in Hc0.
    destruct Hc0 as [<-|[<-|[<-|[<-|[]]]]]; fold b t f g; intros Hb Ht Hf Hg;
      destruct Hcases as [[-> H]|[[-> H]|[[-> H]|[-> H]]]];
      try reflexivity; exfalso;
      try (specialize (Hb ltac:(discriminate)));
      try (specialize (Ht ltac:(discriminate)));
      try (specialize (Hf ltac:(discriminate)));
      try (specialize (Hg ltac:(discriminate)));
      lia.
  - intros Hzero.
    assert (b = 0 /\ t = 0 /\ f = 0 /\ g = 0) as [Hb [Ht [Hf Hg]]]
      by (repeat split; apply Hzero, Hin; tauto).
    destruct Hcases as [[-> H]|[[-> H]|[[-> H]|[-> H]]]];
      try reflexivity; exfalso; lia.
  - apply Hin.
    destruct Hcases as [[-> _]|[[-> _]|[[-> _]|[-> _]]]]; tauto.
  - rewrite <- Hs. apply Hall; fold b t f g;
      destruct Hcases as [[_ H]|[[_ H]|[[_ H]| [_ H]]]]; lia.
  - rewrite <- Hs. reflexivity.
Qed.

Lemma getFallbackCategorization_scoring_witness :
  (let r := getFallbackCategorization offline_env dark_mode in
   category_scores (toLowerCase dark_mode)
   = [ ("Billing Issue", 0); ("Technical Problem", 0);
       ("Feature Request", 2); ("General Inquiry", 0) ]
   /\ category r = "Feature Request"
   /\ confidence r = VNum 0.6%Q)
  /\
  (let r := getFallbackCategorization offline_env "Good morning" in
   category r = "General Inquiry"
   /\ confidence r = VNum 0.4%Q).
Proof.
  split.
  - pose proof (getFallbackCategorization_scoring offline_env dark_mode) as H.
    cbv zeta in H. destruct H as [Hscores [Hstrict [_ [_ [_ Hconf]]]]].
    assert (Hcat : category (getFallbackCategorization offline_env dark_mode)
                   = "Feature Request").
    { apply Hstrict.
      - simpl. tauto.
      - intros c' Hin Hne. simpl in Hin.
        destruct Hin as [<-|[<-|[<-|[<-|[]]]]];
          try (vm_compute; lia); exfalso; apply Hne; reflexivity. }
    cbv zeta. split; [rewrite Hscores; reflexivity|].
    split; [exact Hcat|]. rewrite Hconf, Hcat. reflexivity.
  - pose proof (getFallbackCategorization_scoring offline_env "Good morning") as H.
    cbv zeta in H. destruct H as [_ [_ [Hzero [_ [_ Hconf]]]]].
    assert (Hcat : category (getFallbackCategorization offline_env "Good morning")
                   = "General Inquiry").
    { apply Hzero. intros c Hin. simpl in Hin.
      destruct Hin as [<-|[<-|[<-|[<-|[]]]]]; reflexivity. }
    cbv zeta. split; [exact Hcat|]. rewrite Hconf, Hcat. reflexivity.
Defined.

End FallbackCategorization.

(** * The dark-mode request with the service unavailable *)

Section DarkMode.

Import apiClient llmHelper urgencyScorer templates AnalyzePage.

(** C5, as the code has it.  With every remote call failing (and not by
    cancellation), the record for the dark-mode request has the category
    Feature Request, no escalation, and the urgency Medium with score 40:
    [handleAnalyze] gives the urgency engine no category, so the only
    adjustment is the one for a question. *)
Theorem dark_mode_request_offline E st :
  message st = dark_mode ->
  (forall req a, exists e,
     create E req a = Rejected e
     /\ classify (Some (signal E)) req a e <> Cancelled) ->
  exists record,
    results (snd (handleAnalyze E st)) = Some record
    /\ triageHistory (snd (handleAnalyze E st)) = triageHistory st ++ [record]
    /\ r_category record = "Feature Request"
    /\ r_urgencyScore record = num 40
    /\ r_urgency record = VStr "Medium"
    /\ r_escalate record = VBool false
    /\ r_escalateReason record = VNull.
Proof.
  intros Hmsg Hfail.
  assert (Hthrows : forall req sig, exists thrown,
            result (groqRequest E req sig) = Throws thrown).
  { intros req sig. apply groqRequest_all_rejected.
    intros a. destruct (Hfail req a) as [e [He _]]. exists e. exact He. }
  assert (Hblank : truthy (VStr (trim (message st))) = true)
    by (rewrite Hmsg; reflexivity).
  destruct (handleAnalyze_persists E st Hblank)
    as [c [u [a [Hc [Hu [Ha [Hres [Hhist _]]]]]]]].
  destruct (Hthrows (CategorizeRequest (message st)) (Some (signal E)))
    as [e1 H1].
  rewrite (categorizeMessage_failed E _ _ _ H1) in Hc. injection Hc as <-.
  destruct (Hthrows (UrgencyRequest (message st) None
                       (detectSignals (message st))) (Some (signal E)))
    as [e2 H2].
  rewrite (calculateUrgency_failed E _ _ _ _ H2) in Hu. injection Hu as <-.
  destruct (Hthrows (ActionRequest (message st)
                       (category (getFallbackCategorization E (message st)))
                       (level (getFallbackUrgency (message st) None
                                 (detectSignals (message st)))))
                    (Some (signal E))) as [e3 H3].
  rewrite (getRecommendedAction_failed E _ _ _ _ _ H3) in Ha.
  injection Ha as <-.
  eexists. split; [exact Hres|]. split; [exact Hhist|].
  rewrite Hmsg. cbn [assemble r_category r_urgencyScore r_urgency r_escalate
                     r_escalateReason].
  assert (Hcat : category (getFallbackCategorization E dark_mode)
                 = "Feature Request") by (vm_compute; reflexivity).
  rewrite Hcat. repeat split; vm_compute; reflexivity.
Qed.

Lemma dark_mode_request_offline_witness :
  exists record,
    results (snd (handleAnalyze offline_env (initial_state dark_mode)))
    = Some record
    /\ triageHistory (snd (handleAnalyze offline_env (initial_state dark_mode)))
       = [record]
    /\ r_category record = "Feature Request"
    /\ r_urgencyScore record = num 40
    /\ r_urgency record = VStr "Medium"
    /\ r_escalate record = VBool false
    /\ r_escalateReason record = VNull.
Proof.
  refine (dark_mode_request_offline offline_env (initial_state dark_mode)
            eq_refl _).
  intros req a. exists network_error. split; [reflexivity | discriminate].
Defined.

(** C5 fails: the urgency of the record is Medium, not Low.  The score 25
    and the level Low of the claim are what the fallback gives when it is
    told the category. *)
Lemma dark_mode_urgency_is_medium :
  (exists record,
     results (snd (handleAnalyze offline_env (initial_state dark_mode)))
     = Some record
     /\ r_category record = "Feature Request"
     /\ r_escalate record = VBool false
     /\ r_urgencyScore record = num 40
     /\ r_urgency record = VStr "Medium"
     /\ r_urgency record <> VStr "Low")
  /\ score (getFallbackUrgency dark_mode (Some "Feature Request")
              (detectSignals dark_mode)) = num 25
  /\ level (getFallbackUrgency dark_mode (Some "Feature Request")
              (detectSignals dark_mode)) = VStr "Low".
Proof.
  split; [|split; reflexivity].
  eexists. split; [vm_compute; reflexivity|].
  cbn [r_category r_escalate r_urgencyScore r_urgency].
  repeat split. discriminate.
Qed.

End DarkMode.

(** * The call client: bounds and early exits *)

Section CallClientMore.

Variable E : env.
Variable options : request.
Variable sig : option AbortSignal.




(** X2.  When the first attempt that does not fail with a retryable error
    is attempt [k] (the first, second or third) and it succeeds, the call
    returns its content after [k+1] remote calls and the first [k] delays
    of the schedule. *)
Theorem groqRequest_succeeds_after_retries k content :
  k <= 2 ->
  retried_before E options sig k ->
  create E options k = Resolved content ->
  result (groqRequest E options sig) = Returns content
  /\ attempts_made (trace (groqRequest E options sig)) = S k
  /\ delays (trace (groqRequest E options sig)) = firstn k backoff_schedule.
Proof.
  intros Hk Hbefore Hok. unfold groqRequest. cbn [maxRetries CONFIG].
  destruct k as [|[|[|k]]]; [| | |lia].
  - rewrite (attempts_resolved E options sig _ _ _ _ Hok). repeat split.
  - destruct (Hbefore 0) as [e0 [H0 C0]]; [lia|].
    rewrite (attempts_retry E options sig _ _ _ _ H0 C0).
    rewrite (attempts_resolved E options sig _ _ _ _ Hok). repeat split.
  - destruct (Hbefore 0) as [e0 [H0 C0]]; [lia|].
    destruct (Hbefore 1) as [e1 [H1 C1]]; [lia|].
    rewrite (attempts_retry E options sig _ _ _ _ H0 C0).
    rewrite (attempts_retry E options sig _ _ _ _ H1 C1).
    rewrite (attempts_resolved E options sig _ _ _ _ Hok). repeat split.
Qed.

(** X4.  A cancellation or a rejection with status 401 or 403 ends the
    call at the attempt where it happens, also on a retry: the remote call
    of that attempt is the last event of the request, so that no warning,
    no sleep and no further call follow it, and the calls and sleeps before
    it are the course call 0, sleep 1000 ms, call 1, sleep 2000 ms, call 2
    up to that call.  The cancellation replaces the SDK's error by the
    error Request cancelled; the authentication error is thrown as it
    is. *)
Theorem groqRequest_stops_at k error :
  k <= 2 ->
  retried_before E options sig k ->
  create E options k = Rejected error ->
  classify sig options k error <> Retryable ->
  result (groqRequest E options sig)
  = Throws (match classify sig options k error with
            | Cancelled => Error "Request cancelled"
            | _ => error
            end)
  /\ (exists before,
        trace (groqRequest E options sig) = before ++ [Create options k])
  /\ timeline (trace (groqRequest E options sig))
     = firstn (2 * k + 1) (full_timeline options)
  /\ attempts_made (trace (groqRequest E options sig)) = S k
  /\ delays (trace (groqRequest E options sig)) = firstn k backoff_schedule.
Proof.
  intros Hk Hbefore Hrej Hcls.
  assert (Hend : forall remaining lastError,
    attempts E options sig (S remaining) k lastError
    = ([Create options k],
       Throws (match classify sig options k error with
               | Cancelled => Error "Request cancelled"
               | _ => error
               end))).
  { intros remaining lastError.
    destruct (classify sig options k error) eqn:C.
    - apply (attempts_cancelled E options sig _ _ _ _ Hrej C).
    - apply (attempts_auth E options sig _ _ _ _ Hrej C).
    - exfalso. apply Hcls. reflexivity. }
  unfold groqRequest. cbn [maxRetries CONFIG].
  destruct k as [|[|[|k]]]; [| | |lia].
  - rewrite Hend.
    split; [reflexivity|]. split; [exists []; reflexivity|]. repeat split.
  - destruct (Hbefore 0) as [e0 [H0 C0]]; [lia|].
    rewrite (attempts_retry E options sig _ _ _ _ H0 C0).
    rewrite Hend.
    split; [reflexivity|].
    split; [eexists [_; _; _]; reflexivity|]. repeat split.
  - destruct (Hbefore 0) as [e0 [H0 C0]]; [lia|].
    destruct (Hbefore 1) as [e1 [H1 C1]]; [lia|].
    rewrite (attempts_retry E options sig _ _ _ _ H0 C0).
    rewrite (attempts_retry E options sig _ _ _ _ H1 C1).
    rewrite Hend.
    split; [reflexivity|].
    split; [eexists [_; _; _; _; _; _]; reflexivity|]. repeat split.
Qed.

End CallClientMore.

Lemma groqRequest_succeeds_after_retries_witness :
  let E := example_env flaky_service never_aborted in
  let m := groqRequest E (CategorizeRequest "hello") None in
  result m = Returns "Billing Issue"
  /\ attempts_made (trace m) = 2
  /\ delays (trace m) = [1000%Z].
Proof.
  refine (groqRequest_succeeds_after_retries
            (example_env flaky_service never_aborted)
            (CategorizeRequest "hello") None 1 "Billing Issue" _ _ eq_refl).
  - lia.
  - intros a Ha. exists network_error.
    destruct a as [|a]; [split; reflexivity | lia].
Defined.


Lemma groqRequest_stops_at_witness :
  let E := example_env aborted_on_retry_service aborted_after_first in
  let m := groqRequest E (CategorizeRequest "hello") (Some (signal E)) in
  result m = Throws (Error "Request cancelled")
  /\ (exists before, trace m = before ++ [Create (CategorizeRequest "hello") 1])
  /\ timeline (trace m)
     = [ Create (CategorizeRequest "hello") 0; Sleep 1000%Z;
         Create (CategorizeRequest "hello") 1 ]
  /\ attempts_made (trace m) = 2
  /\ delays (trace m) = [1000%Z].
Proof.
  refine (groqRequest_stops_at
            (example_env aborted_on_retry_service aborted_after_first)
            (CategorizeRequest "hello") (Some aborted_after_first)
            1 timeout_error _ _ eq_refl _).
  - lia.
  - intros a Ha. exists network_error.
    destruct a as [|a]; [split; reflexivity | lia].
  - discriminate.
Defined.

(** * The decoder: what is handed to the parser *)

Section DecoderMore.

Local Open Scope string_scope.

Lemma append_empty_r (s : string) : s ++ EmptyString = s.
Proof.
  induction s as [|a s IH]; simpl; [reflexivity | rewrite IH; reflexivity].
Qed.

Lemma from_first_head c s s' :
  from_first c s = Some s' -> exists rest, s' = String c rest.
Proof.
  induction s as [|a s IH]; simpl; intros H.
  - discriminate.
  - destruct (Ascii.eqb a c) eqn:Hac.
    + apply Ascii.eqb_eq in Hac. subst a. injection H as <-.
      exists s. reflexivity.
    + apply IH. exact H.
Qed.

Lemma upto_last_tail c s p :
  upto_last c s = Some p -> exists body, p = body ++ String c EmptyString.
Proof.
  revert p. induction s as [|a s IH]; simpl; intros p H.
  - discriminate.
  - destruct (upto_last c s) as [q|].
    + injection H as <-. destruct (IH q eq_refl) as [body ->].
      exists (String a body). reflexivity.
    + destruct (Ascii.eqb a c) eqn:Hac; [|discriminate].
      apply Ascii.eqb_eq in Hac. subst a. injection H as <-.
      exists EmptyString. reflexivity.
Qed.

Lemma match_braces_shape content m :
  match_braces content = Some m ->
  exists body, m = String "{" (body ++ "}").
Proof.
  unfold match_braces. intros H.
  destruct (from_first "{" content) as [s'|] eqn:Hf; [|discriminate].
  destruct (from_first_head _ _ _ Hf) as [rest ->].
  destruct (upto_last "}" rest) as [p|] eqn:Hl; [|discriminate].
  injection H as <-.
  destruct (upto_last_tail _ _ _ Hl) as [body ->].
  exists body. reflexivity.
Qed.

Lemma match_braces_fixed body :
  match_braces (String "{" (body ++ "}")) = Some (String "{" (body ++ "}")).
Proof.
  pose proof (match_braces_wrapped body EmptyString EmptyString eq_refl eq_refl)
    as H.
  cbn [append] in H. rewrite append_empty_r in H. exact H.
Qed.

(** X5.  What [parseJsonResponse] hands to the parser begins with an
    opening brace and ends with a closing brace, and decoding it again
    gives the same: the result of decoding a reply depends only on the span
    from its first opening brace to its last closing brace. *)
Theorem parseJsonResponse_span E content m :
  match_braces content = Some m ->
  (exists body, m = String "{" (body ++ "}"))
  /\ match_braces m = Some m
  /\ parseJsonResponse E content = parseJsonResponse E m.
Proof.
  intros H. destruct (match_braces_shape _ _ H) as [body Hm].
  split; [exists body; exact Hm|].
  assert (Hfix : match_braces m = Some m)
    by (rewrite Hm; apply match_braces_fixed).
  split; [exact Hfix|].
  unfold parseJsonResponse. rewrite H, Hfix. reflexivity.
Qed.

Lemma from_first_absent c s : count_char c s = 0 -> from_first c s = None.
Proof.
  induction s as [|a s IH]; simpl; intros H.
  - reflexivity.
  - destruct (Ascii.eqb a c); [discriminate|]. apply IH. exact H.
Qed.

Lemma count_char_append c s t :
  count_char c (s ++ t) = count_char c s + count_char c t.
Proof.
  induction s as [|a s IH]; simpl; [reflexivity | rewrite IH; lia].
Qed.

(** X6.  A reply without an opening brace, or without a closing brace,
    decodes to [null] whatever the parser would make of it: a reply that
    is a bare JSON array, number or string is never decoded. *)
Theorem parseJsonResponse_needs_braces E content :
  count_char "{" content = 0 \/ count_char "}" content = 0 ->
  match_braces content = None /\ parseJsonResponse E content = VNull.
Proof.
  intros H.
  assert (Hnone : match_braces content = None).
  { unfold match_braces. destruct H as [H|H].
    - rewrite (from_first_absent _ _ H). reflexivity.
    - destruct (from_first "{" content) as [[|open rest]|] eqn:Hf;
        try reflexivity.
      destruct (from_first_suffix _ _ _ Hf) as [pre Hpre].
      rewrite Hpre, count_char_append in H. cbn [count_char] in H.
      rewrite (upto_last_absent "}" rest); [reflexivity | lia]. }
  split; [exact Hnone|]. unfold parseJsonResponse. rewrite Hnone. reflexivity.
Qed.

End DecoderMore.

Lemma parseJsonResponse_span_witness :
  let E := example_env (replies billing_object) never_aborted in
  let content := ("Answer: " ++ billing_object ++ " (done)")%string in
  match_braces content = Some billing_object
  /\ match_braces billing_object = Some billing_object
  /\ parseJsonResponse E content = parseJsonResponse E billing_object.
Proof.
  intros E content. split; [reflexivity|].
  exact (proj2 (parseJsonResponse_span E content billing_object eq_refl)).
Defined.

Lemma parseJsonResponse_needs_braces_witness :
  let E := example_env (replies "[1, 2, 3]") never_aborted in
  JSON_parse E "[1, 2, 3]" = Some (VArr [num 1; num 2; num 3])
  /\ parseJsonResponse E "[1, 2, 3]" = VNull.
Proof.
  split; [reflexivity|].
  exact (proj2 (parseJsonResponse_needs_braces
                  (example_env (replies "[1, 2, 3]") never_aborted)
                  "[1, 2, 3]" (or_introl eq_refl))).
Defined.

(** * Categorization: what every path returns *)

Section CategorizationMore.

Variable E : env.

Lemma validated_category_available parsed :
  In (validated_category parsed) getAvailableCategories.
Proof.
  unfold validated_category.
  destruct (get parsed "category") as [| | | |c| |];
    try (simpl; tauto).
  destruct (existsb (String.eqb c) (map fst CATEGORY_DEFINITIONS)) eqn:Hex;
    [|simpl; tauto].
  apply existsb_exists in Hex. destruct Hex as [c' [Hin Heq]].
  apply String.eqb_eq in Heq. subst c'.
  simpl in Hin. simpl. tauto.
Qed.

Lemma first_named_member lowerContent cats c :
  first_named lowerContent cats = Some c -> In c cats.
Proof.
  induction cats as [|x cats IH]; simpl; intros H.
  - discriminate.
  - destruct (includes lowerContent (toLowerCase x)).
    + injection H as ->. left. reflexivity.
    + right. apply IH. exact H.
Qed.

(** The winner of the keyword scoring and its score, in the terms of the
    scoring rule. *)
Lemma fallback_winner message :
  exists c s,
    pick_best (category_scores (toLowerCase message)) = (c, s)
    /\ In c category_names
    /\ s = spec_score (toLowerCase message) c
    /\ (forall c', In c' category_names ->
                   spec_score (toLowerCase message) c' <= s).
Proof.
  rewrite category_scores_spec.
  destruct (pick_best_four
              (spec_score (toLowerCase message) "Billing Issue")
              (spec_score (toLowerCase message) "Technical Problem")
              (spec_score (toLowerCase message) "Feature Request")
              (spec_score (toLowerCase message) "General Inquiry"))
    as [c [s [Hpick Hcases]]].
  exists c, s. split; [exact Hpick|].
  destruct Hcases as [[-> [-> H]]|[[-> [-> H]]|[[-> [-> H]]|[-> [-> H]]]]];
    (split; [simpl; tauto|]); (split; [reflexivity|]);
    intros c' Hin; simpl in Hin;
    destruct Hin as [<-|[<-|[<-|[<-|[]]]]]; lia.
Qed.

Lemma fallback_category_named message :
  In (category (getFallbackCategorization E message)) category_names.
Proof.
  unfold getFallbackCategorization. cbv zeta.
  destruct (fallback_winner message) as [c [s [Hpick [Hin _]]]].
  rewrite Hpick. exact Hin.
Qed.

(** The category built from a reply, decoded or not. *)
Lemma reply_category_available message content :
  In (category (if truthy (parseJsonResponse E content)
                then category_of_reply content (parseJsonResponse E content)
                else extractCategoryFromProse E content message))
     getAvailableCategories.
Proof.
  assert (Hnames : forall c, In c category_names -> In c getAvailableCategories).
  { intros c Hin. simpl in Hin. simpl. tauto. }
  destruct (truthy (parseJsonResponse E content)).
  - apply validated_category_available.
  - unfold extractCategoryFromProse. cbv zeta.
    destruct (first_named (toLowerCase content) (map fst CATEGORY_DEFINITIONS))
      as [c|] eqn:Hf.
    + apply Hnames. exact (first_named_member _ _ _ Hf).
    + apply Hnames. apply fallback_category_named.
Qed.

Lemma fallback_category_available message :
  In (category (getFallbackCategorization E message)) getAvailableCategories.
Proof.
  pose proof (fallback_category_named message) as Hin.
  revert Hin. generalize (category (getFallbackCategorization E message)).
  intros c Hin. simpl in Hin. simpl. tauto.
Qed.

(** X7.  On every path, whatever the service answers or fails with,
    [categorizeMessage] returns, and with one of the five categories that
    [getAvailableCategories] lists. *)
Theorem categorizeMessage_available message sig :
  exists r,
    result (categorizeMessage E message sig) = Returns r
    /\ In (category r) getAvailableCategories.
Proof.
  destruct (result (groqRequest E (CategorizeRequest message) sig))
    as [content|thrown] eqn:H.
  - rewrite (categorizeMessage_replied _ _ _ _ H). cbv zeta.
    eexists. split; [reflexivity|].
    apply reply_category_available.
  - rewrite (categorizeMessage_failed _ _ _ _ H).
    eexists. split; [reflexivity|].
    apply fallback_category_available.
Qed.

(** X8.  A reply that decodes to an object with one of the four category
    names is answered with that category; a confidence that is missing or
    the number 0 in the reply is replaced by 0.8, and a missing or empty
    reasoning by the raw reply. *)
Theorem categorizeMessage_recognized_reply message sig content c :
  result (groqRequest E (CategorizeRequest message) sig) = Returns content ->
  truthy (parseJsonResponse E content) = true ->
  get (parseJsonResponse E content) "category" = VStr c ->
  In c category_names ->
  exists r,
    result (categorizeMessage E message sig) = Returns r
    /\ category r = c
    /\ (truthy (get (parseJsonResponse E content) "confidence") = false ->
        confidence r = VNum 0.8%Q)
    /\ (forall q, get (parseJsonResponse E content) "confidence" = VNum q ->
                  Qeq q 0 -> confidence r = VNum 0.8%Q)
    /\ (truthy (get (parseJsonResponse E content) "reasoning") = false ->
        reasoning r = VStr content).
Proof.
  intros H Ht Hc Hin.
  rewrite (categorizeMessage_replied _ _ _ _ H). cbv zeta. rewrite Ht.
  eexists. split; [reflexivity|].
  unfold category_of_reply. cbn [category confidence reasoning].
  split; [|split; [|split]].
  - unfold validated_category. rewrite Hc.
    replace (existsb (String.eqb c) (map fst CATEGORY_DEFINITIONS)) with true;
      [reflexivity|].
    symmetry. apply existsb_exists. exists c. split; [exact Hin|].
    apply String.eqb_refl.
  - intros Hf. unfold or_else. rewrite Hf. reflexivity.
  - intros q Hq Hz. unfold or_else. rewrite Hq. cbn [truthy].
    unfold Qeq in Hz. simpl in Hz.
    replace (Qnum q =? 0)%Z with true by (symmetry; apply Z.eqb_eq; lia).
    reflexivity.
  - intros Hf. unfold or_else. rewrite Hf. reflexivity.
Qed.

Lemma spec_keyword_sum_zero lowerMessage kws :
  spec_keyword_sum lowerMessage kws = 0
  <-> some_included lowerMessage kws = false.
Proof.
  unfold spec_keyword_sum, some_included.
  induction kws as [|kw kws IH]; simpl.
  - tauto.
  - destruct (includes lowerMessage kw); simpl.
    + unfold spec_word_count. split; [lia | discriminate].
    + exact IH.
Qed.

Lemma spec_score_zero lowerMessage c :
  In c category_names ->
  (spec_score lowerMessage c = 0
   <-> some_included lowerMessage (keywords_of c) = false).
Proof.
  intros Hin. unfold spec_score. rewrite <- spec_keyword_sum_zero.
  split; [lia|]. intros Hz. rewrite Hz. simpl.
  unfold spec_bonus.
  destruct (c =? "Billing Issue") eqn:Hc; [|reflexivity].
  apply String.eqb_eq in Hc. subst c.
  destruct (includes lowerMessage "payment") eqn:Hpay; [|reflexivity].
  exfalso.
  assert (0 < spec_keyword_sum lowerMessage (keywords_of "Billing Issue")).
  { apply (spec_keyword_sum_positive _ _ "payment"); [|exact Hpay].
    simpl. tauto. }
  lia.
Qed.

Lemma any_keyword_names lowerMessage :
  any_keyword lowerMessage = false
  <-> forall c, In c category_names ->
                some_included lowerMessage (keywords_of c) = false.
Proof.
  unfold any_keyword. cbn [existsb CATEGORY_DEFINITIONS snd keywords].
  split.
  - intros H c Hin. simpl in Hin.
    repeat (apply orb_false_iff in H; destruct H as [? H]).
    destruct Hin as [<-|[<-|[<-|[<-|[]]]]]; assumption.
  - intros H.
    pose proof (H "Billing Issue" ltac:(simpl; tauto)) as Hb.
    pose proof (H "Technical Problem" ltac:(simpl; tauto)) as Ht.
    pose proof (H "Feature Request" ltac:(simpl; tauto)) as Hf.
    pose proof (H "General Inquiry" ltac:(simpl; tauto)) as Hg.
    apply orb_false_iff. split; [exact Hb|].
    apply orb_false_iff. split; [exact Ht|].
    apply orb_false_iff. split; [exact Hf|].
    apply orb_false_iff. split; [exact Hg | reflexivity].
Qed.

(** X9.  The fallback categorization answers with its lowest confidence,
    0.4, exactly when no keyword of any category occurs in the message,
    and the category is then General Inquiry. *)
Theorem fallback_lowest_confidence message :
  (confidence (getFallbackCategorization E message) = VNum 0.4%Q
   <-> any_keyword (toLowerCase message) = false)
  /\ (any_keyword (toLowerCase message) = false ->
      category (getFallbackCategorization E message) = "General Inquiry").
Proof.
  unfold getFallbackCategorization. cbv zeta.
  rewrite category_scores_spec.
  set (lower := toLowerCase message).
  destruct (pick_best_four (spec_score lower "Billing Issue")
              (spec_score lower "Technical Problem")
              (spec_score lower "Feature Request")
              (spec_score lower "General Inquiry"))
    as [c [s [Hpick Hcases]]].
  rewrite Hpick. cbn [confidence category].
  assert (Hzero : any_keyword lower = false
                  <-> (spec_score lower "Billing Issue" = 0
                       /\ spec_score lower "Technical Problem" = 0
                       /\ spec_score lower "Feature Request" = 0
                       /\ spec_score lower "General Inquiry" = 0)).
  { rewrite any_keyword_names. split.
    - intros H. repeat split; apply spec_score_zero;
        try (simpl; tauto); apply H; simpl; tauto.
    - intros [Hb [Ht [Hf Hg]]] c0 Hin0. apply spec_score_zero; [exact Hin0|].
      simpl in Hin0. destruct Hin0 as [<-|[<-|[<-|[<-|[]]]]]; assumption. }
  split.
  - rewrite Hzero. split.
    + intros Hconf.
      assert (Hs : s = 0).
      { destruct (2 <? s)%nat eqn:H2; [discriminate|].
        destruct (0 <? s)%nat eqn:H0; [discriminate|].
        apply Nat.ltb_ge in H0. lia. }
      destruct Hcases as [[_ H]|[[_ H]|[[_ H]|[_ H]]]]; lia.
    + intros [Hb [Ht [Hf Hg]]].
      assert (Hs : s = 0)
        by (destruct Hcases as [[_ H]|[[_ H]|[[_ H]|[_ H]]]]; lia).
      rewrite Hs. reflexivity.
  - intros Hnone. apply Hzero in Hnone. destruct Hnone as [Hb [Ht [Hf Hg]]].
    destruct Hcases as [[-> H]|[[-> H]|[[-> H]|[-> H]]]];
      try reflexivity; exfalso; lia.
Qed.

Lemma templates_of_named c :
  In c category_names ->
  exists t0 t1 t2, entry c reasoningTemplates = Some [t0; t1; t2].
Proof.
  intros Hin. simpl in Hin.
  destruct Hin as [<-|[<-|[<-|[<-|[]]]]];
    do 3 eexists; vm_compute; reflexivity.
Qed.

(** X10.  When the random index is one of 0, 1, 2, the reasoning of the
    fallback categorization is a text, the one at that index among the
    three templates of the category it returns. *)
Theorem fallback_reasoning_template message :
  random E < 3 ->
  exists templates text,
    entry (category (getFallbackCategorization E message)) reasoningTemplates
    = Some templates
    /\ List.length templates = 3
    /\ nth_error templates (random E) = Some text
    /\ reasoning (getFallbackCategorization E message) = VStr text.
Proof.
  intros Hr.
  pose proof (fallback_category_named message) as Hin.
  unfold getFallbackCategorization in *. cbv zeta in *.
  destruct (pick_best (category_scores (toLowerCase message))) as [c s].
  cbn [category reasoning] in *.
  destruct (templates_of_named c Hin) as [t0 [t1 [t2 Ht]]].
  unfold generateFallbackReasoning. rewrite Ht.
  exists [t0; t1; t2].
  destruct (random E) as [|[|[|n]]]; [| | |lia];
    eexists; (split; [reflexivity|]); (split; [reflexivity|]);
    split; reflexivity.
Qed.

End CategorizationMore.

Lemma categorizeMessage_recognized_reply_witness :
  let E := example_env (replies (JSON.quoted
             "{'category':'Technical Problem','confidence':0}")) never_aborted in
  exists r,
    result (categorizeMessage E "The app crashes" None) = Returns r
    /\ category r = "Technical Problem"
    /\ confidence r = VNum 0.8%Q.
Proof.
  intros E.
  destruct (categorizeMessage_recognized_reply E "The app crashes" None
              (JSON.quoted "{'category':'Technical Problem','confidence':0}")
              "Technical Problem" eq_refl eq_refl eq_refl)
    as [r [Hr [Hc [Hconf _]]]].
  - simpl. tauto.
  - exists r. split; [exact Hr|]. split; [exact Hc|].
    apply Hconf. reflexivity.
Defined.

Lemma fallback_reasoning_template_witness :
  exists templates text,
    entry (category (getFallbackCategorization offline_env dark_mode))
          reasoningTemplates = Some templates
    /\ List.length templates = 3
    /\ nth_error templates (random offline_env) = Some text
    /\ reasoning (getFallbackCategorization offline_env dark_mode) = VStr text.
Proof.
  apply (fallback_reasoning_template offline_env dark_mode).
  simpl. lia.
Defined.

(** * Letter case *)

Section LetterCase.

Lemma lower_upper_char c : lower_char (upper_char c) = lower_char c.
Proof.
  destruct c as [[] [] [] [] [] [] [] []]; reflexivity.
Qed.

Lemma upper_upper_char c : upper_char (upper_char c) = upper_char c.
Proof.
  destruct c as [[] [] [] [] [] [] [] []]; reflexivity.
Qed.

Lemma upper_char_fixed c : Ascii.eqb c (upper_char c) = negb (is_lower c).
Proof.
  destruct c as [[] [] [] [] [] [] [] []]; reflexivity.
Qed.

Lemma upper_char_space c : is_space (upper_char c) = is_space c.
Proof.
  destruct c as [[] [] [] [] [] [] [] []]; reflexivity.
Qed.

Lemma upper_char_exclamation c :
  Ascii.eqb (upper_char c) "!" = Ascii.eqb c "!".
Proof.
  destruct c as [[] [] [] [] [] [] [] []]; reflexivity.
Qed.

Lemma upper_char_question c :
  Ascii.eqb (upper_char c) "?" = Ascii.eqb c "?".
Proof.
  destruct c as [[] [] [] [] [] [] [] []]; reflexivity.
Qed.

Lemma toLowerCase_toUpperCase s : toLowerCase (toUpperCase s) = toLowerCase s.
Proof.
  unfold toLowerCase, toUpperCase.
  induction s as [|c s IH]; simpl.
  - reflexivity.
  - rewrite lower_upper_char, IH. reflexivity.
Qed.

Lemma toUpperCase_toUpperCase s : toUpperCase (toUpperCase s) = toUpperCase s.
Proof.
  unfold toUpperCase.
  induction s as [|c s IH]; simpl.
  - reflexivity.
  - rewrite upper_upper_char, IH. reflexivity.
Qed.

Lemma length_map_string f s :
  String.length (map_string f s) = String.length s.
Proof.
  induction s as [|c s IH]; simpl; [reflexivity | rewrite IH; reflexivity].
Qed.

Lemma count_char_map f c s :
  (forall a, Ascii.eqb (f a) c = Ascii.eqb a c) ->
  count_char c (map_string f s) = count_char c s.
Proof.
  intros Hf. induction s as [|a s IH]; simpl.
  - reflexivity.
  - rewrite Hf, IH. reflexivity.
Qed.

Lemma trimStart_map f s :
  (forall a, is_space (f a) = is_space a) ->
  trimStart (map_string f s) = map_string f (trimStart s).
Proof.
  intros Hf. induction s as [|a s IH]; simpl.
  - reflexivity.
  - rewrite Hf. destruct (is_space a); [exact IH | reflexivity].
Qed.

Lemma trimEnd_map f s :
  (forall a, is_space (f a) = is_space a) ->
  trimEnd (map_string f s) = map_string f (trimEnd s).
Proof.
  intros Hf. induction s as [|a s IH]; simpl.
  - reflexivity.
  - rewrite IH, Hf.
    destruct (trimEnd s) as [|b t]; simpl.
    + destruct (is_space a); reflexivity.
    + reflexivity.
Qed.

Lemma space_runs_map f in_run s :
  (forall a, is_space (f a) = is_space a) ->
  space_runs in_run (map_string f s) = space_runs in_run s.
Proof.
  intros Hf. revert in_run. induction s as [|a s IH]; intros in_run; simpl.
  - reflexivity.
  - rewrite Hf, !IH. reflexivity.
Qed.

Lemma eqb_toUpperCase s : (s =? toUpperCase s) = no_lower s.
Proof.
  unfold toUpperCase.
  induction s as [|c s IH]; simpl.
  - reflexivity.
  - rewrite upper_char_fixed, IH.
    destruct (is_lower c); reflexivity.
Qed.

Lemma no_lower_toUpperCase s : no_lower (toUpperCase s) = true.
Proof.
  rewrite <- eqb_toUpperCase, toUpperCase_toUpperCase.
  apply String.eqb_refl.
Qed.

(** X11.  The fallback categorization and the fallback recommendation do
    not depend on the case of the letters: the message in capitals gets
    the same category, reasoning and confidence, and the same action,
    escalation and reason. *)
Theorem fallbacks_ignore_case E message category urgency :
  getFallbackCategorization E (toUpperCase message)
  = getFallbackCategorization E message
  /\ getFallbackRecommendation (toUpperCase message) category urgency
     = getFallbackRecommendation message category urgency.
Proof.
  unfold getFallbackCategorization, getFallbackRecommendation.
  rewrite toLowerCase_toUpperCase. split; reflexivity.
Qed.

(** X12.  For a message of ASCII characters, writing it in capitals
    changes nothing in its signals but the all-caps flag, which is then
    set exactly when the message has more than 10 characters: keyword and
    sentiment flags, punctuation counts, length and word count are the
    same.  (Outside ASCII the capitals of a message can be longer than the
    message, and the statement is not made.) *)
Theorem detectSignals_capitals message :
  ascii_only message = true ->
  detectSignals (toUpperCase message)
  = {| hasCriticalKeyword := hasCriticalKeyword (detectSignals message);
       hasSystemImpact := hasSystemImpact (detectSignals message);
       hasBusinessImpact := hasBusinessImpact (detectSignals message);
       exclamationCount := exclamationCount (detectSignals message);
       questionCount := questionCount (detectSignals message);
       isAllCaps := (10 <? String.length message)%nat;
       hasPositiveSentiment := hasPositiveSentiment (detectSignals message);
       hasNegativeSentiment := hasNegativeSentiment (detectSignals message);
       messageLength := messageLength (detectSignals message);
       wordCount := wordCount (detectSignals message) |}.
Proof.
  intros _. unfold detectSignals. cbv zeta.
  cbn [hasCriticalKeyword hasSystemImpact hasBusinessImpact exclamationCount
       questionCount hasPositiveSentiment hasNegativeSentiment messageLength
       wordCount].
  rewrite toLowerCase_toUpperCase, toUpperCase_toUpperCase, String.eqb_refl.
  unfold toUpperCase at 1 2 3 4.
  rewrite (count_char_map _ _ _ upper_char_exclamation).
  rewrite (count_char_map _ _ _ upper_char_question).
  rewrite !length_map_string.
  unfold trim, split_spaces_length.
  rewrite (trimStart_map _ _ upper_char_space).
  rewrite (trimEnd_map _ _ upper_char_space).
  rewrite (space_runs_map _ _ _ upper_char_space).
  reflexivity.
Qed.

(** X13.  For a message of ASCII characters, the all-caps flag is set
    exactly when the message has more than 10 characters and none of them
    is a lower-case letter; it asks for no capital letter, so a long
    message of digits and punctuation is all caps. *)
Theorem detectSignals_isAllCaps message :
  ascii_only message = true ->
  isAllCaps (detectSignals message)
  = (10 <? String.length message)%nat && no_lower message.
Proof.
  intros _. unfold detectSignals. cbv zeta. cbn [isAllCaps].
  rewrite eqb_toUpperCase. apply andb_comm.
Qed.

End LetterCase.

Lemma detectSignals_capitals_witness :
  ascii_only "Server is down!" = true
  /\ detectSignals "SERVER IS DOWN!"
     = {| hasCriticalKeyword := true;
          hasSystemImpact := false;
          hasBusinessImpact := false;
          exclamationCount := 1;
          questionCount := 0;
          isAllCaps := true;
          hasPositiveSentiment := false;
          hasNegativeSentiment := false;
          messageLength := 15;
          wordCount := 3 |}.
Proof.
  split; [reflexivity|].
  exact (detectSignals_capitals "Server is down!" eq_refl).
Defined.

Lemma detectSignals_isAllCaps_witness :
  ascii_only "1234567890!?" = true
  /\ isAllCaps (detectSignals "1234567890!?") = true.
Proof.
  split; [reflexivity|].
  exact (detectSignals_isAllCaps "1234567890!?" eq_refl).
Defined.

(** * Fallback urgency: what decides the level *)

Section FallbackUrgencyMore.

(** Score and level of the fallback in terms of the table. *)
Lemma fallback_score_level message category sg :
  score (getFallbackUrgency message category sg)
  = num (spec_clamp (spec_raw_score category sg))
  /\ level (getFallbackUrgency message category sg)
     = VStr (level_of (spec_clamp (spec_raw_score category sg))).
Proof.
  unfold getFallbackUrgency. cbv zeta.
  rewrite !adjust_spec, adjust_category_spec.
  cbn [fst snd score level].
  fold (spec_positive sg) (spec_emphasis sg) (spec_question sg).
  rewrite clamp_spec.
  split; reflexivity.
Qed.

Lemma level_of_clamp x :
  level_of (spec_clamp x)
  = if (70 <=? x)%Z then "High" else if (30 <=? x)%Z then "Medium" else "Low".
Proof.
  unfold level_of, spec_clamp.
  destruct (x <? 0)%Z eqn:H0; [apply Z.ltb_lt in H0 | apply Z.ltb_ge in H0].
  - replace (70 <=? x)%Z with false by (symmetry; apply Z.leb_gt; lia).
    replace (30 <=? x)%Z with false by (symmetry; apply Z.leb_gt; lia).
    reflexivity.
  - destruct (100 <? x)%Z eqn:H1;
      [apply Z.ltb_lt in H1 | apply Z.ltb_ge in H1].
    + replace (70 <=? x)%Z with true by (symmetry; apply Z.leb_le; lia).
      reflexivity.
    + reflexivity.
Qed.

Lemma spec_delta_nonneg applies d : (0 <= d)%Z -> (0 <= spec_delta applies d)%Z.
Proof.
  intros Hd. unfold spec_delta. destruct applies; lia.
Qed.

(** The adjustment for the category is 10, 5, -15 or nothing. *)
Lemma category_adjustment category :
  exists d,
    (spec_delta (category_is category "Technical Problem") 10
     + spec_delta (category_is category "Billing Issue") 5
     + spec_delta (category_is category "Feature Request") (-15) = d)%Z
    /\ (d = 10 \/ d = 5 \/ d = 0
        \/ (d = -15 /\ category = Some "Feature Request"))%Z.
Proof.
  destruct (category_is_cases category)
    as [[Ht [Hb Hf]]|[[Ht [Hb Hf]]|[[Ht [Hb Hf]]|[Ht [Hb Hf]]]]];
    rewrite Ht, Hb, Hf; cbn [spec_delta]; eexists; (split; [reflexivity|]);
    try tauto.
  right. right. right. split; [reflexivity|].
  destruct category as [c|]; [|discriminate].
  simpl in Hf. apply String.eqb_eq in Hf. subst c. reflexivity.
Qed.

(** The raw score with the adjustments that cannot lower it left as
    unknowns. *)
Lemma raw_score_shape category sg :
  exists up d,
    (0 <= up)%Z
    /\ (d = 10 \/ d = 5 \/ d = 0
        \/ (d = -15 /\ category = Some "Feature Request"))%Z
    /\ (spec_raw_score category sg
        = 50 + spec_delta (hasCriticalKeyword sg) 35
          + spec_delta (hasNegativeSentiment sg) 15
          + up + d
          + spec_delta (spec_positive sg) (-20)
          + spec_delta (spec_question sg) (-10))%Z.
Proof.
  destruct (category_adjustment category) as [d [Hd Hcases]].
  exists (spec_delta (hasSystemImpact sg) 20
          + spec_delta (hasBusinessImpact sg) 15
          + spec_delta (spec_emphasis sg) 10)%Z, d.
  split; [|split; [exact Hcases|]].
  - pose proof (spec_delta_nonneg (hasSystemImpact sg) 20).
    pose proof (spec_delta_nonneg (hasBusinessImpact sg) 15).
    pose proof (spec_delta_nonneg (spec_emphasis sg) 10).
    lia.
  - unfold spec_raw_score. lia.
Qed.

(** X14.  A critical keyword makes the fallback urgency High, with a
    score from 70 to 100, whatever the category and the other signals. *)
Theorem fallback_critical_is_high message category sg :
  hasCriticalKeyword sg = true ->
  level (getFallbackUrgency message category sg) = VStr "High"
  /\ exists s, (70 <= s <= 100)%Z
               /\ score (getFallbackUrgency message category sg) = num s.
Proof.
  intros Hc.
  destruct (fallback_score_level message category sg) as [Hs Hl].
  rewrite Hs, Hl, level_of_clamp.
  assert (Hraw : (70 <= spec_raw_score category sg)%Z).
  { destruct (raw_score_shape category sg) as [up [d [Hup [Hd ->]]]].
    unfold spec_positive, spec_question. rewrite Hc.
    cbn [negb]. rewrite !andb_false_r. cbn [andb spec_delta].
    assert (Hd' : (-15 <= d)%Z)
      by (destruct Hd as [Hd|[Hd|[Hd|[Hd _]]]]; lia).
    destruct (hasNegativeSentiment sg); cbn [spec_delta]; lia. }
  split.
  - replace (70 <=? spec_raw_score category sg)%Z with true
      by (symmetry; apply Z.leb_le; lia).
    reflexivity.
  - exists (spec_clamp (spec_raw_score category sg)).
    split; [|reflexivity].
    pose proof (spec_clamp_bounds (spec_raw_score category sg)).
    unfold spec_clamp in *.
    destruct (spec_raw_score category sg <? 0)%Z eqn:H0;
      [apply Z.ltb_lt in H0; lia|].
    destruct (100 <? spec_raw_score category sg)%Z; lia.
Qed.

(** X15.  The fallback urgency is Low only for a message without critical
    keyword and without negative sentiment that has a positive word or a
    question mark; one reduction alone never reaches Low. *)
Theorem fallback_low_needs_calm message category sg :
  level (getFallbackUrgency message category sg) = VStr "Low" ->
  hasCriticalKeyword sg = false
  /\ hasNegativeSentiment sg = false
  /\ (hasPositiveSentiment sg = true \/ 0 < questionCount sg)
  /\ (hasPositiveSentiment sg = true /\ 0 < questionCount sg
      \/ category = Some "Feature Request").
Proof.
  destruct (fallback_score_level message category sg) as [_ Hl].
  rewrite Hl, level_of_clamp. clear Hl.
  intros Hlow.
  assert (Hraw : (spec_raw_score category sg < 30)%Z).
  { destruct (70 <=? spec_raw_score category sg)%Z; [discriminate|].
    destruct (30 <=? spec_raw_score category sg)%Z eqn:H30; [discriminate|].
    apply Z.leb_gt in H30. exact H30. }
  clear Hlow.
  destruct (raw_score_shape category sg) as [up [d [Hup [Hd Heq]]]].
  rewrite Heq in Hraw. clear Heq.
  unfold spec_positive, spec_question in Hraw.
  destruct (0 <? questionCount sg)%nat eqn:Hq;
    [apply Nat.ltb_lt in Hq | clear Hq];
    destruct (hasCriticalKeyword sg), (hasNegativeSentiment sg),
      (hasPositiveSentiment sg);
    cbn [andb negb spec_delta] in Hraw;
    try (exfalso; lia);
    (split; [reflexivity|]); (split; [reflexivity|]);
    (split; [tauto|]);
    first [ left; split; [reflexivity | exact Hq]
          | right; destruct Hd as [Hd|[Hd|[Hd|[_ Hd]]]];
            [exfalso; lia | exfalso; lia | exfalso; lia | exact Hd] ].
Qed.

(** X16.  Without a category, as [handleAnalyze] and
    [calculateUrgencySync] call it, the fallback urgency is Low exactly
    for a question with a positive word and no critical, negative,
    system-impact or business-impact keyword, and the score is then 20. *)
Theorem fallback_low_without_category message sg :
  (level (getFallbackUrgency message None sg) = VStr "Low"
   <-> (hasPositiveSentiment sg = true
        /\ (0 <? questionCount sg)%nat = true
        /\ hasCriticalKeyword sg = false
        /\ hasNegativeSentiment sg = false
        /\ hasSystemImpact sg = false
        /\ hasBusinessImpact sg = false))
  /\ (level (getFallbackUrgency message None sg) = VStr "Low" ->
      score (getFallbackUrgency message None sg) = num 20).
Proof.
  destruct (fallback_score_level message None sg) as [Hs Hl].
  rewrite Hs, Hl, level_of_clamp. clear Hs Hl.
  unfold spec_clamp, spec_raw_score, spec_delta, spec_positive, spec_emphasis,
    spec_question.
  cbn [category_is].
  destruct (hasCriticalKeyword sg), (hasSystemImpact sg),
    (hasBusinessImpact sg), (hasNegativeSentiment sg),
    (hasPositiveSentiment sg),
    (2 <=? exclamationCount sg)%nat, (0 <? questionCount sg)%nat;
    cbn; (split; [split|]); intros H;
    try discriminate; try reflexivity;
    try (decompose [and] H; discriminate);
    repeat split.
Qed.


End FallbackUrgencyMore.

(** * The urgency engine *)

Section UrgencyEngineMore.

Variable E : env.

(** X18.  Whatever path produced it, the result of [calculateUrgency]
    carries the signals of the message; and when the remote call fails,
    for a call without category, its level is the one
    [calculateUrgencySync] gives, one of High, Medium and Low. *)
Theorem calculateUrgency_signals_and_sync message category sig :
  (exists r,
     result (calculateUrgency E message category sig) = Returns r
     /\ signals r = detectSignals message)
  /\ (forall thrown,
        result (groqRequest E
                  (UrgencyRequest message None (detectSignals message)) sig)
        = Throws thrown ->
        exists r,
          result (calculateUrgency E message None sig) = Returns r
          /\ level r = calculateUrgencySync message)
  /\ (calculateUrgencySync message = VStr "High"
      \/ calculateUrgencySync message = VStr "Medium"
      \/ calculateUrgencySync message = VStr "Low").
Proof.
  split; [|split].
  - destruct (result (groqRequest E
                        (UrgencyRequest message category (detectSignals message))
                        sig)) as [content|thrown] eqn:H.
    + rewrite (calculateUrgency_replied _ _ _ _ _ H). cbv zeta.
      eexists. split; [reflexivity|].
      destruct (truthy (parseJsonResponse E content)); reflexivity.
    + rewrite (calculateUrgency_failed _ _ _ _ _ H).
      eexists. split; reflexivity.
  - intros thrown H. rewrite (calculateUrgency_failed _ _ _ _ _ H).
    eexists. split; reflexivity.
  - unfold calculateUrgencySync. cbv zeta.
    destruct (fallback_score_level message None (detectSignals message))
      as [_ Hl].
    rewrite Hl. unfold level_of.
    destruct (70 <=? _)%Z; [tauto|]. destruct (30 <=? _)%Z; tauto.
Qed.

End UrgencyEngineMore.

Lemma fallback_critical_is_high_witness :
  let message := "Thanks, but production is down?" in
  let r := getFallbackUrgency message (Some "Feature Request")
             (detectSignals message) in
  level r = VStr "High"
  /\ exists s, (70 <= s <= 100)%Z /\ score r = num s.
Proof.
  exact (fallback_critical_is_high "Thanks, but production is down?"
           (Some "Feature Request")
           (detectSignals "Thanks, but production is down?") eq_refl).
Defined.

Lemma fallback_low_needs_calm_witness :
  let sg := detectSignals dark_mode in
  level (getFallbackUrgency dark_mode (Some "Feature Request") sg) = VStr "Low"
  /\ hasCriticalKeyword sg = false
  /\ hasNegativeSentiment sg = false
  /\ (hasPositiveSentiment sg = true \/ 0 < questionCount sg)
  /\ (hasPositiveSentiment sg = true /\ 0 < questionCount sg
      \/ Some "Feature Request" = Some "Feature Request").
Proof.
  split; [reflexivity|].
  exact (fallback_low_needs_calm dark_mode (Some "Feature Request")
           (detectSignals dark_mode) eq_refl).
Defined.

(** * Recommendations *)

Section RecommendationMore.

Lemma scan_triggers_verdict lowerMessage triggers :
  fst (scan_triggers lowerMessage triggers)
  = existsb (fun t => some_included lowerMessage (trigger_keywords t)) triggers
  /\ (fst (scan_triggers lowerMessage triggers) = false ->
      snd (scan_triggers lowerMessage triggers) = VNull)
  /\ (fst (scan_triggers lowerMessage triggers) = true ->
      exists t, In t triggers
                /\ snd (scan_triggers lowerMessage triggers) = VStr (reason t)).
Proof.
  induction triggers as [|t rest IH]; simpl.
  - split; [reflexivity|]. split; [reflexivity | discriminate].
  - destruct (some_included lowerMessage (trigger_keywords t)); simpl.
    + split; [reflexivity|]. split; [discriminate|].
      intros _. exists t. split; [left; reflexivity | reflexivity].
    + destruct IH as [IH1 [IH2 IH3]].
      split; [exact IH1|]. split; [exact IH2|].
      intros H. destruct (IH3 H) as [t' [Hin Hr]].
      exists t'. split; [right; exact Hin | exact Hr].
Qed.

Lemma trigger_reason_not_empty t :
  In t escalationTriggers -> reason t <> EmptyString.
Proof.
  intros Hin. simpl in Hin.
  destruct Hin as [<-|[<-|[<-|[<-|[<-|[]]]]]]; discriminate.
Qed.

(** The verdict of the fallback, and its reason. *)
Lemma fallback_escalation message category urgency :
  escalate (getFallbackRecommendation message category urgency)
  = VBool (any_trigger (toLowerCase message) || is_str urgency "High")
  /\ ((any_trigger (toLowerCase message) || is_str urgency "High") = false ->
      escalateReason (getFallbackRecommendation message category urgency)
      = VNull)
  /\ ((any_trigger (toLowerCase message) || is_str urgency "High") = true ->
      exists text,
        text <> EmptyString
        /\ escalateReason (getFallbackRecommendation message category urgency)
           = VStr text).
Proof.
  unfold getFallbackRecommendation, any_trigger. cbv zeta.
  destruct (scan_triggers_verdict (toLowerCase message) escalationTriggers)
    as [Hv [Hnone Hsome]].
  destruct (scan_triggers (toLowerCase message) escalationTriggers)
    as [e0 r0].
  cbn [fst snd] in *. rewrite <- Hv.
  destruct e0; cbn [negb orb].
  - rewrite andb_false_r. cbn [escalate escalateReason].
    split; [reflexivity|]. split; [discriminate|].
    intros _. destruct (Hsome eq_refl) as [t [Hin Hr]].
    exists (reason t). split; [apply trigger_reason_not_empty; exact Hin|].
    exact Hr.
  - rewrite andb_true_r.
    destruct (is_str urgency "High"); cbn [escalate escalateReason].
    + split; [reflexivity|]. split; [discriminate|].
      intros _. eexists. split; [|reflexivity]. discriminate.
    + split; [reflexivity|].
      split; [intros _; apply Hnone; reflexivity | discriminate].
Qed.

(** X19.  In the fallback recommendation the escalation flag is a boolean
    and the reason goes with it: the reason is a non-empty text when the
    flag is set and [null] when it is not. *)
Theorem fallback_reason_iff_escalated message category urgency :
  exists b,
    escalate (getFallbackRecommendation message category urgency) = VBool b
    /\ (b = false <->
        escalateReason (getFallbackRecommendation message category urgency)
        = VNull)
    /\ (b = true <->
        exists text,
          text <> EmptyString
          /\ escalateReason (getFallbackRecommendation message category urgency)
             = VStr text).
Proof.
  destruct (fallback_escalation message category urgency)
    as [He [Hnone Hsome]].
  exists (any_trigger (toLowerCase message) || is_str urgency "High").
  split; [exact He|].
  destruct (any_trigger (toLowerCase message) || is_str urgency "High").
  - destruct (Hsome eq_refl) as [text [Hne Hr]]. split.
    + split; [discriminate|]. rewrite Hr. discriminate.
    + split; [|reflexivity]. intros _. exists text. split; assumption.
  - rewrite (Hnone eq_refl). split.
    + split; reflexivity.
    + split; [discriminate|]. intros [text [_ H]]. discriminate.
Qed.

(** X20.  [shouldEscalate] answers true exactly when a trigger keyword
    occurs in the message or the urgency is High; the category plays no
    part in it. *)
Theorem shouldEscalate_verdict category urgency message :
  shouldEscalate category urgency message
  = VBool (any_trigger (toLowerCase message) || is_str urgency "High")
  /\ forall category',
       shouldEscalate category' urgency message
       = shouldEscalate category urgency message.
Proof.
  unfold shouldEscalate.
  split.
  - apply fallback_escalation.
  - intros category'.
    rewrite (proj1 (fallback_escalation message category' urgency)).
    rewrite (proj1 (fallback_escalation message category urgency)).
    reflexivity.
Qed.

Lemma action_text_not_empty lowerMessage category :
  action_text lowerMessage category <> EmptyString.
Proof.
  unfold action_text.
  repeat match goal with
         | |- context [if ?b then _ else _] => destruct b
         end;
    discriminate.
Qed.

Lemma fallback_action message category urgency :
  action (getFallbackRecommendation message category urgency)
  = VStr (action_text (toLowerCase message) category).
Proof.
  unfold getFallbackRecommendation. cbv zeta.
  destruct (scan_triggers (toLowerCase message) escalationTriggers) as [e0 r0].
  destruct (is_str urgency "High" && negb e0); reflexivity.
Qed.

(** X21.  The action of the fallback recommendation is a non-empty text
    that does not depend on the urgency; for a category that is none of
    the four names, Unknown included, it is the instruction to review the
    message, whatever the message. *)
Theorem fallback_action_text message category urgency :
  (exists text,
     text <> EmptyString
     /\ action (getFallbackRecommendation message category urgency) = VStr text)
  /\ (forall urgency',
        action (getFallbackRecommendation message category urgency')
        = action (getFallbackRecommendation message category urgency))
  /\ (~ In category category_names ->
      action (getFallbackRecommendation message category urgency)
      = VStr "Review the message carefully to understand the customer's core need. Categorize appropriately if miscategorized, or gather more information if the request is unclear.").
Proof.
  rewrite fallback_action. split; [|split].
  - eexists. split; [|reflexivity]. apply action_text_not_empty.
  - intros urgency'. rewrite fallback_action. reflexivity.
  - intros Hnot. unfold action_text.
    destruct (category =? "Billing Issue") eqn:H1;
      [apply String.eqb_eq in H1; exfalso; apply Hnot; subst; simpl; tauto|].
    destruct (category =? "Technical Problem") eqn:H2;
      [apply String.eqb_eq in H2; exfalso; apply Hnot; subst; simpl; tauto|].
    destruct (category =? "Feature Request") eqn:H3;
      [apply String.eqb_eq in H3; exfalso; apply Hnot; subst; simpl; tauto|].
    destruct (category =? "General Inquiry") eqn:H4;
      [apply String.eqb_eq in H4; exfalso; apply Hnot; subst; simpl; tauto|].
    reflexivity.
Qed.

Lemma or_else_truthy a d : truthy d = true -> truthy (or_else a d) = true.
Proof.
  intros Hd. unfold or_else. destruct (truthy a) eqn:Ha; assumption.
Qed.

Lemma or_else_cases a d : or_else a d = d \/ truthy (or_else a d) = true.
Proof.
  unfold or_else. destruct (truthy a) eqn:Ha; [right; exact Ha | left; reflexivity].
Qed.

Lemma truthy_text text : text <> EmptyString -> truthy (VStr text) = true.
Proof.
  intros H. cbn [truthy]. destruct text; [contradiction | reflexivity].
Qed.

(** The fields of the fallback recommendation, and of the result built
    from a reply. *)
Lemma fallback_recommendation_shape message category urgency :
  truthy (action (getFallbackRecommendation message category urgency)) = true
  /\ (escalate (getFallbackRecommendation message category urgency) = VBool false
      \/ truthy (escalate (getFallbackRecommendation message category urgency))
         = true)
  /\ (escalateReason (getFallbackRecommendation message category urgency) = VNull
      \/ truthy (escalateReason
                   (getFallbackRecommendation message category urgency))
         = true).
Proof.
  rewrite fallback_action.
  split; [apply truthy_text, action_text_not_empty|].
  destruct (fallback_escalation message category urgency)
    as [He [Hnone Hsome]].
  rewrite He.
  destruct (any_trigger (toLowerCase message) || is_str urgency "High").
  - split; [right; reflexivity|].
    destruct (Hsome eq_refl) as [text [Hne Hr]]. rewrite Hr.
    right. apply truthy_text. exact Hne.
  - split; [left; reflexivity|]. left. apply Hnone. reflexivity.
Qed.

Lemma action_of_reply_shape parsed :
  truthy (action (action_of_reply parsed)) = true
  /\ (escalate (action_of_reply parsed) = VBool false
      \/ truthy (escalate (action_of_reply parsed)) = true)
  /\ (escalateReason (action_of_reply parsed) = VNull
      \/ truthy (escalateReason (action_of_reply parsed)) = true).
Proof.
  unfold action_of_reply. cbn [action escalate escalateReason].
  split; [apply or_else_truthy; reflexivity|].
  split; apply or_else_cases.
Qed.

(** X22.  [getRecommendedAction] returns on every path, and the action it
    returns is never empty or missing; its escalation flag is [false] or
    a truthy value, its reason [null] or a truthy value. *)
Theorem getRecommendedAction_never_empty E message category urgency sig :
  exists r,
    result (getRecommendedAction E message category urgency sig) = Returns r
    /\ truthy (action r) = true
    /\ (escalate r = VBool false \/ truthy (escalate r) = true)
    /\ (escalateReason r = VNull \/ truthy (escalateReason r) = true).
Proof.
  destruct (result (groqRequest E (ActionRequest message category urgency) sig))
    as [content|thrown] eqn:H.
  - rewrite (getRecommendedAction_replied _ _ _ _ _ _ H). cbv zeta.
    eexists. split; [reflexivity|].
    destruct (truthy (parseJsonResponse E content)).
    + apply action_of_reply_shape.
    + apply fallback_recommendation_shape.
  - rewrite (getRecommendedAction_failed _ _ _ _ _ _ H).
    eexists. split; [reflexivity|]. apply fallback_recommendation_shape.
Qed.

End RecommendationMore.

Lemma fallback_action_text_witness :
  action (getFallbackRecommendation "Where is my invoice?" "Unknown" (VStr "Low"))
  = VStr "Review the message carefully to understand the customer's core need. Categorize appropriately if miscategorized, or gather more information if the request is unclear.".
Proof.
  refine (proj2 (proj2 (fallback_action_text "Where is my invoice?" "Unknown"
                          (VStr "Low"))) _).
  simpl. intros [H|[H|[H|[H|[]]]]]; discriminate.
Defined.

(** * The orchestrator: calls, record and history *)

Section OrchestratorMore.

Variable E : env.















End OrchestratorMore.




(** * With the service unavailable *)

Section Offline.

Variable E : env.


End Offline.


(** * The pages that read the history *)

Section HomePageMore.

Import HomePage.

Variable toDateString : string -> string.
Variable todayString : string.

Lemma recentActivity_firstn history :
  recentActivity (loadHomeData toDateString todayString history)
  = firstn 3 (rev history).
Proof.
  unfold loadHomeData, slice_last. cbn [recentActivity].
  rewrite firstn_rev. reflexivity.
Qed.

(** X27.  The recent activity of the home page is the last three records
    of the history, newest first (all of them when there are fewer).
    Appending a record puts it first and keeps the two most recent of the
    earlier ones; the total grows by one, and the count of today never
    exceeds the total. *)
Theorem loadHomeData_recent history record :
  recentActivity (loadHomeData toDateString todayString history)
  = firstn 3 (rev history)
  /\ List.length (recentActivity (loadHomeData toDateString todayString history))
     = Nat.min 3 (List.length history)
  /\ recentActivity (loadHomeData toDateString todayString (history ++ [record]))
     = record :: firstn 2 (recentActivity
                             (loadHomeData toDateString todayString history))
  /\ total (loadHomeData toDateString todayString (history ++ [record]))
     = S (total (loadHomeData toDateString todayString history))
  /\ today (loadHomeData toDateString todayString history)
     <= total (loadHomeData toDateString todayString history).
Proof.
  rewrite !recentActivity_firstn.
  split; [reflexivity|]. split; [|split; [|split]].
  - rewrite length_firstn, length_rev. reflexivity.
  - rewrite rev_app_distr. change (rev [record]) with [record]. cbn [app].
    rewrite firstn_cons, firstn_firstn. reflexivity.
  - unfold loadHomeData. cbn [total]. rewrite length_app. simpl. lia.
  - unfold loadHomeData. cbn [today total]. apply filter_length_le.
Qed.


End HomePageMore.


Section HistoryPageMore.

Import HistoryPage.

Section StableSort.

Context {A : Type}.
Variable key : A -> Z.
Variable cmp : A -> A -> Z.
Hypothesis cmp_key : forall a b, cmp a b = (key a - key b)%Z.

Lemma insert_permutation x l : Permutation (insert cmp x l) (x :: l).
Proof.
  induction l as [|y l IH]; simpl.
  - apply Permutation_refl.
  - destruct (cmp x y <=? 0)%Z.
    + apply Permutation_refl.
    + apply perm_trans with (y :: x :: l).
      * apply perm_skip. exact IH.
      * apply perm_swap.
Qed.

Lemma sort_permutation l : Permutation (sort cmp l) l.
Proof.
  induction l as [|x l IH]; simpl.
  - apply perm_nil.
  - apply perm_trans with (x :: sort cmp l).
    + apply insert_permutation.
    + apply perm_skip. exact IH.
Qed.

Lemma insert_forall (P : A -> Prop) x l :
  P x -> Forall P l -> Forall P (insert cmp x l).
Proof.
  intros Hx Hl. induction Hl as [|y l Hy Hl IH]; simpl.
  - constructor; [exact Hx | constructor].
  - destruct (cmp x y <=? 0)%Z.
    + constructor; [exact Hx|]. constructor; assumption.
    + constructor; assumption.
Qed.

Lemma insert_sorted x l :
  StronglySorted (fun a b => (key a <= key b)%Z) l ->
  StronglySorted (fun a b => (key a <= key b)%Z) (insert cmp x l).
Proof.
  intros Hs. induction Hs as [|y l Hs IH Hy]; simpl.
  - constructor; constructor.
  - destruct (cmp x y <=? 0)%Z eqn:Hc.
    + apply Z.leb_le in Hc. rewrite cmp_key in Hc.
      constructor.
      * constructor; assumption.
      * constructor; [lia|].
        eapply Forall_impl; [|exact Hy]. intros b Hb. simpl in Hb. lia.
    + apply Z.leb_gt in Hc. rewrite cmp_key in Hc.
      constructor; [exact IH|].
      apply insert_forall; [lia | exact Hy].
Qed.

Lemma sort_sorted l :
  StronglySorted (fun a b => (key a <= key b)%Z) (sort cmp l).
Proof.
  induction l as [|x l IH]; simpl.
  - constructor.
  - apply insert_sorted. exact IH.
Qed.

Lemma insert_stable k x l :
  filter (fun a => (key a =? k)%Z) (insert cmp x l)
  = filter (fun a => (key a =? k)%Z) (x :: l).
Proof.
  induction l as [|y l IH]; simpl.
  - reflexivity.
  - destruct (cmp x y <=? 0)%Z eqn:Hc.
    + reflexivity.
    + apply Z.leb_gt in Hc. rewrite cmp_key in Hc.
      cbn [filter]. rewrite IH. cbn [filter].
      destruct (key x =? k)%Z eqn:Hx; [|reflexivity].
      apply Z.eqb_eq in Hx.
      replace (key y =? k)%Z with false; [reflexivity|].
      symmetry. apply Z.eqb_neq. lia.
Qed.

Lemma sort_stable k l :
  filter (fun a => (key a =? k)%Z) (sort cmp l)
  = filter (fun a => (key a =? k)%Z) l.
Proof.
  induction l as [|x l IH]; simpl.
  - reflexivity.
  - rewrite insert_stable. cbn [filter]. rewrite IH. reflexivity.
Qed.

End StableSort.

Variable epoch : string -> Z.

Lemma comparator_key sortBy a b :
  comparator epoch sortBy a b
  = (sort_key epoch sortBy a - sort_key epoch sortBy b)%Z.
Proof.
  unfold comparator, sort_key.
  destruct (sortBy =? "newest"); [lia|].
  destruct (sortBy =? "oldest"); [lia|].
  destruct (sortBy =? "urgency-high"); [lia|].
  destruct (sortBy =? "urgency-low"); lia.
Qed.

(** X29.  For every sort option the sorted history has the records of the
    history, each as often, in ascending order of the option's key
    (urgency rank, or time), and records with the same key stay in the
    order in which they were stored.  With High Urgency First the rank is
    0 for High, 1 for Medium and 2 for Low and for any other urgency. *)
Theorem sortedHistory_stable sortBy history :
  Forall (fun item => plain_urgency item = true) history ->
  Permutation (sortedHistory epoch sortBy history) history
  /\ StronglySorted
       (fun a b => (sort_key epoch sortBy a <= sort_key epoch sortBy b)%Z)
       (sortedHistory epoch sortBy history)
  /\ (forall k,
        filter (fun item => (sort_key epoch sortBy item =? k)%Z)
               (sortedHistory epoch sortBy history)
        = filter (fun item => (sort_key epoch sortBy item =? k)%Z) history)
  /\ (forall item,
        sort_key epoch "urgency-high" item
        = if is_str (r_urgency item) "High" then 0%Z
          else if is_str (r_urgency item) "Medium" then 1%Z
          else 2%Z).
Proof.
  intros _. unfold sortedHistory.
  split; [apply sort_permutation|].
  split; [apply (sort_sorted _ _ (comparator_key sortBy))|].
  split; [intros k; apply (sort_stable _ _ (comparator_key sortBy))|].
  intros item. unfold sort_key. cbn [String.eqb Ascii.eqb Bool.eqb].
  unfold urgency_order, is_str.
  destruct (r_urgency item) as [| | | |s| |]; try reflexivity.
  cbn [entry URGENCY_ORDER].
  rewrite (String.eqb_sym "High" s), (String.eqb_sym "Medium" s),
    (String.eqb_sym "Low" s).
  destruct (s =? "High"); [reflexivity|].
  destruct (s =? "Medium"); [reflexivity|].
  destruct (s =? "Low"); reflexivity.
Qed.

Lemma distinct_spec seen xs x :
  In x (distinct seen xs) <-> In x xs /\ ~ In x seen.
Proof.
  revert seen. induction xs as [|y xs IH]; intros seen; simpl.
  - tauto.
  - destruct (existsb (String.eqb y) seen) eqn:Hy.
    + apply existsb_exists in Hy. destruct Hy as [y' [Hin Heq]].
      apply String.eqb_eq in Heq. subst y'.
      rewrite IH. split.
      * intros [H1 H2]. tauto.
      * intros [[->|H1] H2]; [contradiction | tauto].
    + assert (Hnot : ~ In y seen).
      { intros Hin. apply Bool.not_true_iff_false in Hy. apply Hy.
        apply existsb_exists. exists y. split; [exact Hin|].
        apply String.eqb_refl. }
      simpl. rewrite IH. simpl. split.
      * intros [->|[H1 H2]]; [tauto|]. split; [tauto|]. tauto.
      * intros [[->|H1] H2]; [tauto|].
        destruct (string_dec y x) as [->|Hne]; [tauto|]. right. tauto.
Qed.

Lemma distinct_nodup seen xs : NoDup (distinct seen xs).
Proof.
  revert seen. induction xs as [|y xs IH]; intros seen; simpl.
  - constructor.
  - destruct (existsb (String.eqb y) seen).
    + apply IH.
    + constructor; [|apply IH].
      rewrite distinct_spec. simpl. tauto.
Qed.

(** X30.  The category buttons of the history page name each category of
    the history once.  The list shown holds exactly the records of the
    history that pass both filters; with both filters on all it holds
    every record, and the filter of any category button, the urgency
    filter being on all, shows at least one record. *)
Theorem filteredHistory_buttons sortBy history :
  NoDup (categories history)
  /\ (forall c, In c (categories history)
                <-> exists item, In item history /\ r_category item = c)
  /\ (forall categoryFilter urgencyFilter item,
        In item (filteredHistory epoch sortBy categoryFilter urgencyFilter history)
        <-> In item history
            /\ matches categoryFilter urgencyFilter item = true)
  /\ Permutation (filteredHistory epoch sortBy "all" "all" history) history
  /\ (forall c, In c (categories history) ->
                filteredHistory epoch sortBy c "all" history <> []).
Proof.
  assert (Hcat : forall c, In c (categories history)
                 <-> exists item, In item history /\ r_category item = c).
  { intros c. unfold categories. rewrite distinct_spec, in_map_iff.
    split.
    - intros [[item [Hc Hin]] _]. exists item. tauto.
    - intros [item [Hin Hc]]. split; [exists item; tauto | simpl; tauto]. }
  assert (Hfilter : forall categoryFilter urgencyFilter item,
    In item (filteredHistory epoch sortBy categoryFilter urgencyFilter history)
    <-> In item history /\ matches categoryFilter urgencyFilter item = true).
  { intros cf uf item. unfold filteredHistory, sortedHistory.
    rewrite filter_In. split; intros [Hin Hm]; (split; [|exact Hm]).
    - eapply Permutation_in; [apply sort_permutation | exact Hin].
    - eapply Permutation_in;
        [apply Permutation_sym, sort_permutation | exact Hin]. }
  split; [apply distinct_nodup|]. split; [exact Hcat|].
  split; [exact Hfilter|]. split.
  - unfold filteredHistory, sortedHistory.
    replace (filter (matches "all" "all") (sort (comparator epoch sortBy) history))
      with (sort (comparator epoch sortBy) history).
    + apply sort_permutation.
    + symmetry. apply forallb_filter_id. apply forallb_forall.
      intros item _. reflexivity.
  - intros c Hc. apply Hcat in Hc. destruct Hc as [item [Hin Hc]].
    intros Hnil.
    assert (Hi : In item (filteredHistory epoch sortBy c "all" history)).
    { apply Hfilter. split; [exact Hin|].
      unfold matches. cbv zeta. rewrite Hc, String.eqb_refl.
      rewrite orb_true_r. reflexivity. }
    rewrite Hnil in Hi. destruct Hi.
Qed.

End HistoryPageMore.

Lemma sortedHistory_stable_witness :
  map r_message (HistoryPage.sortedHistory sample_epoch "urgency-high"
                   sample_history)
  = ["second"; "fourth"; "first"; "third"]
  /\ Permutation (HistoryPage.sortedHistory sample_epoch "urgency-high"
                    sample_history) sample_history.
Proof.
  split; [reflexivity|].
  refine (proj1 (sortedHistory_stable sample_epoch "urgency-high"
                   sample_history _)).
  repeat constructor.
Defined.
